(** * Approval reconciliation of the session hook ([src/lib/hooks/useAuth.ts])

    The hook [useAuth] keeps five pieces of component state ([user],
    [profile], [loading], [isApproved], [isPendingApproval]).  Whenever [user]
    changes, the asynchronous function [loadProfile] cross-references the
    [profiles] and [pending_users] tables of the hosted store and decides
    whether the identity may stay signed in.

    [loadProfile] is embedded as a finite tree of synchronous effects and
    awaited requests; the hosted store and the auth provider are an explicit
    [Backend] value answering the requests.  A run-to-completion interpreter
    gives the behaviour of one reconciliation, and a cooperative scheduler
    gives the behaviour of several runs suspended at their [await]s. *)

From Stdlib Require Import Ascii.
From stdpp Require Import base option list strings gmap sorting pretty.

Open Scope string_scope.

(** ** Data model *)

(** The part of Supabase's [User] the hook reads. *)
Module User.
Record t : Type := make { id : string; email : option string }.
End User.

(** [interface UserProfile]; [is_approved?: boolean] is a nullable column, so
    it is [Some true], [Some false] or unset. *)
Module UserProfile.
Record t : Type := make {
  id : string;
  full_name : option string;
  department : option string;
  email : option string;
  is_approved : option bool
}.

(** The row after [.update({ is_approved: v })]. *)
Definition with_is_approved (v : bool) (p : t) : t :=
  make (id p) (full_name p) (department p) (email p) (Some v).
End UserProfile.

(** A row of [pending_users] as selected by [.select("status")]. *)
Record PendingUser : Type := { status : string }.

(** What an awaited store query resolves to: [{ data, error }].  The hook only
    ever destructures [data]. *)
Record PostgrestResponse (T : Type) : Type := {
  data : option T;
  error : option string
}.
Arguments data {T} _.
Arguments error {T} _.
Arguments Build_PostgrestResponse {T} _ _.

(** What [await supabase.auth.signOut()] resolves to: [{ error }]. *)
Record SignOutResponse : Type := { signOut_error : option string }.

(** The argument of [toast({...})]. *)
Record Toast : Type := {
  title : string;
  description : string;
  variant : option string;
  duration : option N
}.

(** The component state of the hook, which is also what it returns. *)
Record HookState : Type := {
  user : option User.t;
  profile : option UserProfile.t;
  loading : bool;
  isApproved : option bool;
  isPendingApproval : bool
}.

(** [useState] initial values. *)
Definition initialState : HookState :=
  {| user := None; profile := None; loading := true;
     isApproved := None; isPendingApproval := false |}.

(** ** Effects of [loadProfile] *)

(** Synchronous calls: the three state setters, [toast] and [navigate]. *)
Inductive Effect : Type :=
| SetProfile (p : option UserProfile.t)
| SetIsApproved (v : option bool)
| SetIsPendingApproval (v : bool)
| ShowToast (t : Toast)
| Navigate (route : string).

(** Awaited calls to the collaborators. *)
Inductive Request : Type :=
| SelectProfile (uid : string)
    (* from("profiles").select("id, full_name, department, email, is_approved")
       .eq("id", uid).single() *)
| SelectPendingStatus (uid : string)
    (* from("pending_users").select("status").eq("id", uid).single() *)
| UpdateIsApproved (uid : string) (v : bool)
    (* from("profiles").update({ is_approved: v }).eq("id", uid) *)
| SignOut.
    (* supabase.auth.signOut() *)

Definition Response (r : Request) : Type :=
  match r with
  | SelectProfile _ => PostgrestResponse UserProfile.t
  | SelectPendingStatus _ => PostgrestResponse PendingUser
  | UpdateIsApproved _ _ => PostgrestResponse unit
  | SignOut => SignOutResponse
  end.

(** An [async] function body: it returns, performs a synchronous effect and
    goes on, or suspends at an [await] until the response arrives. *)
Inductive Async (A : Type) : Type :=
| Return (a : A)
| Perform (e : Effect) (k : Async A)
| Await (r : Request) (k : Response r -> Async A).
Arguments Return {A} _.
Arguments Perform {A} _ _.
Arguments Await {A} _ _.

Fixpoint async_bind {A B : Type} (f : A -> Async B) (m : Async A) : Async B :=
  match m with
  | Return a => f a
  | Perform e k => Perform e (async_bind f k)
  | Await r k => Await r (fun x => async_bind f (k x))
  end.

#[global] Instance Async_ret : MRet Async := @Return.
#[global] Instance Async_bind : MBind Async := @async_bind.

Definition perform (e : Effect) : Async unit := Perform e (Return tt).
Definition await (r : Request) : Async (Response r) := Await r Return.

Definition setProfile (p : option UserProfile.t) : Async unit := perform (SetProfile p).
Definition setIsApproved (v : option bool) : Async unit := perform (SetIsApproved v).
Definition setIsPendingApproval (v : bool) : Async unit := perform (SetIsPendingApproval v).
Definition toast (t : Toast) : Async unit := perform (ShowToast t).
Definition navigate (route : string) : Async unit := perform (Navigate route).

(** JavaScript's [x === b] for a nullable boolean [x]. *)
Definition strict_eq (x : option bool) (b : bool) : bool :=
  match x with
  | Some v => Bool.eqb v b
  | None => false
  end.

(** ** The two notifications *)

Definition accessDeniedToast : Toast :=
  {| title := "Access Denied";
     description := "Your account has been rejected by an administrator.";
     variant := Some "destructive";
     duration := None |}.

Definition pendingApprovalToast : Toast :=
  {| title := "Account Pending Approval";
     description := "Your account is pending administrator approval. You'll be notified when your account is approved.";
     variant := None;
     duration := Some 6000%N |}.

(** ** [loadProfile]

    Each early [return] of the source is the end of its branch here; the
    statements after the last [else if] are the continuation shared by "no
    pending row" and "a status that matches none of the three literals". *)

Definition grandfather : Async unit :=
  setIsApproved (Some true);;
  setIsPendingApproval false.

Definition loadProfile (user : option User.t) : Async unit :=
  match user with
  | None =>
      setProfile None;;
      setIsApproved None;;
      setIsPendingApproval false
  | Some u =>
      r ← await (SelectProfile (User.id u));
      setProfile (data r);;
      match data r with
      | None => mret tt
      | Some d =>
          if strict_eq (UserProfile.is_approved d) false then
            setIsApproved (Some false);;
            setIsPendingApproval false;;
            await SignOut;;
            toast accessDeniedToast;;
            navigate "/login"
          else if strict_eq (UserProfile.is_approved d) true then
            setIsApproved (Some true);;
            setIsPendingApproval false
          else
            q ← await (SelectPendingStatus (User.id u));
            match data q with
            | Some pendingData =>
                if String.eqb (status pendingData) "pending" then
                  setIsApproved (Some false);;
                  setIsPendingApproval true;;
                  await SignOut;;
                  toast pendingApprovalToast;;
                  navigate "/login"
                else if String.eqb (status pendingData) "approved" then
                  setIsApproved (Some true);;
                  setIsPendingApproval false;;
                  await (UpdateIsApproved (User.id u) true);;
                  mret tt
                else if String.eqb (status pendingData) "rejected" then
                  setIsApproved (Some false);;
                  setIsPendingApproval false;;
                  await (UpdateIsApproved (User.id u) false);;
                  await SignOut;;
                  toast accessDeniedToast;;
                  navigate "/login"
                else grandfather
            | None => grandfather
            end
      end
  end.

(** ** Component state *)

Definition apply_effect (e : Effect) (h : HookState) : HookState :=
  match e with
  | SetProfile p =>
      {| user := user h; profile := p; loading := loading h;
         isApproved := isApproved h; isPendingApproval := isPendingApproval h |}
  | SetIsApproved v =>
      {| user := user h; profile := profile h; loading := loading h;
         isApproved := v; isPendingApproval := isPendingApproval h |}
  | SetIsPendingApproval v =>
      {| user := user h; profile := profile h; loading := loading h;
         isApproved := isApproved h; isPendingApproval := v |}
  | ShowToast _ | Navigate _ => h
  end.

(** The listener of [onAuthStateChange]:
    [setUser(session?.user ?? null); setLoading(false)]. *)
Definition onAuthStateChange (session : option User.t) (h : HookState) : HookState :=
  {| user := session; profile := profile h; loading := false;
     isApproved := isApproved h; isPendingApproval := isPendingApproval h |}.

(** ** The collaborators

    The hosted store and the auth provider are outside the repository; they
    are modelled by their contract ([fetchProfile], [fetchPendingRegistration]:
    a row, nothing, or a failure; [updateProfile], [revokeSession]: success or
    failure).  A query resolves to [{ data, error }] and never rejects: a
    failed call and a [.single()] that matches no row both resolve with
    [data = null].  [outages] decides which calls fail: each call consumes the
    head of the list, [true] meaning that this call fails; an empty list means
    that the backend is up. *)

Record Backend : Type := {
  profiles : gmap string UserProfile.t;
  pending_users : gmap string PendingUser;
  session : option User.t;
  outages : list bool
}.

Definition next_outage (b : Backend) : bool * Backend :=
  match outages b with
  | [] => (false, b)
  | down :: rest =>
      (down, {| profiles := profiles b; pending_users := pending_users b;
                session := session b; outages := rest |})
  end.

Definition failure {T : Type} (msg : string) : PostgrestResponse T :=
  {| data := None; error := Some msg |}.

Definition single {T : Type} (row : option T) : PostgrestResponse T :=
  match row with
  | Some x => {| data := Some x; error := None |}
  | None => failure "PGRST116"
  end.

Definition update_is_approved (uid : string) (v : bool) (b : Backend) : Backend :=
  {| profiles := alter (UserProfile.with_is_approved v) uid (profiles b);
     pending_users := pending_users b;
     session := session b; outages := outages b |}.

Definition end_session (b : Backend) : Backend :=
  {| profiles := profiles b; pending_users := pending_users b;
     session := None; outages := outages b |}.

Definition respond (b : Backend) (r : Request) : Response r * Backend :=
  let (down, b') := next_outage b in
  match r as r0 return Response r0 * Backend with
  | SelectProfile uid =>
      (if down then failure "fetch failed" else single (profiles b' !! uid), b')
  | SelectPendingStatus uid =>
      (if down then failure "fetch failed" else single (pending_users b' !! uid), b')
  | UpdateIsApproved uid v =>
      if down then (failure "fetch failed", b')
      else ({| data := None; error := None |}, update_is_approved uid v b')
  | SignOut =>
      if down then ({| signOut_error := Some "fetch failed" |}, b')
      else ({| signOut_error := None |}, end_session b')
  end.

(** ** One reconciliation run to completion *)

Inductive Event : Type :=
| Did (e : Effect)
| Called (r : Request).

Record Outcome : Type := {
  final : HookState;
  store : Backend;
  trace : list Event
}.

(** Every [await] is answered at once by the backend. *)
Fixpoint exec (t : Async unit) (h : HookState) (b : Backend) : Outcome :=
  match t with
  | Return _ => {| final := h; store := b; trace := [] |}
  | Perform e k =>
      let o := exec k (apply_effect e h) b in
      {| final := final o; store := store o; trace := Did e :: trace o |}
  | Await r k =>
      let (resp, b') := respond b r in
      let o := exec (k resp) h b' in
      {| final := final o; store := store o; trace := Called r :: trace o |}
  end.

Definition reconcile (u : option User.t) (h : HookState) (b : Backend) : Outcome :=
  exec (loadProfile u) h b.

(** What the profile and pending-registration lookups of a run resolve to. *)
Definition fetchProfile (uid : string) (b : Backend) : option UserProfile.t :=
  data (fst (respond b (SelectProfile uid))).

Definition fetchPendingRegistration (uid : string) (b : Backend) : option PendingUser :=
  data (fst (respond (snd (respond b (SelectProfile uid))) (SelectPendingStatus uid))).

(** The backend as the run finds it after its two lookups, and whether the
    call made then (the update of branches 4b and 4c) fails. *)
Definition after_lookups (uid : string) (b : Backend) : Backend :=
  snd (respond (snd (respond b (SelectProfile uid))) (SelectPendingStatus uid)).

Definition write_fails (uid : string) (b : Backend) : bool :=
  fst (next_outage (after_lookups uid b)).

(** ** Several runs in flight

    [loadProfile] is called by an effect whose dependencies are [user],
    [toast] and [navigate]: it starts again each time the listener (or the
    initial [getSession]) stores a user, and the effect returns no cleanup, so
    nothing cancels a run that is suspended at an [await] when [user] changes
    again.  A suspended run is its pending request and the rest of the
    function; [owner] and [log] only record who did what: no step lets them
    influence the component state or the backend. *)

Record Task : Type := {
  owner : option User.t;          (* the [user] captured by the closure *)
  request : Request;
  resume : Response request -> Async unit
}.

Inductive Entry : Type :=
| IdentityChanged (u : option User.t)
| ByRun (o : option User.t) (ev : Event).

Record System : Type := {
  hook : HookState;
  backend : Backend;
  tasks : list Task;
  log : list Entry
}.

(** No run in flight. *)
Definition idle (h : HookState) (b : Backend) : System :=
  {| hook := h; backend := b; tasks := []; log := [] |}.

Definition boot (b : Backend) : System := idle initialState b.

(** A run suspended at [await supabase.auth.signOut()] whose remaining
    statements are the toast [t] and the navigation to the login page. *)
Definition awaiting_signOut (u : User.t) (t : Toast) : Task :=
  {| owner := Some u; request := SignOut;
     resume := fun _ => toast t;; navigate "/login" |}.

(** Runs the synchronous code of [t] up to its next [await] or its end. *)
Fixpoint advance (o : option User.t) (t : Async unit) (sys : System) : System :=
  match t with
  | Return _ => sys
  | Perform e k =>
      advance o k
        {| hook := apply_effect e (hook sys); backend := backend sys;
           tasks := tasks sys; log := log sys ++ [ByRun o (Did e)] |}
  | Await r k =>
      {| hook := hook sys; backend := backend sys;
         tasks := tasks sys ++ [{| owner := o; request := r; resume := k |}];
         log := log sys ++ [ByRun o (Called r)] |}
  end.

Inductive Action : Type :=
| IdentityChange (u : option User.t)   (* the auth listener fires *)
| Resolve (i : nat).                   (* the backend answers task [i] *)

(** A response for a task that does not exist changes nothing. *)
Definition step (sys : System) (a : Action) : System :=
  match a with
  | IdentityChange u =>
      advance u (loadProfile u)
        {| hook := onAuthStateChange u (hook sys); backend := backend sys;
           tasks := tasks sys; log := log sys ++ [IdentityChanged u] |}
  | Resolve i =>
      match tasks sys !! i with
      | None => sys
      | Some t =>
          let (resp, b') := respond (backend sys) (request t) in
          advance (owner t) (resume t resp)
            {| hook := hook sys; backend := b';
               tasks := delete i (tasks sys); log := log sys |}
      end
  end.

Definition steps (sys : System) (acts : list Action) : System :=
  fold_left step acts sys.

#[global] Instance User_eq_dec : EqDecision User.t.
Proof. solve_decision. Defined.

Definition is_setter (ev : Event) : bool :=
  match ev with
  | Did (SetProfile _) | Did (SetIsApproved _) | Did (SetIsPendingApproval _) => true
  | _ => false
  end.

(** No run writes to the component state once [user] is no longer the
    identity it was started for. *)
Fixpoint stale_free (current : option User.t) (l : list Entry) : bool :=
  match l with
  | [] => true
  | IdentityChanged u :: rest => stale_free u rest
  | ByRun o ev :: rest =>
      (if is_setter ev then bool_decide (o = current) else true)
      && stale_free current rest
  end.

(** A schedule in which the identity only changes while no run is suspended. *)
Fixpoint no_overlap (sys : System) (acts : list Action) : bool :=
  match acts with
  | [] => true
  | a :: rest =>
      match a, tasks sys with
      | IdentityChange _, _ :: _ => false
      | _, _ => no_overlap (step sys a) rest
      end
  end.

(** Answers the oldest suspended run until none is left (or [fuel] is spent). *)
Fixpoint settle (fuel : nat) (sys : System) : System :=
  match fuel with
  | 0 => sys
  | S n =>
      match tasks sys with
      | [] => sys
      | _ :: _ => settle n (step sys (Resolve 0))
      end
  end.

(** The identity the listener reported last. *)
Fixpoint current_identity (c : option User.t) (l : list Entry) : option User.t :=
  match l with
  | [] => c
  | IdentityChanged u :: rest => current_identity u rest
  | ByRun _ _ :: rest => current_identity c rest
  end.

Definition with_user (u : option User.t) (sys : System) : System :=
  {| hook := {| user := u; profile := profile (hook sys);
                loading := loading (hook sys);
                isApproved := isApproved (hook sys);
                isPendingApproval := isPendingApproval (hook sys) |};
     backend := backend sys; tasks := tasks sys; log := log sys |}.

(** The statement of the stale-result guard: in every schedule, a setter is
    only ever called by the run of the current identity. *)
Definition stale_results_discarded : Prop :=
  forall (b : Backend) (acts : list Action),
    stale_free None (log (steps (boot b) acts)) = true.

(** ** Reading the component state as the specification does *)

Inductive ApprovalStatus : Type := approved | rejected | pending | unknown.

Definition approvalStatus (h : HookState) : ApprovalStatus :=
  match isApproved h with
  | None => unknown
  | Some true => approved
  | Some false => if isPendingApproval h then pending else rejected
  end.

(** [isPendingApproval] is only ever exposed together with [isApproved = false]. *)
Definition pending_implies_not_approved (h : HookState) : Prop :=
  isPendingApproval h = true -> isApproved h = Some false.

(** ** Sample data *)

Definition alice : User.t := User.make "a1" (Some "alice@example.org").
Definition bob : User.t := User.make "b2" (Some "bob@example.org").

Definition row (uid : string) (v : option bool) : UserProfile.t :=
  UserProfile.make uid (Some "Name") None None v.

(** A backend that is up ([outs] empty) or fails the calls that [outs] marks. *)
Definition up (ps : list (string * option bool)) (qs : list (string * string))
    (outs : list bool) : Backend :=
  {| profiles := list_to_map (map (fun p => (fst p, row (fst p) (snd p))) ps);
     pending_users := list_to_map (map (fun q => (fst q, {| status := snd q |})) qs);
     session := None; outages := outs |}.

Definition rejected_profile : Backend := up [("a1", Some false)] [] [].
Definition unset_profile_only : Backend := up [("a1", None)] [] [].
Definition registration (st : string) : Backend := up [("a1", None)] [("a1", st)] [].
Definition two_profiles : Backend :=
  up [("a1", Some true); ("b2", Some false)] [] [].

(** Bob's lookup is answered before Alice's, both after Bob became current. *)
Definition overlapping : list Action :=
  [IdentityChange (Some alice); IdentityChange (Some bob); Resolve 1; Resolve 0].

(** Alice's run has completed when Bob becomes current. *)
Definition one_after_the_other : list Action :=
  [IdentityChange (Some alice); Resolve 0;
   IdentityChange (Some bob); Resolve 0; Resolve 0].

(** ** Synchronous segments

    Between two [await]s a run executes without interruption.  [segment t h]
    is the component state once the code of [t] reaches its next [await] or
    its end; [resumptions P t] says that whatever the collaborators answer,
    every later piece of [t] satisfies [P]. *)

Fixpoint segment (t : Async unit) (h : HookState) : HookState :=
  match t with
  | Return _ => h
  | Perform e k => segment k (apply_effect e h)
  | Await _ _ => h
  end.

Fixpoint resumptions (P : Async unit -> Prop) (t : Async unit) : Prop :=
  match t with
  | Return _ => True
  | Perform _ k => resumptions P k
  | Await r k => forall resp : Response r, P (k resp) /\ resumptions P (k resp)
  end.

Definition keeps_invariant (t : Async unit) : Prop :=
  forall h, pending_implies_not_approved h ->
            pending_implies_not_approved (segment t h).

Definition well_behaved (t : Async unit) : Prop :=
  keeps_invariant t /\ resumptions keeps_invariant t.

Definition task_well_behaved (tk : Task) : Prop :=
  forall resp : Response (request tk),
    keeps_invariant (resume tk resp)
    /\ resumptions keeps_invariant (resume tk resp).

Definition system_invariant (sys : System) : Prop :=
  pending_implies_not_approved (hook sys)
  /\ Forall task_well_behaved (tasks sys).

(** Every suspended run belongs to the identity reported last, and so far no
    setter was called by another one. *)
Definition in_step (sys : System) : Prop :=
  stale_free None (log sys) = true
  /\ Forall (fun tk => owner tk = current_identity None (log sys)) (tasks sys).

(** ** Observations on traces *)

Definition is_revoke (ev : Event) : bool :=
  match ev with Called SignOut => true | _ => false end.

Definition is_write (ev : Event) : bool :=
  match ev with Called (UpdateIsApproved _ _) => true | _ => false end.

Definition is_pending_fetch (ev : Event) : bool :=
  match ev with Called (SelectPendingStatus _) => true | _ => false end.

Definition is_call (ev : Event) : bool :=
  match ev with Called _ => true | Did _ => false end.

Definition is_notification (ev : Event) : bool :=
  match ev with Did (ShowToast _) | Did (Navigate _) => true | _ => false end.

Definition count (p : Event -> bool) (tr : list Event) : nat :=
  length (List.filter p tr).

(** The grandfather fall-through: what the run does once the profile is
    found with [is_approved] unset and none of the three status branches is
    taken. *)
Definition grandfathered (u : User.t) (d : UserProfile.t) (b : Backend)
    (o : Outcome) : Prop :=
  trace o = [Called (SelectProfile (User.id u)); Did (SetProfile (Some d));
             Called (SelectPendingStatus (User.id u));
             Did (SetIsApproved (Some true)); Did (SetIsPendingApproval false)]
  /\ isApproved (final o) = Some true
  /\ isPendingApproval (final o) = false
  /\ approvalStatus (final o) = approved
  /\ count is_write (trace o) = 0
  /\ count is_revoke (trace o) = 0
  /\ count is_notification (trace o) = 0
  /\ profiles (store o) = profiles b
  /\ pending_users (store o) = pending_users b
  /\ session (store o) = session b.

(** ** A run overtaken by an identity change

    Identity [a] is reported from an idle state; before the profile lookup of
    its run is answered the listener reports [c] (another user, or nobody);
    then the lookup of [a]'s run, which is the oldest suspended task, is
    answered. *)
Definition overtaken (a : User.t) (c : option User.t) : list Action :=
  [IdentityChange (Some a); IdentityChange c; Resolve 0].

(** ** The reading of a failed lookup as "approval unresolved"

    A profile lookup that resolves with no data would leave the exposed
    approval unknown, whatever the state the run started from. *)
Definition failed_fetch_leaves_approval_unresolved : Prop :=
  forall (u : User.t) (h : HookState) (b : Backend),
    fetchProfile (User.id u) b = None ->
    approvalStatus (final (reconcile (Some u) h b)) = unknown.

(** Alice is approved; then Bob signs in and his profile lookup fails (the
    second call of the backend is marked as an outage). *)
Definition approved_then_outage : Backend := up [("a1", Some true)] [] [false; true].

Definition alice_then_bob : list Action :=
  [IdentityChange (Some alice); Resolve 0; IdentityChange (Some bob); Resolve 0].

(** ** A promise that rejects

    The store client resolves a failed query with an [error] field, and
    [loadProfile] relies on it: the function contains no [try], so an awaited
    promise that rejected would throw at its [await], nothing after it would
    run, and the promise of [loadProfile()], which the effect drops, would
    reject.  [rejects] tells which awaited calls reject. *)
Inductive Completion : Type :=
| Completed
| Uncaught (r : Request).

Fixpoint exec_rejecting (rejects : Request -> bool) (t : Async unit)
    (h : HookState) (b : Backend) : Outcome * Completion :=
  match t with
  | Return _ => ({| final := h; store := b; trace := [] |}, Completed)
  | Perform e k =>
      let (o, c) := exec_rejecting rejects k (apply_effect e h) b in
      ({| final := final o; store := store o; trace := Did e :: trace o |}, c)
  | Await r k =>
      if rejects r
      then ({| final := h; store := b; trace := [Called r] |}, Uncaught r)
      else
        let (resp, b') := respond b r in
        let (o, c) := exec_rejecting rejects (k resp) h b' in
        ({| final := final o; store := store o; trace := Called r :: trace o |}, c)
  end.

(** ** Further observations on schedules, traces and rows *)

(** The identity carried by the last listener event of a schedule. *)
Fixpoint last_identity (c : option User.t) (acts : list Action) : option User.t :=
  match acts with
  | [] => c
  | IdentityChange u :: rest => last_identity u rest
  | Resolve _ :: rest => last_identity c rest
  end.

Definition is_identity_change (a : Action) : bool :=
  match a with IdentityChange _ => true | Resolve _ => false end.

Definition is_denial (ev : Event) : bool :=
  match ev with Did (SetIsApproved (Some false)) => true | _ => false end.

Definition is_toast (ev : Event) : bool :=
  match ev with Did (ShowToast _) => true | _ => false end.

Definition is_navigate (ev : Event) : bool :=
  match ev with Did (Navigate _) => true | _ => false end.

(** The request does not update the row [uid]. *)
Definition spares (uid : string) (r : Request) : Prop :=
  match r with
  | UpdateIsApproved uid' _ => uid' <> uid
  | _ => True
  end.

(** No request that [t] can still make updates the row [uid]. *)
Fixpoint avoids (uid : string) (t : Async unit) : Prop :=
  match t with
  | Return _ => True
  | Perform _ k => avoids uid k
  | Await r k => spares uid r /\ forall resp : Response r, avoids uid (k resp)
  end.

Definition task_avoids (uid : string) (tk : Task) : Prop :=
  spares uid (request tk) /\ forall resp, avoids uid (resume tk resp).

(** * Code with exceptions: the pages and the served functions

    The remaining asynchronous code uses [try]/[catch]/[finally] and calls
    collaborators that may reject.  A [Proc] either returns, performs a
    synchronous effect, awaits a call (which resolves with a response or
    rejects with an error), or throws. *)

Inductive Proc (Eff Req Err : Type) (Resp : Req -> Type) (A : Type) : Type :=
| PRet (a : A)
| PDo (e : Eff) (k : Proc Eff Req Err Resp A)
| PCall (q : Req) (k : Err + Resp q -> Proc Eff Req Err Resp A)
| PThrow (err : Err).
Arguments PRet {Eff Req Err Resp A} _.
Arguments PDo {Eff Req Err Resp A} _ _.
Arguments PCall {Eff Req Err Resp A} _ _.
Arguments PThrow {Eff Req Err Resp A} _.

Fixpoint proc_bind {Eff Req Err : Type} {Resp : Req -> Type} {A B : Type}
    (f : A -> Proc Eff Req Err Resp B) (m : Proc Eff Req Err Resp A)
    : Proc Eff Req Err Resp B :=
  match m with
  | PRet a => f a
  | PDo e k => PDo e (proc_bind f k)
  | PCall q k => PCall q (fun x => proc_bind f (k x))
  | PThrow err => PThrow err
  end.

#[global] Instance Proc_ret {Eff Req Err Resp} : MRet (Proc Eff Req Err Resp) :=
  fun A a => PRet a.
#[global] Instance Proc_bind {Eff Req Err Resp} : MBind (Proc Eff Req Err Resp) :=
  fun A B f m => proc_bind f m.

(** [try { body } catch (err) { handler err }]. *)
Fixpoint try_catch {Eff Req Err : Type} {Resp : Req -> Type} {A : Type}
    (body : Proc Eff Req Err Resp A) (handler : Err -> Proc Eff Req Err Resp A)
    : Proc Eff Req Err Resp A :=
  match body with
  | PRet a => PRet a
  | PDo e k => PDo e (try_catch k handler)
  | PCall q k => PCall q (fun x => try_catch (k x) handler)
  | PThrow err => handler err
  end.

(** [try { body } finally { cleanup }]: [cleanup] runs whether [body]
    completes or throws, and what [body] did then stands. *)
Fixpoint try_finally {Eff Req Err : Type} {Resp : Req -> Type} {A : Type}
    (body : Proc Eff Req Err Resp A) (cleanup : Proc Eff Req Err Resp unit)
    : Proc Eff Req Err Resp A :=
  match body with
  | PRet a => cleanup;; PRet a
  | PDo e k => PDo e (try_finally k cleanup)
  | PCall q k => PCall q (fun x => try_finally (k x) cleanup)
  | PThrow err => cleanup;; PThrow err
  end.

Definition pdo {Eff Req Err : Type} {Resp : Req -> Type} (e : Eff)
    : Proc Eff Req Err Resp unit :=
  PDo e (PRet tt).

(** [await q]: a rejection is thrown where the call is awaited. *)
Definition pawait {Eff Req Err : Type} {Resp : Req -> Type} (q : Req)
    : Proc Eff Req Err Resp (Resp q) :=
  PCall q (fun x => match x with inl err => PThrow err | inr r => PRet r end).

(** What running a [Proc] to its end gives: the component state, the
    collaborators' state, what was done in order, and the value returned or
    the error left uncaught. *)
Record Ran (S W Eff Req Err A : Type) : Type := {
  ran_state : S;
  ran_world : W;
  ran_events : list (Eff + Req);
  ran_result : Err + A
}.
Arguments ran_state {S W Eff Req Err A} _.
Arguments ran_world {S W Eff Req Err A} _.
Arguments ran_events {S W Eff Req Err A} _.
Arguments ran_result {S W Eff Req Err A} _.
Arguments Build_Ran {S W Eff Req Err A} _ _ _ _.

(** The collaborators are any function [answer] on any state [W]. *)
Fixpoint run {S W Eff Req Err : Type} {Resp : Req -> Type} {A : Type}
    (apply : Eff -> S -> S)
    (answer : forall q : Req, W -> (Err + Resp q) * W)
    (p : Proc Eff Req Err Resp A) (s : S) (w : W) : Ran S W Eff Req Err A :=
  match p with
  | PRet a => Build_Ran s w [] (inr a)
  | PDo e k =>
      let r := run apply answer k (apply e s) w in
      Build_Ran (ran_state r) (ran_world r) (inl e :: ran_events r) (ran_result r)
  | PCall q k =>
      let (x, w') := answer q w in
      let r := run apply answer (k x) s w' in
      Build_Ran (ran_state r) (ran_world r) (inr q :: ran_events r) (ran_result r)
  | PThrow err => Build_Ran s w [] (inl err)
  end.

(** A thrown or rejected value; [message] is what [err.message] reads. *)
Record JsError : Type := { message : option string }.

(** [{ data, error }] with an error object. *)
Record Reply (T : Type) : Type := { reply_data : option T; reply_error : option JsError }.
Arguments reply_data {T} _.
Arguments reply_error {T} _.
Arguments Build_Reply {T} _ _.

(** [x || fallback] for a nullable string [x]. *)
Definition or_else (x : option string) (fallback : string) : string :=
  match x with
  | Some s => if String.eqb s "" then fallback else s
  | None => fallback
  end.

(** Truthiness of a string: [!s] is [negb (truthy s)]. *)
Definition truthy (s : string) : bool := negb (String.eqb s "").

(** ** The profile page (a caller of [useAuth])

    [ProfilePage] reads [user] from the hook and keeps the form in
    [loading], [fullName], [department], [departments] and [error]. *)

Module ProfilePage.

(** A row of [departments] as selected by [.select("id, name")]. *)
Record Department : Type := { id : string; name : string }.

(** The columns selected by [.select("full_name, department")]. *)
Module Row.
Record t : Type := { full_name : option string; department : option string }.
End Row.

(** The object passed to [.update({...})]. *)
Module Payload.
Record t : Type := {
  full_name : string;
  department : string;
  email : option string;
  updated_at : string
}.
End Payload.

Record State : Type := {
  loading : bool;
  fullName : string;
  department : string;
  departments : list Department;
  error : option string
}.

(** [useState] initial values. *)
Definition initial : State :=
  {| loading := false; fullName := ""; department := "";
     departments := []; error := None |}.

Inductive Effect : Type :=
| PreventDefault
| SetLoading (v : bool)
| SetFullName (v : string)
| SetDepartment (v : string)
| SetDepartments (v : list Department)
| SetError (v : option string)
| ShowToast (t : Toast)
| ConsoleError (label : string) (err : JsError).

Inductive Request : Type :=
| SelectNameAndDepartment (uid : string)
    (* from("profiles").select("full_name, department").eq("id", uid).single() *)
| SelectDepartments
    (* from("departments").select("id, name").order("name") *)
| UpdateProfile (fields : Payload.t) (uid : option string).
    (* from("profiles").update(fields).eq("id", user?.id) *)

Definition Response (q : Request) : Type :=
  match q with
  | SelectNameAndDepartment _ => Reply Row.t
  | SelectDepartments => Reply (list Department)
  | UpdateProfile _ _ => Reply unit
  end.

Definition M : Type -> Type := Proc Effect Request JsError Response.

Definition apply (e : Effect) (s : State) : State :=
  match e with
  | SetLoading v =>
      {| loading := v; fullName := fullName s; department := department s;
         departments := departments s; error := error s |}
  | SetFullName v =>
      {| loading := loading s; fullName := v; department := department s;
         departments := departments s; error := error s |}
  | SetDepartment v =>
      {| loading := loading s; fullName := fullName s; department := v;
         departments := departments s; error := error s |}
  | SetDepartments v =>
      {| loading := loading s; fullName := fullName s; department := department s;
         departments := v; error := error s |}
  | SetError v =>
      {| loading := loading s; fullName := fullName s; department := department s;
         departments := departments s; error := v |}
  | PreventDefault | ShowToast _ | ConsoleError _ _ => s
  end.

(** [loadProfile] of the page's effect. *)
Definition loadProfile (user : option User.t) : M unit :=
  match user with
  | Some u =>
      if truthy (User.id u) then
        r ← pawait (SelectNameAndDepartment (User.id u));
        match reply_data r with
        | Some data =>
            pdo (SetFullName (or_else (Row.full_name data) ""));;
            pdo (SetDepartment (or_else (Row.department data) ""))
        | None => mret tt
        end
      else mret tt
  | None => mret tt
  end.

Definition technology : Department := {| id := "technology"; name := "Technology" |}.

(** Both fallback blocks of [loadDepartments]. *)
Definition fallbackDepts (department : string) : M unit :=
  pdo (SetDepartments [technology]);;
  if negb (truthy department) then pdo (SetDepartment "Technology") else mret tt.

(** [loadDepartments]; [department] is the value captured by the effect. *)
Definition loadDepartments (department : string) : M unit :=
  try_catch
    (r ← pawait SelectDepartments;
     match reply_error r with
     | Some err => PThrow err
     | None =>
         match reply_data r with
         | Some (first :: rest) =>
             pdo (SetDepartments (first :: rest));;
             if negb (truthy department) then pdo (SetDepartment (name first))
             else mret tt
         | Some [] | None => fallbackDepts department
         end
     end)
    (fun err =>
       pdo (ConsoleError "Error loading departments:" err);;
       fallbackDepts department).

Definition profileUpdated : Toast :=
  {| title := "Profile updated";
     description := "Your profile has been updated successfully.";
     variant := None; duration := None |}.

Definition updateFailed (err : JsError) : Toast :=
  {| title := "Error";
     description := or_else (message err) "Failed to update profile.";
     variant := Some "destructive"; duration := None |}.

(** [handleSubmit]; [s] is the state of the render whose form is submitted
    and [now] is [new Date().toISOString()]. *)
Definition handleSubmit (user : option User.t) (s : State) (now : string) : M unit :=
  pdo PreventDefault;;
  pdo (SetLoading true);;
  try_finally
    (try_catch
       (pdo (SetError None);;
        r ← pawait (UpdateProfile
                      {| Payload.full_name := fullName s;
                         Payload.department := department s;
                         Payload.email := user ≫= User.email;
                         Payload.updated_at := now |}
                      (User.id <$> user));
        match reply_error r with
        | Some updateError => PThrow updateError
        | None => pdo (ShowToast profileUpdated)
        end)
       (fun err =>
          pdo (ConsoleError "Profile update error:" err);;
          pdo (SetError (Some (or_else (message err) "Failed to update profile")));;
          pdo (ShowToast (updateFailed err))))
    (pdo (SetLoading false)).

Definition is_toast (ev : Effect + Request) : bool :=
  match ev with inl (ShowToast _) => true | _ => false end.

Definition is_request (ev : Effect + Request) : bool :=
  match ev with inr _ => true | inl _ => false end.

(** A stub collaborator that answers every call with the given replies. *)
Definition scripted (row : Reply Row.t) (depts : Reply (list Department))
    (upd : JsError + Reply unit)
    (q : Request) (w : unit) : (JsError + Response q) * unit :=
  match q as q0 return (JsError + Response q0) * unit with
  | SelectNameAndDepartment _ => (inr row, w)
  | SelectDepartments => (inr depts, w)
  | UpdateProfile _ _ => (upd, w)
  end.

End ProfilePage.

(** ** The sign-in callback page

    [AuthCallback] looks for an error in the query string and in the hash
    fragment of the URL, then asks for the session.  [URLSearchParams] and
    [decodeURIComponent] belong to the browser: they are parameters, the
    second one returning the [URIError] it throws on a malformed escape. *)

(** [s.split(sep)] for a one-character separator. *)
Fixpoint split_on (sep : ascii) (s : string) : list string :=
  match s with
  | EmptyString => [""]
  | String c rest =>
      if Ascii.eqb c sep then "" :: split_on sep rest
      else match split_on sep rest with
           | piece :: pieces => String c piece :: pieces
           | [] => [String c ""]
           end
  end.

(** [c] does not occur in [s]. *)
Fixpoint free_of (c : ascii) (s : string) : bool :=
  match s with
  | EmptyString => true
  | String c' rest => negb (Ascii.eqb c' c) && free_of c rest
  end.

(** [a || b] on nullable strings. *)
Definition js_or (a b : option string) : option string :=
  match a with
  | Some s => if truthy s then Some s else b
  | None => b
  end.

Definition truthy_opt (a : option string) : bool :=
  match a with
  | Some s => truthy s
  | None => false
  end.

Module AuthCallback.

Record Location : Type := { search : string; hash : string }.

(** [{ data: { session }, error }] of [supabase.auth.getSession()]; only the
    presence of a session is read. *)
Record SessionReply : Type := { has_session : bool; error : option JsError }.

Inductive Effect : Type :=
| SetError (v : option string)
| Navigate (route : string)
| ConsoleError (label : string) (err : JsError).

Inductive Request : Type := GetSession.

Definition Response (q : Request) : Type := SessionReply.

Definition M : Type -> Type := Proc Effect Request JsError Response.

Definition apply (e : Effect) (err : option string) : option string :=
  match e with
  | SetError v => v
  | Navigate _ | ConsoleError _ _ => err
  end.

Section Browser.

Variable URLSearchParams_get : string -> string -> option string.
Variable decodeURIComponent : string -> JsError + string.

(** [location.hash.substring(1)]. *)
Definition hashFragment (location : Location) : string :=
  match hash location with
  | EmptyString => ""
  | String _ rest => rest
  end.

(** [hashParams[key] = v] on the plain object [hashParams]: assigning a
    string to [__proto__] changes nothing. *)
Definition assign (key v : string) (hashParams : gmap string string)
    : gmap string string :=
  if String.eqb key "__proto__" then hashParams else <[key := v]> hashParams.

(** The body of [pairs.forEach]: the pairs are read in order; a pair needs
    a non-empty key and a non-empty value; later pairs overwrite earlier
    ones; the first value that cannot be decoded throws. *)
Fixpoint parsePairs (pairs : list string) (hashParams : gmap string string)
    : JsError + gmap string string :=
  match pairs with
  | [] => inr hashParams
  | entry :: rest =>
      match split_on "="%char entry with
      | key :: value :: _ =>
          if truthy key && truthy value then
            match decodeURIComponent value with
            | inl err => inl err
            | inr v => parsePairs rest (assign key v hashParams)
            end
          else parsePairs rest hashParams
      | _ => parsePairs rest hashParams
      end
  end.

Definition parseHash (location : Location) : JsError + gmap string string :=
  if truthy (hashFragment location)
  then parsePairs (split_on "&"%char (hashFragment location)) ∅
  else inr ∅.

Definition unexpected : string :=
  "An unexpected error occurred during authentication".

Definition handleAuthCallback (location : Location) : M unit :=
  try_catch
    (match parseHash location with
     | inl err => PThrow err
     | inr hashParams =>
         let errorParam :=
           js_or (URLSearchParams_get (search location) "error")
                 (hashParams !! "error") in
         let errorDescription :=
           js_or (URLSearchParams_get (search location) "error_description")
                 (hashParams !! "error_description") in
         if truthy_opt errorParam then
           match errorDescription with
           | Some d =>
               match decodeURIComponent d with
               | inl err => PThrow err
               | inr text => pdo (SetError (Some text))
               end
           | None => pdo (SetError (Some "Authentication error"))
           end
         else
           r ← pawait GetSession;
           match error r with
           | Some err => pdo (SetError (message err))
           | None =>
               if has_session r then pdo (Navigate "/")
               else pdo (Navigate "/login")
           end
     end)
    (fun err =>
       pdo (ConsoleError "Auth callback error:" err);;
       pdo (SetError (Some unexpected))).

(** The listener given to [onAuthStateChange]. *)
Definition onAuthStateChange (event : string) (session : bool) : M unit :=
  if String.eqb event "SIGNED_IN" && session then pdo (Navigate "/")
  else if String.eqb event "SIGNED_OUT" then pdo (Navigate "/login")
  else mret tt.

End Browser.

Definition is_navigate (ev : Effect + Request) : bool :=
  match ev with inl (Navigate _) => true | _ => false end.

Definition is_set_error (ev : Effect + Request) : bool :=
  match ev with inl (SetError _) => true | _ => false end.

Definition is_request (ev : Effect + Request) : bool :=
  match ev with inr _ => true | inl _ => false end.

(** [k1=v1&k2=v2&...] *)
Fixpoint fragment_of (pairs : list (string * string)) : string :=
  match pairs with
  | [] => ""
  | [(k, v)] => String.append k (String "="%char v)
  | (k, v) :: rest =>
      String.append k (String "="%char (String.append v (String "&"%char (fragment_of rest))))
  end.

(** A non-empty string without [&] and [=]. *)
Definition token (s : string) : bool :=
  truthy s && free_of "&"%char s && free_of "="%char s.

End AuthCallback.

(** A stub for [decodeURIComponent] that rejects any text containing [%]
    and returns the others unchanged, and a query string without parameters. *)
Definition decode_plain (s : string) : JsError + string :=
  if free_of "%"%char s then inr s else inl {| message := Some "URI malformed" |}.

Definition no_query (query name : string) : option string := None.

(** ** The served functions

    A served function maps a request to an HTTP response.  JSON values that
    are only passed on are kept abstract; [!x] on them is [negb (is_truthy x)]. *)

(** A served function has no component state and performs no effect. *)
Definition no_effect (e : Empty_set) (s : unit) : unit := s.

Module Http.

Definition corsHeaders : list (string * string) :=
  [("Access-Control-Allow-Origin", "*");
   ("Access-Control-Allow-Headers",
    "authorization, x-client-info, apikey, content-type")].

(** [{ ...corsHeaders, "Content-Type": "application/json" }] *)
Definition jsonHeaders : list (string * string) :=
  corsHeaders ++ [("Content-Type", "application/json")].

(** The argument of [JSON.stringify] (or the text) of a response. *)
Inductive Payload (Id Text : Type) : Type :=
| PlainText (text : string)
| ErrorBody (error : option string)             (* { error } *)
| SuccessBody (message : string)                (* { success: true, message } *)
| ChatBody (conversationId : Id) (message : Text).  (* { conversationId, message } *)
Arguments PlainText {Id Text} _.
Arguments ErrorBody {Id Text} _.
Arguments SuccessBody {Id Text} _.
Arguments ChatBody {Id Text} _ _.

Record HttpResponse (Id Text : Type) : Type := {
  status : nat;
  headers : list (string * string);
  body : Payload Id Text
}.
Arguments status {Id Text} _.
Arguments headers {Id Text} _.
Arguments body {Id Text} _.
Arguments Build_HttpResponse {Id Text} _ _ _.

(** [new Response(JSON.stringify(body), { headers: jsonHeaders, status })] *)
Definition json_response {Id Text : Type} (code : nat) (b : Payload Id Text)
    : HttpResponse Id Text :=
  {| status := code; headers := jsonHeaders; body := b |}.

(** [new Response("ok", { headers: corsHeaders })] *)
Definition preflight {Id Text : Type} : HttpResponse Id Text :=
  {| status := 200; headers := corsHeaders; body := PlainText "ok" |}.

End Http.

Module GenerateEmbedding.

Section Types.

(** [Id]: the JSON value of [id]; [Content]: [knowledgeEntry.content];
    [Embedding]: a vector returned by the embedding model. *)
Variables Id Content Embedding : Type.
Variable is_truthy : Id -> bool.
(** The [TypeError]s of destructuring [null] and of
    [embeddingResponse.data[0].embedding] on an empty [data]. *)
Variables destructuringError indexError : JsError.

(** What [await req.json()] resolves to, as far as [const { id } = ...]
    reads it: [null], or a value whose [id] is absent or present. *)
Inductive Parsed : Type :=
| ParsedNull
| ParsedWith (id : option Id).

Inductive Request : Type :=
| CreateClients                       (* createClient(...), new OpenAI(...) *)
| ReadJson                            (* req.json() *)
| SelectKnowledge (id : Id)           (* from("pm_knowledge").select("*").eq("id", id).single() *)
| CreateEmbedding (input : Content)   (* openai.embeddings.create({ model, input }) *)
| UpdateEmbedding (id : Id) (embedding : Embedding).
                                      (* from("pm_knowledge").update({ embedding }).eq("id", id) *)

Definition Response (q : Request) : Type :=
  match q with
  | CreateClients => unit
  | ReadJson => Parsed
  | SelectKnowledge _ => Reply Content
  | CreateEmbedding _ => list Embedding     (* embeddingResponse.data *)
  | UpdateEmbedding _ _ => Reply unit
  end.

Definition M : Type -> Type := Proc Empty_set Request JsError Response.

Definition respond_json (code : nat) (b : Http.Payload Id unit) : M (Http.HttpResponse Id unit) :=
  mret (Http.json_response code b).

(** The handler given to [serve]. *)
Definition handler (method : string) : M (Http.HttpResponse Id unit) :=
  if String.eqb method "OPTIONS" then mret Http.preflight
  else
    try_catch
      (pawait CreateClients;;
       parsed ← pawait ReadJson;
       match parsed with
       | ParsedNull => PThrow destructuringError
       | ParsedWith id =>
           match id with
           | Some id' =>
               if is_truthy id' then
                 r ← pawait (SelectKnowledge id');
                 match reply_error r, reply_data r with
                 | None, Some content =>
                     data ← pawait (CreateEmbedding content);
                     match data with
                     | [] => PThrow indexError
                     | embedding :: _ =>
                         u ← pawait (UpdateEmbedding id' embedding);
                         match reply_error u with
                         | Some _ =>
                             respond_json 500 (Http.ErrorBody (Some "Failed to update embedding"))
                         | None =>
                             respond_json 200 (Http.SuccessBody "Embedding generated successfully")
                         end
                     end
                 | _, _ => respond_json 404 (Http.ErrorBody (Some "Knowledge entry not found"))
                 end
               else respond_json 400 (Http.ErrorBody (Some "Missing required fields"))
           | None => respond_json 400 (Http.ErrorBody (Some "Missing required fields"))
           end
       end)
      (fun err => respond_json 500 (Http.ErrorBody (message err))).

(** A call, as it appears in the list of what a run did. *)
Definition called (q : Request) : Empty_set + Request := inr q.

Definition is_model_call (ev : Empty_set + Request) : bool :=
  match ev with inr (CreateEmbedding _) => true | _ => false end.

Definition is_update (ev : Empty_set + Request) : bool :=
  match ev with inr (UpdateEmbedding _ _) => true | _ => false end.

Definition is_select (ev : Empty_set + Request) : bool :=
  match ev with inr (SelectKnowledge _) => true | _ => false end.

(** One request served against the collaborators [answer]. *)
Definition serve {W : Type}
    (answer : forall q : Request, W -> (JsError + Response q) * W)
    (method : string) (w : W) :=
  run no_effect answer (handler method) tt w.

End Types.

End GenerateEmbedding.

(** Two [TypeError]s. *)
Definition not_an_object : JsError :=
  {| message := Some "Cannot destructure property of null" |}.
Definition nothing_at_0 : JsError :=
  {| message := Some "Cannot read properties of undefined" |}.

(** A collaborator for [GenerateEmbedding] that finds every entry, returns
    one embedding and accepts every update. *)
Definition embedding_stub (q : GenerateEmbedding.Request string string nat) (w : unit)
    : (JsError + GenerateEmbedding.Response string string nat q) * unit :=
  match q as q0
        return (JsError + GenerateEmbedding.Response string string nat q0) * unit with
  | GenerateEmbedding.CreateClients _ _ _ => (inr tt, w)
  | GenerateEmbedding.ReadJson _ _ _ =>
      (inr (GenerateEmbedding.ParsedWith string (Some "k1")), w)
  | GenerateEmbedding.SelectKnowledge _ _ _ _ =>
      (inr (Build_Reply (Some "content") None), w)
  | GenerateEmbedding.CreateEmbedding _ _ _ _ => (inr [7], w)
  | GenerateEmbedding.UpdateEmbedding _ _ _ _ _ => (inr (Build_Reply None None), w)
  end.

(** ** The milestone timeline ([GanttChart])

    Dates are handled through their time value (milliseconds, an integer for
    every valid date).  [Date_getTime] is [new Date(s).getTime()] on the
    date strings of the milestones, which are taken to be valid dates;
    [addDays] is the function of date-fns, [plusWeek] is
    [setDate(getDate() + 7)] and [format] is [format(date, "MMM d, yyyy")]:
    all three depend on the local calendar and are parameters. *)

Module GanttChart.

Inductive Status : Type := green | yellow | red.

(** [completion] is only passed on. *)
Record Milestone : Type := {
  id : option string;
  date : string;
  milestone : string;
  owner : string;
  completion : Z;
  status : Status
}.

(** An element of [chartData]. *)
Record Bar : Type := {
  name : string;
  bar_owner : string;
  bar_date : string;
  formattedDate : string;
  bar_completion : Z;
  bar_status : Status;
  statusColor : string;
  index : nat;
  xPosition : nat
}.

Section Calendar.

Variable Date_getTime : string -> Z.
Variable addDays : Z -> Z -> Z.
Variable plusWeek : Z -> Z.
Variable format : Z -> string.

Definition time (m : Milestone) : Z := Date_getTime (date m).

(** Not later than. *)
Definition earlier (a b : Milestone) : Prop := (time a <= time b)%Z.

(** [[...milestones].sort((a, b) => time a - time b)]: the sort is stable,
    so its result is the one of inserting each milestone, from the last to
    the first, before the first milestone that is not earlier. *)
Fixpoint insert_by_date (m : Milestone) (sorted : list Milestone) : list Milestone :=
  match sorted with
  | [] => [m]
  | x :: rest =>
      if (time m <=? time x)%Z then m :: x :: rest
      else x :: insert_by_date m rest
  end.

Definition sortedMilestones (milestones : list Milestone) : list Milestone :=
  foldr insert_by_date [] milestones.

(** [earliestDate] and [latestDate]. *)
Definition window (today : Z) (sorted : list Milestone) : Z * Z :=
  match sorted with
  | [] => (addDays today (-15), addDays today 15)
  | first :: _ =>
      let earliestDate := time first in
      let latestDate := time (List.last sorted first) in
      (if (earliestDate >? addDays today (-15))%Z then addDays today (-15)
       else earliestDate,
       if (latestDate <? addDays today 15)%Z then addDays today 15
       else latestDate)
  end.

(** The [while (currentDate <= latestDate)] loop, for at most [fuel] turns. *)
Fixpoint weekly (fuel : nat) (currentDate latestDate : Z) : list Z :=
  match fuel with
  | 0 => []
  | S n =>
      if (currentDate <=? latestDate)%Z
      then currentDate :: weekly n (plusWeek currentDate) latestDate
      else []
  end.

(** Enough turns when a week is at least a millisecond. *)
Definition allDates (earliestDate latestDate : Z) : list Z :=
  weekly (S (Z.to_nat (latestDate - earliestDate))) earliestDate latestDate.

(** [formattedDates.findIndex(f => f === format(date))] *)
Fixpoint findIndex (wanted : string) (formattedDates : list string) (idx : nat)
    : option nat :=
  match formattedDates with
  | [] => None
  | f :: rest => if String.eqb f wanted then Some idx else findIndex wanted rest (S idx)
  end.

(** [allDates.reduce((closest, current, idx) => ..., 0)], reading
    [allDates[closest]] in the whole array. *)
Fixpoint reduce_closest (ticks : list Z) (target : Z) (rest : list Z)
    (idx closest : nat) : nat :=
  match rest with
  | [] => closest
  | current :: rest' =>
      let currentDiff := Z.abs (current - target) in
      let closestDiff := Z.abs (List.nth closest ticks 0%Z - target) in
      reduce_closest ticks target rest' (S idx)
        (if (currentDiff <? closestDiff)%Z then idx else closest)
  end.

Definition closestDateIndex (ticks : list Z) (target : Z) : nat :=
  reduce_closest ticks target ticks 0 0.

(** The distance of tick [i] to the target. *)
Definition distance (ticks : list Z) (target : Z) (i : nat) : Z :=
  Z.abs (List.nth i ticks 0%Z - target).

Definition position (ticks : list Z) (target : Z) : nat :=
  match findIndex (format target) (map format ticks) 0 with
  | Some datePosition => datePosition
  | None => closestDateIndex ticks target
  end.

Definition colorOf (status : Status) : string :=
  match status with
  | green => "#4ade80"
  | yellow => "#facc15"
  | red => "#f87171"
  end.

Definition chartData (today : Z) (milestones : list Milestone) : list Bar :=
  let sorted := sortedMilestones milestones in
  let ticks := allDates (window today sorted).1 (window today sorted).2 in
  imap (fun i m =>
          {| name := milestone m; bar_owner := owner m; bar_date := date m;
             formattedDate := format (time m);
             bar_completion := completion m; bar_status := status m;
             statusColor := colorOf (status m);
             index := i;
             xPosition := position ticks (time m) |})
       sorted.

End Calendar.

End GanttChart.

(** A calendar without daylight saving, and the day number as format. *)
Definition utc_addDays (t d : Z) : Z := (t + d * 86400000)%Z.
Definition utc_plusWeek (t : Z) : Z := (t + 604800000)%Z.
Definition day_number (t : Z) : string := pretty (t / 86400000)%Z.

(** Every date string is read as the fortieth day. *)
Definition fortieth (s : string) : Z := (40 * 86400000)%Z.

Definition kickoff : GanttChart.Milestone :=
  {| GanttChart.id := None; GanttChart.date := "1970-02-10";
     GanttChart.milestone := "Kick-off"; GanttChart.owner := "PM";
     GanttChart.completion := 50; GanttChart.status := GanttChart.yellow |}.

(** ** The chat function ([project-chat], the version without logging) *)

(** A line feed and a double quote. *)
Definition nl : string := String (ascii_of_nat 10) "".
Definition dq : string := String (ascii_of_nat 34) "".

(** [`${x}`] for a nullable text. *)
Definition show_null (x : option string) : string :=
  match x with
  | Some s => s
  | None => "null"
  end.

(** The collaborators' state once the calls [qs] have been answered in turn. *)
Definition after {W Req Err : Type} {Resp : Req -> Type}
    (answer : forall q : Req, W -> (Err + Resp q) * W) (qs : list Req) (w : W) : W :=
  fold_left (fun w' q => snd (answer q w')) qs w.

Module ProjectChat.

Record Project : Type := {
  title : option string;
  description : option string;
  value_statement : option string;
  status : option string;
  project_manager : option string;
  sponsors : option string;
  business_leads : option string
}.

(** A row returned by [match_pm_knowledge]. *)
Record Knowledge : Type := { item_title : option string; item_content : option string }.

Section Types.

(** [Value]: a JSON value that is passed on ([projectId], [message], a
    conversation id, the content of a stored message); [UserId]: [user.id];
    [Embedding]: a vector of the embedding model. *)
Variables Value UserId Embedding : Type.
Variable is_truthy : Value -> bool.
(** The [TypeError]s of destructuring [null], of
    [embeddingResponse.data[0].embedding] on an empty [data], of
    [history.map] on [null] and of [completion.choices[0].message] on an
    empty [choices]. *)
Variables destructuringError indexError mapError choiceError : JsError.

(** What [await req.json()] resolves to, as far as the destructuring reads
    it. *)
Inductive Parsed : Type :=
| ParsedNull
| ParsedWith (projectId message conversationId : option Value).

(** [{ data: { user }, error }] of [auth.getUser] ([data] is always an
    object); [user] stands for a truthy [user], by its [id]. *)
Record UserReply : Type := { user : option UserId; user_error : option JsError }.

(** A row of [chat_messages] as selected by [.select("role, content")]. *)
Record HistoryRow : Type := { role : string; content : Value }.

Inductive Content : Type :=
| Text (s : string)
| Given (v : Value).

(** An element of [messages]. *)
Record ChatMessage : Type := { msg_role : string; msg_content : Content }.

Inductive Effect : Type :=
| ConsoleError (label : string) (err : JsError).

Inductive Request : Type :=
| CreateClient                          (* createClient(url, anonKey) *)
| CreateOpenAI                          (* new OpenAI({ apiKey }) *)
| ReadJson                              (* req.json() *)
| GetUser (jwt : option string)         (* auth.getUser(authHeader.split(" ")[1]) *)
| SelectProject (projectId : Value)
    (* from("projects").select("title, ...").eq("id", projectId).single() *)
| InsertConversation (project_id : Value) (user_id : UserId) (title : string)
    (* from("chat_conversations").insert({ ... }).select().single() *)
| SelectHistory (conversation_id : Value)
    (* from("chat_messages").select("role, content")
       .eq("conversation_id", convoId).order("created_at", ...) *)
| CreateEmbedding (input : Value)
    (* openai.embeddings.create({ model, input }); the model is a constant *)
| MatchKnowledge (query_embedding : Embedding)
    (* rpc("match_pm_knowledge", { query_embedding, ... }); the threshold
       and the count are constants *)
| InsertMessage (conversation_id : Value) (role : string) (content : Content)
    (* from("chat_messages").insert({ conversation_id, role, content }) *)
| CreateCompletion (messages : list ChatMessage).
    (* openai.chat.completions.create({ model, messages, ... }); the model,
       the temperature and the token limit are constants *)

Definition Response (q : Request) : Type :=
  match q with
  | CreateClient | CreateOpenAI => unit
  | ReadJson => Parsed
  | GetUser _ => UserReply
  | SelectProject _ => Reply Project
  | InsertConversation _ _ _ => Reply Value          (* newConvo.id *)
  | SelectHistory _ => Reply (list HistoryRow)
  | CreateEmbedding _ => list Embedding              (* embeddingResponse.data *)
  | MatchKnowledge _ => Reply (list Knowledge)
  | InsertMessage _ _ _ => Reply unit
  | CreateCompletion _ => list (option string)
      (* completion.choices, each as its message?.content *)
  end.

Definition M : Type -> Type := Proc Effect Request JsError Response.

Definition Answer : Type := Http.HttpResponse Value string.

Definition respond_error (code : nat) (text : string) : M Answer :=
  mret (Http.json_response code (Http.ErrorBody (Some text))).

(** The loop over [relevantKnowledge]. *)
Fixpoint knowledgeItems (index : nat) (items : list Knowledge) : string :=
  match items with
  | [] => ""
  | item :: rest =>
      String.concat ""
        [pretty (index + 1); ". "; show_null (item_title item); ":"; nl;
         show_null (item_content item); nl; nl;
         knowledgeItems (S index) rest]
  end.

Definition knowledgeContext (relevantKnowledge : option (list Knowledge)) : string :=
  match relevantKnowledge with
  | Some (item :: rest) =>
      String.concat ""
        ["Here is some relevant project management knowledge that might help with this query:";
         nl; nl; knowledgeItems 0 (item :: rest)]
  | Some [] | None => ""
  end.

Definition systemPrompt (project : Project) (knowledgeContext : string) : string :=
  String.concat ""
    [
     "You are Project Pilot, an expert project management assistant. You are helping with a project titled ";
     dq; show_null (title project); dq; "."; nl; nl; nl; "    Project details:"; nl;
     nl; "    - Description: "; or_else (description project) "Not provided"; nl;
     nl; "    - Value Statement: ";
     or_else (value_statement project) "Not provided"; nl; nl; "    - Status: ";
     or_else (status project) "Active"; nl; nl; "    - Project Manager: ";
     or_else (project_manager project) "Not assigned"; nl; nl; "    - Sponsors: ";
     or_else (sponsors project) "Not assigned"; nl; nl; "    - Business Leads: ";
     or_else (business_leads project) "Not assigned"; nl; nl; nl; "    ";
     knowledgeContext; nl; nl; nl;
     "    Provide specific, actionable advice tailored to this project. Be concise, practical, and helpful. Focus on best practices in project management and how they apply to this specific project."].

Definition messagesFor (systemPrompt : string) (history : list HistoryRow)
    (message : Value) : list ChatMessage :=
  ({| msg_role := "system"; msg_content := Text systemPrompt |}
   :: map (fun msg => {| msg_role := role msg; msg_content := Given (content msg) |})
        history
   ++ [{| msg_role := "user"; msg_content := Given message |}])%list.

Definition noResponse : string := "Sorry, I could not generate a response.".

(** The part of the handler that follows the choice of [convoId]. *)
Definition converse (project : Project) (message convoId : Value) : M Answer :=
  h ← pawait (SelectHistory convoId);
  match reply_error h with
  | Some _ => respond_error 500 "Failed to fetch conversation history"
  | None =>
      data ← pawait (CreateEmbedding message);
      match data with
      | [] => PThrow indexError
      | embedding :: _ =>
          k ← pawait (MatchKnowledge embedding);
          match reply_error k with
          | Some searchError => pdo (ConsoleError "Knowledge search error:" searchError)
          | None => mret tt
          end;;
          let prompt := systemPrompt project (knowledgeContext (reply_data k)) in
          u ← pawait (InsertMessage convoId "user" (Given message));
          match reply_error u with
          | Some _ => respond_error 500 "Failed to save user message"
          | None =>
              match reply_data h with
              | None => PThrow mapError
              | Some history =>
                  c ← pawait (CreateCompletion (messagesFor prompt history message));
                  match c with
                  | [] => PThrow choiceError
                  | first :: _ =>
                      let responseContent := or_else first noResponse in
                      a ← pawait (InsertMessage convoId "assistant"
                                    (Text responseContent));
                      match reply_error a with
                      | Some _ =>
                          respond_error 500 "Failed to save assistant message"
                      | None =>
                          mret (Http.json_response 200
                                  (Http.ChatBody convoId responseContent))
                      end
                  end
              end
          end
      end
  end.

Definition newConversation (project : Project) (projectId message : Value)
    (uid : UserId) : M Answer :=
  n ← pawait (InsertConversation projectId uid
                (String.append "Chat about " (show_null (title project))));
  match reply_error n, reply_data n with
  | None, Some newId => converse project message newId
  | _, _ => respond_error 500 "Failed to create conversation"
  end.

(** The handler given to [serve]; [authHeader] is
    [req.headers.get("Authorization")]. *)
Definition handler (method : string) (authHeader : option string) : M Answer :=
  if String.eqb method "OPTIONS" then mret Http.preflight
  else
    try_catch
      (pawait CreateClient;;
       match authHeader with
       | Some header =>
           if truthy header then
             pawait CreateOpenAI;;
             parsed ← pawait ReadJson;
             match parsed with
             | ParsedNull => PThrow destructuringError
             | ParsedWith (Some projectId) (Some message) conversationId =>
                 if is_truthy projectId && is_truthy message then
                   u ← pawait (GetUser (split_on " "%char header !! 1));
                   match user_error u, user u with
                   | None, Some uid =>
                       p ← pawait (SelectProject projectId);
                       match reply_error p, reply_data p with
                       | None, Some project =>
                           match conversationId with
                           | Some convoId =>
                               if is_truthy convoId
                               then converse project message convoId
                               else newConversation project projectId message uid
                           | None => newConversation project projectId message uid
                           end
                       | _, _ => respond_error 404 "Project not found"
                       end
                   | _, _ => respond_error 401 "Unauthorized"
                   end
                 else respond_error 400 "Missing required fields"
             | ParsedWith _ _ _ => respond_error 400 "Missing required fields"
             end
           else respond_error 401 "Missing authorization header"
       | None => respond_error 401 "Missing authorization header"
       end)
      (fun err =>
         pdo (ConsoleError "Error:" err);;
         respond_error 500 (or_else (message err) "An unexpected error occurred")).

Definition apply (e : Effect) (s : unit) : unit := s.

(** One request served against the collaborators [answer]. *)
Definition serve {W : Type}
    (answer : forall q : Request, W -> (JsError + Response q) * W)
    (method : string) (authHeader : option string) (w : W) :=
  run apply answer (handler method authHeader) tt w.

(** The calls that read or write project data or reach the models. *)
Definition is_privileged (q : Request) : bool :=
  match q with
  | SelectProject _ | InsertConversation _ _ _ | SelectHistory _
  | CreateEmbedding _ | MatchKnowledge _ | InsertMessage _ _ _
  | CreateCompletion _ => true
  | CreateClient | CreateOpenAI | ReadJson | GetUser _ => false
  end.

(** The calls of a run, without what it logged. *)
Definition requests (evs : list (Effect + Request)) : list Request :=
  omap (fun ev => match ev with inr q => Some q | inl _ => None end) evs.

End Types.

Arguments ParsedNull {Value}.
Arguments ParsedWith {Value} _ _ _.
Arguments user {UserId} _.
Arguments user_error {UserId} _.
Arguments role {Value} _.
Arguments content {Value} _.
Arguments Text {Value} _.
Arguments Given {Value} _.
Arguments msg_role {Value} _.
Arguments msg_content {Value} _.
Arguments CreateClient {Value UserId Embedding}.
Arguments CreateOpenAI {Value UserId Embedding}.
Arguments ReadJson {Value UserId Embedding}.
Arguments GetUser {Value UserId Embedding} _.
Arguments SelectProject {Value UserId Embedding} _.
Arguments InsertConversation {Value UserId Embedding} _ _ _.
Arguments SelectHistory {Value UserId Embedding} _.
Arguments CreateEmbedding {Value UserId Embedding} _.
Arguments MatchKnowledge {Value UserId Embedding} _.
Arguments InsertMessage {Value UserId Embedding} _ _ _.
Arguments CreateCompletion {Value UserId Embedding} _.
Arguments messagesFor {Value} _ _ _.
Arguments requests {Value UserId Embedding} _.
Arguments is_privileged {Value UserId Embedding} _.
Arguments serve {Value UserId Embedding} _ _ _ _ _ {W} _ _ _ _.

End ProjectChat.

(** A project and collaborators for [ProjectChat] that find it, know the
    caller, hold no earlier message and return one choice. *)
Definition status_sheet : ProjectChat.Project :=
  {| ProjectChat.title := Some "Status sheet";
     ProjectChat.description := None;
     ProjectChat.value_statement := Some "";
     ProjectChat.status := Some "On hold";
     ProjectChat.project_manager := None;
     ProjectChat.sponsors := None;
     ProjectChat.business_leads := None |}.

Definition chat_stub (q : @ProjectChat.Request string string nat) (w : unit)
    : (JsError + ProjectChat.Response string string nat q) * unit :=
  match q as q0
        return (JsError + ProjectChat.Response string string nat q0) * unit with
  | ProjectChat.CreateClient => (inr tt, w)
  | ProjectChat.CreateOpenAI => (inr tt, w)
  | ProjectChat.ReadJson =>
      (inr (ProjectChat.ParsedWith (Some "p1") (Some "How are we doing?") None), w)
  | ProjectChat.GetUser _ =>
      (inr {| ProjectChat.user := Some "u1"; ProjectChat.user_error := None |}, w)
  | ProjectChat.SelectProject _ => (inr (Build_Reply (Some status_sheet) None), w)
  | ProjectChat.InsertConversation _ _ _ => (inr (Build_Reply (Some "c1") None), w)
  | ProjectChat.SelectHistory _ => (inr (Build_Reply (Some []) None), w)
  | ProjectChat.CreateEmbedding _ => (inr [7], w)
  | ProjectChat.MatchKnowledge _ => (inr (Build_Reply (Some []) None), w)
  | ProjectChat.InsertMessage _ _ _ => (inr (Build_Reply None None), w)
  | ProjectChat.CreateCompletion _ => (inr [Some "On track."], w)
  end.

(** * Properties *)

(** ** What the collaborators leave alone *)

Lemma next_outage_profiles b : profiles (snd (next_outage b)) = profiles b.
Proof. unfold next_outage. by destruct (outages b). Qed.

Lemma next_outage_pending_users b :
  pending_users (snd (next_outage b)) = pending_users b.
Proof. unfold next_outage. by destruct (outages b). Qed.

Lemma next_outage_session b : session (snd (next_outage b)) = session b.
Proof. unfold next_outage. by destruct (outages b). Qed.

Lemma respond_pending_users b r :
  pending_users (snd (respond b r)) = pending_users b.
Proof.
  unfold respond. pose proof (next_outage_pending_users b) as H.
  destruct (next_outage b) as [down b']; simpl in H.
  destruct r; simpl; try done; by destruct down.
Qed.

Lemma respond_profiles b r :
  is_write (Called r) = false -> profiles (snd (respond b r)) = profiles b.
Proof.
  unfold respond. pose proof (next_outage_profiles b) as H.
  destruct (next_outage b) as [down b']; simpl in H.
  destruct r; simpl; try done; by destruct down.
Qed.

Lemma respond_session b r :
  is_revoke (Called r) = false -> session (snd (respond b r)) = session b.
Proof.
  unfold respond. pose proof (next_outage_session b) as H.
  destruct (next_outage b) as [down b']; simpl in H.
  destruct r; simpl; try done; by destruct down.
Qed.

(** A lookup resolves with no data exactly when the call failed or no row
    matched. *)
Lemma fetchProfile_None uid b :
  fetchProfile uid b = None <->
  fst (next_outage b) = true \/ profiles b !! uid = None.
Proof.
  unfold fetchProfile, respond. pose proof (next_outage_profiles b) as H.
  destruct (next_outage b) as [down b']; simpl in *. rewrite H.
  destruct down; simpl; [tauto|].
  destruct (profiles b !! uid); simpl; intuition congruence.
Qed.

Lemma fetchPendingRegistration_None uid b :
  fetchPendingRegistration uid b = None <->
  fst (next_outage (snd (respond b (SelectProfile uid)))) = true
  \/ pending_users b !! uid = None.
Proof.
  unfold fetchPendingRegistration.
  pose proof (respond_pending_users b (SelectProfile uid)) as Hp.
  destruct (respond b (SelectProfile uid)) as [r1 b1]; simpl in *.
  unfold respond. pose proof (next_outage_pending_users b1) as H.
  destruct (next_outage b1) as [down b']; simpl in *. rewrite H, Hp.
  destruct down; simpl; [tauto|].
  destruct (pending_users b !! uid); simpl; intuition congruence.
Qed.

(** Unfolds one run against the two lookups it may make. *)
Ltac run_profile_fetch uid b r1 b1 E1 :=
  unfold reconcile, fetchProfile, fetchPendingRegistration in *; simpl in *;
  destruct (respond b (SelectProfile uid)) as [r1 b1] eqn:E1; simpl in *.

Ltac run_pending_fetch uid b1 r2 b2 E2 :=
  destruct (respond b1 (SelectPendingStatus uid)) as [r2 b2] eqn:E2; simpl in *.

(** C8. When the identity is absent, the run sets [profile] to none,
    [isApproved] to null (status unknown) and [isPendingApproval] to false,
    and it calls no collaborator at all: the trace holds the three setters
    only, the body contains no [await], and the backend is untouched. *)
Theorem C8_signed_out_resets_without_store_calls (h : HookState) (b : Backend) :
  let o := reconcile None h b in
  profile (final o) = None
  /\ isApproved (final o) = None
  /\ approvalStatus (final o) = unknown
  /\ isPendingApproval (final o) = false
  /\ trace o = [Did (SetProfile None); Did (SetIsApproved None);
                Did (SetIsPendingApproval false)]
  /\ count is_call (trace o) = 0
  /\ store o = b
  /\ tasks (step (idle h b) (IdentityChange None)) = [].
Proof. by repeat split. Qed.

(** C1. When the fetched profile has [is_approved === false], the run ends
    in the rejected branch: [isApproved] is false and [isPendingApproval] is
    false; [signOut] is called exactly once, and the "Access Denied" toast and
    the navigation to "/login" come after it, in that order; the pending
    registration is never fetched and no row of either table is written.
    Once the profile lookup is answered the run is suspended on [signOut], and
    the toast and the navigation are all that is left to do after it. *)
Theorem C1_rejected_profile_revokes_and_notifies
    (u : User.t) (h : HookState) (b : Backend) (d : UserProfile.t) :
  fetchProfile (User.id u) b = Some d ->
  UserProfile.is_approved d = Some false ->
  let o := reconcile (Some u) h b in
  trace o = [Called (SelectProfile (User.id u)); Did (SetProfile (Some d));
             Did (SetIsApproved (Some false)); Did (SetIsPendingApproval false);
             Called SignOut;
             Did (ShowToast accessDeniedToast); Did (Navigate "/login")]
  /\ isApproved (final o) = Some false
  /\ isPendingApproval (final o) = false
  /\ approvalStatus (final o) = rejected
  /\ count is_revoke (trace o) = 1
  /\ count is_pending_fetch (trace o) = 0
  /\ count is_write (trace o) = 0
  /\ profiles (store o) = profiles b
  /\ pending_users (store o) = pending_users b
  /\ tasks (steps (idle h b) [IdentityChange (Some u); Resolve 0])
     = [awaiting_signOut u accessDeniedToast].
Proof.
  intros Hd Hfalse. unfold steps.
  run_profile_fetch (User.id u) b r1 b1 E1.
  rewrite Hd; simpl. rewrite Hfalse; simpl.
  destruct (respond b1 SignOut) as [r2 b2] eqn:E2; simpl.
  pose proof (respond_profiles b (SelectProfile (User.id u)) eq_refl) as P1.
  pose proof (respond_pending_users b (SelectProfile (User.id u))) as Q1.
  pose proof (respond_profiles b1 SignOut eq_refl) as P2.
  pose proof (respond_pending_users b1 SignOut) as Q2.
  rewrite E1 in P1, Q1. rewrite E2 in P2, Q2. simpl in *.
  repeat split; congruence.
Qed.

Lemma C1_rejected_profile_witness :
  count is_revoke (trace (reconcile (Some alice) initialState rejected_profile)) = 1
  /\ approvalStatus (final (reconcile (Some alice) initialState rejected_profile))
     = rejected.
Proof.
  pose proof (C1_rejected_profile_revokes_and_notifies alice initialState
                rejected_profile (row "a1" (Some false))
                eq_refl eq_refl) as H.
  cbv zeta in H. split; apply H.
Defined.

(** The frame of a run that has made the two lookups and nothing else. *)
Lemma lookups_frame uid b r1 b1 r2 b2 :
  respond b (SelectProfile uid) = (r1, b1) ->
  respond b1 (SelectPendingStatus uid) = (r2, b2) ->
  profiles b2 = profiles b /\ pending_users b2 = pending_users b
  /\ session b2 = session b.
Proof.
  intros E1 E2.
  pose proof (respond_profiles b (SelectProfile uid) eq_refl) as P1.
  pose proof (respond_pending_users b (SelectProfile uid)) as Q1.
  pose proof (respond_session b (SelectProfile uid) eq_refl) as S1.
  pose proof (respond_profiles b1 (SelectPendingStatus uid) eq_refl) as P2.
  pose proof (respond_pending_users b1 (SelectPendingStatus uid)) as Q2.
  pose proof (respond_session b1 (SelectPendingStatus uid) eq_refl) as S2.
  rewrite E1 in P1, Q1, S1. rewrite E2 in P2, Q2, S2. simpl in *.
  repeat split; congruence.
Qed.

(** C5. With [is_approved] unset and a pending registration whose status is
    "pending", the run exposes [isApproved = false] with
    [isPendingApproval = true] (status pending), calls [signOut] once, then
    shows the "Account Pending Approval" toast and navigates to "/login"; it
    writes nothing to the store.  Once the two lookups are answered the run is
    suspended on [signOut], with the toast and the navigation left to do. *)
Theorem C5_pending_registration_revokes
    (u : User.t) (h : HookState) (b : Backend) (d : UserProfile.t)
    (q : PendingUser) :
  fetchProfile (User.id u) b = Some d ->
  UserProfile.is_approved d = None ->
  fetchPendingRegistration (User.id u) b = Some q ->
  status q = "pending" ->
  let o := reconcile (Some u) h b in
  trace o = [Called (SelectProfile (User.id u)); Did (SetProfile (Some d));
             Called (SelectPendingStatus (User.id u));
             Did (SetIsApproved (Some false)); Did (SetIsPendingApproval true);
             Called SignOut;
             Did (ShowToast pendingApprovalToast); Did (Navigate "/login")]
  /\ isApproved (final o) = Some false
  /\ isPendingApproval (final o) = true
  /\ approvalStatus (final o) = pending
  /\ count is_revoke (trace o) = 1
  /\ count is_write (trace o) = 0
  /\ profiles (store o) = profiles b
  /\ pending_users (store o) = pending_users b
  /\ tasks (steps (idle h b) [IdentityChange (Some u); Resolve 0; Resolve 0])
     = [awaiting_signOut u pendingApprovalToast].
Proof.
  intros Hd Hunset Hq Hstatus. unfold steps.
  run_profile_fetch (User.id u) b r1 b1 E1.
  rewrite Hd; simpl. rewrite Hunset; simpl.
  run_pending_fetch (User.id u) b1 r2 b2 E2.
  rewrite Hq; simpl. rewrite Hstatus; simpl.
  destruct (lookups_frame _ _ _ _ _ _ E1 E2) as (P & Q & _).
  destruct (respond b2 SignOut) as [r3 b3] eqn:E3; simpl.
  pose proof (respond_profiles b2 SignOut eq_refl) as P3.
  pose proof (respond_pending_users b2 SignOut) as Q3.
  rewrite E3 in P3, Q3; simpl in *.
  repeat split; congruence.
Qed.

Lemma C5_pending_registration_witness :
  isPendingApproval
    (final (reconcile (Some alice) initialState (registration "pending"))) = true
  /\ count is_revoke
       (trace (reconcile (Some alice) initialState (registration "pending"))) = 1.
Proof.
  pose proof (C5_pending_registration_revokes alice initialState
                (registration "pending")
                (row "a1" None) {| status := "pending" |}
                eq_refl eq_refl eq_refl eq_refl) as H.
  cbv zeta in H. split; apply H.
Defined.

(** C6. With [is_approved] unset and a pending registration whose status is
    "rejected", the run exposes [isApproved = false] with
    [isPendingApproval = false], sends the update [is_approved: false] for the
    identity's profile, then calls [signOut], shows the "Access Denied" toast
    and navigates to "/login".  The run is the same whether or not the update
    succeeds; when it does, the stored profile carries [is_approved = false].
    Once the lookups and the update are answered the run is suspended on
    [signOut], with the toast and the navigation left to do. *)
Theorem C6_rejected_registration_mirrors_and_revokes
    (u : User.t) (h : HookState) (b : Backend) (d : UserProfile.t)
    (q : PendingUser) :
  fetchProfile (User.id u) b = Some d ->
  UserProfile.is_approved d = None ->
  fetchPendingRegistration (User.id u) b = Some q ->
  status q = "rejected" ->
  let o := reconcile (Some u) h b in
  trace o = [Called (SelectProfile (User.id u)); Did (SetProfile (Some d));
             Called (SelectPendingStatus (User.id u));
             Did (SetIsApproved (Some false)); Did (SetIsPendingApproval false);
             Called (UpdateIsApproved (User.id u) false);
             Called SignOut;
             Did (ShowToast accessDeniedToast); Did (Navigate "/login")]
  /\ isApproved (final o) = Some false
  /\ isPendingApproval (final o) = false
  /\ approvalStatus (final o) = rejected
  /\ count is_revoke (trace o) = 1
  /\ pending_users (store o) = pending_users b
  /\ profiles (store o)
     = (if write_fails (User.id u) b then profiles b
        else alter (UserProfile.with_is_approved false) (User.id u) (profiles b))
  /\ tasks (steps (idle h b)
              [IdentityChange (Some u); Resolve 0; Resolve 0; Resolve 0])
     = [awaiting_signOut u accessDeniedToast].
Proof.
  intros Hd Hunset Hq Hstatus.
  unfold write_fails, after_lookups, steps.
  run_profile_fetch (User.id u) b r1 b1 E1.
  rewrite Hd; simpl. rewrite Hunset; simpl.
  run_pending_fetch (User.id u) b1 r2 b2 E2.
  rewrite Hq; simpl. rewrite Hstatus; simpl.
  destruct (lookups_frame _ _ _ _ _ _ E1 E2) as (P & Q & _).
  destruct (respond b2 (UpdateIsApproved (User.id u) false)) as [r3 b3] eqn:E3.
  destruct (respond b3 SignOut) as [r4 b4] eqn:E4; simpl.
  pose proof (respond_pending_users b2 (UpdateIsApproved (User.id u) false)) as Q3.
  pose proof (respond_profiles b3 SignOut eq_refl) as P4.
  pose proof (respond_pending_users b3 SignOut) as Q4.
  rewrite E3 in Q3. rewrite E4 in P4, Q4. simpl in *.
  repeat split; try congruence.
  rewrite P4. clear E4 P4 Q4.
  unfold respond in E3. pose proof (next_outage_profiles b2) as N.
  destruct (next_outage b2) as [down b2']; simpl in N.
  destruct down; inversion E3; subst; simpl; congruence.
Qed.

Lemma C6_rejected_registration_witness :
  approvalStatus
    (final (reconcile (Some alice) initialState (registration "rejected")))
  = rejected
  /\ profiles
       (store (reconcile (Some alice) initialState (registration "rejected")))
     !! "a1" = Some (row "a1" (Some false)).
Proof.
  pose proof (C6_rejected_registration_mirrors_and_revokes alice initialState
                (registration "rejected")
                (row "a1" None) {| status := "rejected" |}
                eq_refl eq_refl eq_refl eq_refl) as H.
  cbv zeta in H. destruct H as (_ & _ & _ & Hr & _ & _ & Hp & _).
  split; [exact Hr|]. rewrite Hp. reflexivity.
Defined.

Lemma fetchProfile_Some uid b d :
  fetchProfile uid b = Some d ->
  fst (next_outage b) = false /\ profiles b !! uid = Some d.
Proof.
  unfold fetchProfile, respond. pose proof (next_outage_profiles b) as H.
  destruct (next_outage b) as [down b']; simpl in *. rewrite H.
  destruct down; simpl; [discriminate|].
  destruct (profiles b !! uid); simpl; [|discriminate].
  intros [= ->]. done.
Qed.

Lemma grandfather_fallthrough u h b d :
  fetchProfile (User.id u) b = Some d ->
  UserProfile.is_approved d = None ->
  match fetchPendingRegistration (User.id u) b with
  | None => True
  | Some q =>
      status q <> "pending" /\ status q <> "approved" /\ status q <> "rejected"
  end ->
  grandfathered u d b (reconcile (Some u) h b).
Proof.
  intros Hd Hunset Hq. unfold grandfathered.
  run_profile_fetch (User.id u) b r1 b1 E1.
  rewrite Hd; simpl. rewrite Hunset; simpl.
  run_pending_fetch (User.id u) b1 r2 b2 E2.
  destruct (lookups_frame _ _ _ _ _ _ E1 E2) as (P & Q & S).
  destruct (data r2) as [q|]; simpl.
  - destruct Hq as (H1 & H2 & H3).
    apply String.eqb_neq in H1, H2, H3. rewrite H1, H2, H3. simpl.
    by repeat split.
  - by repeat split.
Qed.

(** C7. With [is_approved] unset and no row in [pending_users] for the
    identity, the run exposes [isApproved = true] with
    [isPendingApproval = false]; it makes the two lookups and nothing else: no
    update, no [signOut], no toast, no navigation, and both tables and the
    session are as they were. *)
Theorem C7_no_registration_is_grandfathered
    (u : User.t) (h : HookState) (b : Backend) (d : UserProfile.t) :
  fetchProfile (User.id u) b = Some d ->
  UserProfile.is_approved d = None ->
  pending_users b !! User.id u = None ->
  grandfathered u d b (reconcile (Some u) h b).
Proof.
  intros Hd Hunset Hnone. apply grandfather_fallthrough; [done..|].
  assert (fetchPendingRegistration (User.id u) b = None) as ->; [|done].
  apply fetchPendingRegistration_None. by right.
Qed.

Lemma C7_no_registration_witness :
  grandfathered alice (row "a1" None) unset_profile_only
    (reconcile (Some alice) initialState unset_profile_only).
Proof.
  apply (C7_no_registration_is_grandfathered alice initialState
           unset_profile_only (row "a1" None)); reflexivity.
Defined.

(** C10. With [is_approved] unset and a pending registration whose status is
    none of "pending", "approved" and "rejected", the run falls through to the
    grandfather statements: [isApproved = true], [isPendingApproval = false],
    no update, no [signOut], no toast and no navigation. *)
Theorem C10_unrecognized_status_is_grandfathered
    (u : User.t) (h : HookState) (b : Backend) (d : UserProfile.t)
    (q : PendingUser) :
  fetchProfile (User.id u) b = Some d ->
  UserProfile.is_approved d = None ->
  fetchPendingRegistration (User.id u) b = Some q ->
  status q <> "pending" -> status q <> "approved" -> status q <> "rejected" ->
  grandfathered u d b (reconcile (Some u) h b).
Proof.
  intros Hd Hunset Hq H1 H2 H3. apply grandfather_fallthrough; [done..|].
  by rewrite Hq.
Qed.

Lemma C10_unrecognized_status_witness :
  grandfathered alice (row "a1" None) (registration "on hold")
    (reconcile (Some alice) initialState (registration "on hold")).
Proof.
  apply (C10_unrecognized_status_is_grandfathered alice initialState
           (registration "on hold") (row "a1" None)
           {| status := "on hold" |}); try reflexivity; discriminate.
Defined.

(** C2. With [is_approved] unset and a pending registration whose status is
    "approved", the run exposes [isApproved = true] with
    [isPendingApproval = false], sends the update [is_approved: true] and does
    not call [signOut].  When that update succeeds the stored profile carries
    [is_approved = true], and a second run over the resulting store (whose
    profile lookup succeeds) goes straight through the [is_approved === true]
    branch: no pending lookup, no update, the same approved outcome, and the
    tables unchanged. *)
Theorem C2_approved_registration_converges
    (u : User.t) (h h' : HookState) (b : Backend) (d : UserProfile.t)
    (q : PendingUser) :
  fetchProfile (User.id u) b = Some d ->
  UserProfile.is_approved d = None ->
  fetchPendingRegistration (User.id u) b = Some q ->
  status q = "approved" ->
  let o := reconcile (Some u) h b in
  (trace o = [Called (SelectProfile (User.id u)); Did (SetProfile (Some d));
              Called (SelectPendingStatus (User.id u));
              Did (SetIsApproved (Some true)); Did (SetIsPendingApproval false);
              Called (UpdateIsApproved (User.id u) true)]
   /\ isApproved (final o) = Some true
   /\ isPendingApproval (final o) = false
   /\ approvalStatus (final o) = approved
   /\ count is_revoke (trace o) = 0
   /\ session (store o) = session b
   /\ pending_users (store o) = pending_users b
   /\ profiles (store o)
      = (if write_fails (User.id u) b then profiles b
         else alter (UserProfile.with_is_approved true) (User.id u) (profiles b)))
  /\ (write_fails (User.id u) b = false ->
      fst (next_outage (store o)) = false ->
      let o' := reconcile (Some u) h' (store o) in
      profiles (store o) !! User.id u = Some (UserProfile.with_is_approved true d)
      /\ trace o' = [Called (SelectProfile (User.id u));
                     Did (SetProfile (Some (UserProfile.with_is_approved true d)));
                     Did (SetIsApproved (Some true));
                     Did (SetIsPendingApproval false)]
      /\ isApproved (final o') = Some true
      /\ isPendingApproval (final o') = false
      /\ approvalStatus (final o') = approvalStatus (final o)
      /\ profiles (store o') = profiles (store o)
      /\ pending_users (store o') = pending_users (store o)
      /\ session (store o') = session (store o)).
Proof.
  intros Hd Hunset Hq Hstatus.
  destruct (fetchProfile_Some _ _ _ Hd) as [_ Hrow].
  assert (let o := reconcile (Some u) h b in
          store o = snd (respond (after_lookups (User.id u) b)
                           (UpdateIsApproved (User.id u) true))
          /\ trace o = [Called (SelectProfile (User.id u)); Did (SetProfile (Some d));
              Called (SelectPendingStatus (User.id u));
              Did (SetIsApproved (Some true)); Did (SetIsPendingApproval false);
              Called (UpdateIsApproved (User.id u) true)]
          /\ isApproved (final o) = Some true
          /\ isPendingApproval (final o) = false) as Hrun.
  { unfold after_lookups.
    run_profile_fetch (User.id u) b r1 b1 E1.
    rewrite Hd; simpl. rewrite Hunset; simpl.
    run_pending_fetch (User.id u) b1 r2 b2 E2.
    rewrite Hq; simpl. rewrite Hstatus; simpl.
    by destruct (respond b2 (UpdateIsApproved (User.id u) true)). }
  simpl in Hrun. destruct Hrun as (Hstore & Htrace & Happ & Hpend).
  assert (profiles (after_lookups (User.id u) b) = profiles b
          /\ pending_users (after_lookups (User.id u) b) = pending_users b
          /\ session (after_lookups (User.id u) b) = session b) as (P & Q & S).
  { unfold after_lookups.
    destruct (respond b (SelectProfile (User.id u))) as [r1 b1] eqn:E1; simpl.
    destruct (respond b1 (SelectPendingStatus (User.id u))) as [r2 b2] eqn:E2.
    exact (lookups_frame _ _ _ _ _ _ E1 E2). }
  assert (profiles (store (reconcile (Some u) h b))
          = (if write_fails (User.id u) b then profiles b
             else alter (UserProfile.with_is_approved true) (User.id u) (profiles b)))
    as Hprofiles.
  { rewrite Hstore. unfold write_fails, respond.
    pose proof (next_outage_profiles (after_lookups (User.id u) b)) as N.
    destruct (next_outage (after_lookups (User.id u) b)) as [down b']; simpl in *.
    destruct down; simpl; congruence. }
  intros o. subst o. split.
  - assert (session (store (reconcile (Some u) h b)) = session b) as S'.
    { rewrite Hstore. etransitivity; [|exact S].
      exact (respond_session _ (UpdateIsApproved (User.id u) true) eq_refl). }
    assert (pending_users (store (reconcile (Some u) h b)) = pending_users b) as Q'.
    { rewrite Hstore. etransitivity; [|exact Q].
      exact (respond_pending_users _ (UpdateIsApproved (User.id u) true)). }
    split_and!; try done;
      first [ by rewrite Htrace
            | by (unfold approvalStatus; rewrite Happ)
            | congruence ].
  - intros Hok Hup. rewrite Hok in Hprofiles.
    set (b3 := store (reconcile (Some u) h b)) in *.
    assert (profiles b3 !! User.id u = Some (UserProfile.with_is_approved true d))
      as Hrow'.
    { rewrite Hprofiles, lookup_alter. rewrite decide_True by done.
      by rewrite Hrow. }
    assert (fetchProfile (User.id u) b3 = Some (UserProfile.with_is_approved true d))
      as Hd'.
    { unfold fetchProfile, respond. pose proof (next_outage_profiles b3) as N.
      destruct (next_outage b3) as [down b']; simpl in *. subst down.
      simpl. by rewrite N, Hrow'. }
    split; [done|].
    unfold approvalStatus at 2. rewrite Happ.
    clearbody b3. clear Hstore Htrace Hprofiles Happ Hpend Hd Hq Hrow Hrow' Hup.
    run_profile_fetch (User.id u) b3 r1 b1 E1.
    rewrite Hd'; simpl.
    pose proof (respond_profiles b3 (SelectProfile (User.id u)) eq_refl) as P1.
    pose proof (respond_pending_users b3 (SelectProfile (User.id u))) as Q1.
    pose proof (respond_session b3 (SelectProfile (User.id u)) eq_refl) as S1.
    rewrite E1 in P1, Q1, S1. by repeat split.
Qed.

Lemma C2_approved_registration_witness :
  approvalStatus
    (final (reconcile (Some alice) initialState (registration "approved")))
  = approved
  /\ profiles
       (store (reconcile (Some alice) initialState (registration "approved")))
     !! "a1" = Some (row "a1" (Some true))
  /\ count is_pending_fetch
       (trace (reconcile (Some alice) initialState
                 (store (reconcile (Some alice) initialState
                           (registration "approved"))))) = 0.
Proof.
  destruct (C2_approved_registration_converges alice initialState initialState
              (registration "approved")
              (row "a1" None) {| status := "approved" |}
              eq_refl eq_refl eq_refl eq_refl) as [H1 H2].
  specialize (H2 eq_refl eq_refl). cbv zeta in H1, H2.
  destruct H1 as (_ & _ & _ & Ha & _).
  destruct H2 as (Hrow & Htrace & _).
  rewrite Htrace.
  split; [exact Ha|]. split; [exact Hrow|reflexivity].
Defined.

Lemma exec_rejecting_none t : forall h b,
  exec_rejecting (fun _ => false) t h b = (exec t h b, Completed).
Proof.
  induction t as [a|e k IH|r k IH]; intros h b; simpl; [done|by rewrite IH|].
  destruct (respond b r) as [resp b']. by rewrite IH.
Qed.

(** C4 (as stated in the specification) fails: a profile lookup that
    resolves with no data does not make the approval unresolved.  Alice signs
    in and is approved; Bob signs in and his lookup fails: the hook then
    exposes Bob with no profile and still with Alice's [isApproved = true].
    The same happens when Bob's lookup succeeds but finds no row. *)
Lemma C4_failed_fetch_keeps_previous_approval :
  fetchProfile "b2" (backend (steps (boot approved_then_outage)
                                [IdentityChange (Some alice); Resolve 0])) = None
  /\ user (hook (steps (boot approved_then_outage) alice_then_bob)) = Some bob
  /\ profile (hook (steps (boot approved_then_outage) alice_then_bob)) = None
  /\ isApproved (hook (steps (boot approved_then_outage) alice_then_bob)) = Some true
  /\ approvalStatus (hook (steps (boot approved_then_outage) alice_then_bob))
     = approved
  /\ tasks (steps (boot approved_then_outage) alice_then_bob) = []
  /\ approvalStatus (hook (steps (boot (up [("a1", Some true)] [] [])) alice_then_bob))
     = approved
  /\ ~ failed_fetch_leaves_approval_unresolved.
Proof.
  split_and!; try reflexivity.
  intros H.
  specialize (H bob (hook (steps (boot approved_then_outage)
                             [IdentityChange (Some alice); Resolve 0]))
                (backend (steps (boot approved_then_outage)
                           [IdentityChange (Some alice); Resolve 0]))
                eq_refl).
  vm_compute in H. discriminate.
Qed.

(** C4 (amended). A profile lookup that fails and one that finds no row are
    the same to the run: both resolve with no data, the run sets [profile] to
    none and ends there, with no toast, no navigation and no further call.  It
    takes no approval decision: [isApproved] and [isPendingApproval], hence the
    approval status, are those the state had before the run.  A
    pending-registration lookup that fails and one that finds no row likewise
    both lead to the "no pending record" continuation, which approves, again
    without any notification.  In both cases the tables are untouched.  The
    run ends normally because the lookups resolve: when no awaited promise
    rejects the run is the one described here, and if the promise of the
    profile lookup rejected, nothing would catch it: the run would stop at that
    [await] with the state and the backend as they were. *)
Theorem C4_failed_fetch_is_no_record (u : User.t) (h : HookState) (b : Backend) :
  let o := reconcile (Some u) h b in
  (fst (next_outage b) = true \/ profiles b !! User.id u = None ->
   fetchProfile (User.id u) b = None
   /\ trace o = [Called (SelectProfile (User.id u)); Did (SetProfile None)]
   /\ profile (final o) = None
   /\ isApproved (final o) = isApproved h
   /\ isPendingApproval (final o) = isPendingApproval h
   /\ approvalStatus (final o) = approvalStatus h
   /\ count is_notification (trace o) = 0
   /\ profiles (store o) = profiles b
   /\ pending_users (store o) = pending_users b
   /\ session (store o) = session b)
  /\ (forall d : UserProfile.t,
      fetchProfile (User.id u) b = Some d ->
      UserProfile.is_approved d = None ->
      fst (next_outage (snd (respond b (SelectProfile (User.id u))))) = true
      \/ pending_users b !! User.id u = None ->
      fetchPendingRegistration (User.id u) b = None
      /\ grandfathered u d b o)
  /\ exec_rejecting (fun _ => false) (loadProfile (Some u)) h b = (o, Completed)
  /\ (forall rejects : Request -> bool,
      rejects (SelectProfile (User.id u)) = true ->
      exec_rejecting rejects (loadProfile (Some u)) h b
      = ({| final := h; store := b;
            trace := [Called (SelectProfile (User.id u))] |},
         Uncaught (SelectProfile (User.id u)))).
Proof.
  intros o. subst o. split_and!.
  - intros Hnone. apply fetchProfile_None in Hnone.
    split; [done|].
    pose proof (respond_profiles b (SelectProfile (User.id u)) eq_refl) as P1.
    pose proof (respond_pending_users b (SelectProfile (User.id u))) as Q1.
    pose proof (respond_session b (SelectProfile (User.id u)) eq_refl) as S1.
    run_profile_fetch (User.id u) b r1 b1 E1.
    rewrite Hnone; simpl. unfold approvalStatus; simpl.
    split_and!; done.
  - intros d Hd Hunset Hnone. apply fetchPendingRegistration_None in Hnone.
    split; [done|]. apply grandfather_fallthrough; [done..|]. by rewrite Hnone.
  - apply exec_rejecting_none.
  - intros rejects Hrej. simpl. by rewrite Hrej.
Qed.

Lemma C4_failed_fetch_witness :
  trace (reconcile (Some alice) initialState (up [("a1", Some true)] [] [true]))
  = trace (reconcile (Some alice) initialState (up [] [] []))
  /\ approvalStatus
       (final (reconcile (Some alice) initialState
                 (up [("a1", None)] [("a1", "pending")] [false; true])))
     = approved.
Proof.
  split.
  - destruct (C4_failed_fetch_is_no_record alice initialState
                (up [("a1", Some true)] [] [true])) as [H1 _].
    destruct (C4_failed_fetch_is_no_record alice initialState
                (up [] [] [])) as [H2 _].
    specialize (H1 (or_introl eq_refl)). specialize (H2 (or_intror eq_refl)).
    destruct H1 as (_ & -> & _). destruct H2 as (_ & -> & _). reflexivity.
  - destruct (C4_failed_fetch_is_no_record alice initialState
                (up [("a1", None)] [("a1", "pending")] [false; true])) as (_ & H & _).
    specialize (H (row "a1" None) eq_refl eq_refl (or_introl eq_refl)).
    destruct H as (_ & _ & _ & _ & H & _). exact H.
Defined.

(** ** The pending flag *)

Lemma advance_hook o t sys : hook (advance o t sys) = segment t (hook sys).
Proof.
  revert sys. induction t as [a|e k IH|r k IH]; intros sys; simpl; [done| |done].
  by rewrite IH.
Qed.

Lemma advance_backend o t sys : backend (advance o t sys) = backend sys.
Proof.
  revert sys. induction t as [a|e k IH|r k IH]; intros sys; simpl; [done| |done].
  by rewrite IH.
Qed.

Lemma advance_tasks_well_behaved o t sys :
  resumptions keeps_invariant t ->
  Forall task_well_behaved (tasks sys) ->
  Forall task_well_behaved (tasks (advance o t sys)).
Proof.
  revert sys. induction t as [a|e k IH|r k IH]; intros sys Ht Hall; simpl in *.
  - done.
  - by apply IH.
  - apply Forall_app. split; [done|].
    apply Forall_singleton. intros resp. apply Ht.
Qed.

(** Every piece of [loadProfile] between two [await]s leaves
    [isPendingApproval] false or sets [isApproved] to false with it. *)
Lemma loadProfile_well_behaved u : well_behaved (loadProfile u).
Proof.
  unfold well_behaved, keeps_invariant, pending_implies_not_approved.
  destruct u as [u|]; simpl; [|by split].
  split; [done|]. intros r1. simpl.
  destruct (data r1) as [d|]; simpl; [|by split].
  destruct (UserProfile.is_approved d) as [[|]|]; simpl; [by split|by split|].
  split; [done|]. intros r2.
  destruct (data r2) as [q|]; simpl; [|by split].
  destruct (status q =? "pending"); simpl; [by split|].
  destruct (status q =? "approved"); simpl; [by split|].
  destruct (status q =? "rejected"); simpl; by split.
Qed.

Lemma advance_invariant o t sys :
  well_behaved t -> system_invariant sys -> system_invariant (advance o t sys).
Proof.
  intros [Hseg Hres] [Hhook Htasks]. split.
  - rewrite advance_hook. by apply Hseg.
  - by apply advance_tasks_well_behaved.
Qed.

Lemma step_invariant sys a : system_invariant sys -> system_invariant (step sys a).
Proof.
  intros [Hhook Htasks]. destruct a as [u|i]; simpl.
  - apply advance_invariant; [apply loadProfile_well_behaved|]. by split.
  - destruct (tasks sys !! i) as [tk|] eqn:Hi; [|by split].
    destruct (respond (backend sys) (request tk)) as [resp b'].
    apply advance_invariant.
    + eapply Forall_lookup_1 in Htasks; [|exact Hi]. exact (Htasks resp).
    + split; [done|]. simpl. apply Forall_delete. exact Htasks.
Qed.

Lemma steps_invariant acts : forall sys,
  system_invariant sys -> system_invariant (steps sys acts).
Proof.
  unfold steps. induction acts as [|a acts IH]; intros sys Hsys; simpl; [done|].
  apply IH. by apply step_invariant.
Qed.

Ltac branch_analysis :=
  repeat match goal with
    | |- context [respond ?b ?r] =>
        let E := fresh "E" in destruct (respond b r) eqn:E; simpl
    | |- context [data ?r] =>
        let E := fresh "Hdata" in destruct (data r) eqn:E; simpl
    | |- context [UserProfile.is_approved ?d] =>
        let E := fresh "Hflag" in
        destruct (UserProfile.is_approved d) as [[|]|] eqn:E; simpl
    | |- context [String.eqb ?a ?b] =>
        destruct (String.eqb_spec a b); simpl
    end.

Lemma reconcile_invariant u h b :
  pending_implies_not_approved h ->
  pending_implies_not_approved (final (reconcile u h b)).
Proof.
  unfold pending_implies_not_approved, reconcile. intros Hh.
  destruct u as [u|]; simpl; [|done].
  branch_analysis; done.
Qed.

Lemma only_pending_branch_sets_flag u h b :
  Did (SetIsPendingApproval true) ∈ trace (reconcile u h b) ->
  exists u' d q,
    u = Some u'
    /\ fetchProfile (User.id u') b = Some d
    /\ UserProfile.is_approved d = None
    /\ fetchPendingRegistration (User.id u') b = Some q
    /\ status q = "pending"
    /\ isApproved (final (reconcile u h b)) = Some false.
Proof.
  unfold reconcile, fetchProfile, fetchPendingRegistration.
  destruct u as [u|]; simpl.
  - destruct (respond b (SelectProfile (User.id u))) as [r1 b1] eqn:E1; simpl.
    destruct (data r1) as [d|] eqn:Hd; simpl.
    + destruct (UserProfile.is_approved d) as [[|]|] eqn:Ha; simpl.
      * intros H. repeat (apply elem_of_cons in H as [H|H]; [discriminate|]).
        by apply elem_of_nil in H.
      * destruct (respond b1 SignOut). simpl.
        intros H. repeat (apply elem_of_cons in H as [H|H]; [discriminate|]).
        by apply elem_of_nil in H.
      * destruct (respond b1 (SelectPendingStatus (User.id u))) as [r2 b2] eqn:E2.
        simpl. destruct (data r2) as [q|] eqn:Hq; simpl.
        -- destruct (String.eqb_spec (status q) "pending") as [Hs|Hs]; simpl.
           { destruct (respond b2 SignOut). simpl. intros _.
             exists u, d, q. rewrite E1. simpl. rewrite E2. by repeat split. }
           branch_analysis; intros H;
             repeat (apply elem_of_cons in H as [H|H]; [discriminate|]);
             by apply elem_of_nil in H.
        -- intros H. repeat (apply elem_of_cons in H as [H|H]; [discriminate|]).
           by apply elem_of_nil in H.
    + intros H. repeat (apply elem_of_cons in H as [H|H]; [discriminate|]).
      by apply elem_of_nil in H.
  - intros H. repeat (apply elem_of_cons in H as [H|H]; [discriminate|]).
    by apply elem_of_nil in H.
Qed.

Lemma approving_or_resetting_clears_flag u h b v :
  v <> Some false ->
  Did (SetIsApproved v) ∈ trace (reconcile u h b) ->
  isApproved (final (reconcile u h b)) = v
  /\ isPendingApproval (final (reconcile u h b)) = false
  /\ Did (SetIsPendingApproval false) ∈ trace (reconcile u h b).
Proof.
  unfold reconcile. intros Hv.
  destruct u as [u|]; simpl; branch_analysis; intros H;
    repeat (apply elem_of_cons in H as [H|H]; [try discriminate|]);
    try (by apply elem_of_nil in H);
    try (injection H as ->;
         first [ by destruct Hv
               | split; [done|]; split; [done|]; set_solver ]).
Qed.

(** ** One run alone is the run-to-completion interpreter *)

Lemma settle_advance t : forall o sys,
  tasks sys = [] ->
  exists n,
    settle n (advance o t sys)
    = {| hook := final (exec t (hook sys) (backend sys));
         backend := store (exec t (hook sys) (backend sys));
         tasks := [];
         log := log sys ++ map (ByRun o) (trace (exec t (hook sys) (backend sys))) |}.
Proof.
  induction t as [a|e k IH|r k IH]; intros o sys Hnone.
  - exists 0. destruct sys as [h b ts l]; simpl in *. subst ts.
    by rewrite app_nil_r.
  - simpl.
    destruct (IH o {| hook := apply_effect e (hook sys); backend := backend sys;
                      tasks := tasks sys; log := log sys ++ [ByRun o (Did e)] |}
                Hnone) as [n Hn].
    exists n. rewrite Hn. simpl. by rewrite <- app_assoc.
  - simpl. rewrite Hnone. simpl.
    destruct (respond (backend sys) r) as [resp b'] eqn:E.
    destruct (IH resp o {| hook := hook sys; backend := b'; tasks := [];
                           log := log sys ++ [ByRun o (Called r)] |} eq_refl)
      as [n Hn].
    exists (S n). simpl. rewrite E. simpl in Hn. rewrite Hn. simpl.
    by rewrite <- app_assoc.
Qed.

Lemma identity_change_alone u sys :
  tasks sys = [] ->
  exists n,
    let o := reconcile u (onAuthStateChange u (hook sys)) (backend sys) in
    settle n (step sys (IdentityChange u))
    = {| hook := final o; backend := store o; tasks := [];
         log := (log sys ++ [IdentityChanged u]) ++ map (ByRun u) (trace o) |}.
Proof.
  intros Hnone. simpl.
  exact (settle_advance (loadProfile u) u
           {| hook := onAuthStateChange u (hook sys); backend := backend sys;
              tasks := tasks sys; log := log sys ++ [IdentityChanged u] |} Hnone).
Qed.

(** C9. The exposed state never shows [isPendingApproval = true] without
    [isApproved = false]: this holds after every step of every schedule of
    identity changes and backend answers started from the initial state, and
    every single run preserves it.  A run that calls
    [setIsPendingApproval(true)] is in the "pending" branch and ends with
    [isApproved = false]; a run that sets [isApproved] to true or to null also
    calls [setIsPendingApproval(false)] and ends with the flag false. *)
Theorem C9_pending_flag_only_when_not_approved
    (u : option User.t) (h : HookState) (b : Backend) (acts : list Action) :
  pending_implies_not_approved (hook (steps (boot b) acts))
  /\ (pending_implies_not_approved h ->
      pending_implies_not_approved (final (reconcile u h b)))
  /\ (Did (SetIsPendingApproval true) ∈ trace (reconcile u h b) ->
      exists u' d q,
        u = Some u'
        /\ fetchProfile (User.id u') b = Some d
        /\ UserProfile.is_approved d = None
        /\ fetchPendingRegistration (User.id u') b = Some q
        /\ status q = "pending"
        /\ isApproved (final (reconcile u h b)) = Some false)
  /\ (forall v : option bool,
        v <> Some false ->
        Did (SetIsApproved v) ∈ trace (reconcile u h b) ->
        isApproved (final (reconcile u h b)) = v
        /\ isPendingApproval (final (reconcile u h b)) = false
        /\ Did (SetIsPendingApproval false) ∈ trace (reconcile u h b)).
Proof.
  split_and!.
  - apply (steps_invariant acts (boot b)). split; [|by constructor].
    unfold pending_implies_not_approved. simpl. discriminate.
  - apply reconcile_invariant.
  - apply only_pending_branch_sets_flag.
  - intros v. apply approving_or_resetting_clears_flag.
Qed.

Lemma C9_pending_flag_witness :
  isPendingApproval
    (final (reconcile (Some alice) initialState (registration "pending"))) = true
  /\ isApproved
       (final (reconcile (Some alice) initialState (registration "pending")))
     = Some false.
Proof.
  split; [reflexivity|].
  destruct (C9_pending_flag_only_when_not_approved (Some alice) initialState
              (registration "pending") one_after_the_other)
    as (_ & H & _).
  apply H; [|reflexivity].
  unfold pending_implies_not_approved. simpl. discriminate.
Defined.

(** ** Runs that overlap *)

Lemma apply_effect_user e h : user (apply_effect e h) = user h.
Proof. by destruct e. Qed.

Lemma segment_user t : forall h, user (segment t h) = user h.
Proof.
  induction t as [a|e k IH|r k IH]; intros h; simpl; [done| |done].
  by rewrite IH, apply_effect_user.
Qed.

Lemma advance_with_user o t : forall u sys,
  advance o t (with_user u sys) = with_user u (advance o t sys).
Proof.
  induction t as [a|e k IH|r k IH]; intros u sys; simpl; [done| |done].
  rewrite <- IH. f_equal. unfold with_user. simpl. f_equal. by destruct e.
Qed.

(** A resumed run never looks at the current [user]. *)
Lemma resolve_ignores_current_user sys i u :
  step (with_user u sys) (Resolve i) = with_user u (step sys (Resolve i)).
Proof.
  simpl. destruct (tasks sys !! i) as [tk|]; [|done].
  destruct (respond (backend sys) (request tk)) as [resp b'].
  by rewrite <- advance_with_user.
Qed.

Lemma stale_free_app l1 : forall c l2,
  stale_free c (l1 ++ l2)
  = stale_free c l1 && stale_free (current_identity c l1) l2.
Proof.
  induction l1 as [|[u|o ev] l1 IH]; intros c l2; simpl; [done|by rewrite IH|].
  rewrite IH. by rewrite andb_assoc.
Qed.

Lemma current_identity_app l1 : forall c l2,
  current_identity c (l1 ++ l2) = current_identity (current_identity c l1) l2.
Proof.
  induction l1 as [|[u|o ev] l1 IH]; intros c l2; simpl; [done|by rewrite IH..].
Qed.

Lemma advance_in_step t : forall sys,
  in_step sys ->
  in_step (advance (current_identity None (log sys)) t sys)
  /\ current_identity None
       (log (advance (current_identity None (log sys)) t sys))
     = current_identity None (log sys).
Proof.
  induction t as [a|e k IH|r k IH]; intros sys [Hfree Hown]; simpl.
  - by repeat split.
  - set (sys' := {| hook := apply_effect e (hook sys); backend := backend sys;
                    tasks := tasks sys;
                    log := log sys ++ [ByRun (current_identity None (log sys)) (Did e)] |}).
    assert (current_identity None (log sys') = current_identity None (log sys))
      as Hcur by (simpl; by rewrite current_identity_app).
    destruct (IH sys') as [Hin Hcur'].
    + split; simpl.
      * rewrite stale_free_app, Hfree.
        destruct e; simpl; rewrite ?bool_decide_eq_true_2 by done; done.
      * by rewrite current_identity_app.
    + rewrite Hcur in Hin, Hcur'. by split.
  - rewrite current_identity_app. simpl. split; [|done]. split; simpl.
    + rewrite stale_free_app, Hfree. done.
    + rewrite current_identity_app. simpl.
      apply Forall_app. split; [done|]. by apply Forall_singleton.
Qed.

Lemma no_overlap_in_step acts : forall sys,
  in_step sys -> no_overlap sys acts = true -> in_step (steps sys acts).
Proof.
  unfold steps.
  induction acts as [|a acts IH]; intros sys Hin Hno; simpl in *; [done|].
  destruct a as [u|i].
  - destruct (tasks sys) as [|tk rest] eqn:Hts; [|discriminate].
    apply IH; [|done]. destruct Hin as [Hfree _]. simpl.
    set (sys' := {| hook := onAuthStateChange u (hook sys); backend := backend sys;
                    tasks := tasks sys; log := log sys ++ [IdentityChanged u] |}).
    assert (current_identity None (log sys') = u) as Hcur
      by (simpl; by rewrite current_identity_app).
    destruct (advance_in_step (loadProfile u) sys') as [H _].
    + split; simpl.
      * rewrite stale_free_app, Hfree. done.
      * rewrite Hts. constructor.
    + by rewrite Hcur in H.
  - assert (no_overlap (step sys (Resolve i)) acts = true) as Hno'
      by (by destruct (tasks sys)).
    apply IH; [|done]. clear Hno Hno' IH. simpl.
    destruct (tasks sys !! i) as [tk|] eqn:Hi; [|done].
    destruct (respond (backend sys) (request tk)) as [resp b'].
    destruct Hin as [Hfree Hown].
    pose proof (Forall_lookup_1 _ _ _ _ Hown Hi) as Htk. simpl in Htk.
    set (sys' := {| hook := hook sys; backend := b';
                    tasks := delete i (tasks sys); log := log sys |}).
    destruct (advance_in_step (resume tk resp) sys') as [H _].
    + split; [done|]. simpl. by apply Forall_delete.
    + simpl in H. by rewrite Htk.
Qed.

(** C3 (as stated in the specification) fails: the profile lookup of Alice's
    run is answered after Bob became the current identity and after Bob's own
    lookup; Alice's run then writes her profile and her approval into the
    state exposed for Bob, whose own result is "rejected". *)
Lemma C3_stale_result_is_applied :
  user (hook (steps (boot two_profiles) overlapping)) = Some bob
  /\ profile (hook (steps (boot two_profiles) overlapping))
     = Some (row "a1" (Some true))
  /\ isApproved (hook (steps (boot two_profiles) overlapping)) = Some true
  /\ isApproved (final (reconcile (Some bob) initialState two_profiles))
     = Some false
  /\ stale_free None (log (steps (boot two_profiles) overlapping)) = false
  /\ ~ stale_results_discarded.
Proof.
  split_and!; try reflexivity.
  intros H. specialize (H two_profiles overlapping).
  vm_compute in H. discriminate.
Qed.

(** C3 (amended). A run that is overtaken by an identity change is neither
    cancelled nor re-checked.  Whatever identity [c] (another user, or nobody)
    is reported while the run for [a] awaits its profile lookup, and whatever
    the store holds, once that lookup is answered the run for [a] calls
    [setProfile] with its own lookup result, and [setIsApproved] with the flag
    of [a]'s row when that row carries one: the state exposed for [c] then
    holds [a]'s profile and [a]'s approval.  The step that answers a run does
    the same whatever the current [user] is.  When the identity never changes
    while a run is suspended, every setter is called by the run of the current
    identity. *)
Theorem C3_overtaken_run_still_applies_its_result
    (a : User.t) (c : option User.t) (h : HookState) (b : Backend)
    (Hc : c <> Some a) :
  let sys := steps (idle h b) (overtaken a c) in
  user (hook sys) = c
  /\ profile (hook sys) = fetchProfile (User.id a) b
  /\ ByRun (Some a) (Did (SetProfile (fetchProfile (User.id a) b))) ∈ log sys
  /\ (forall (d : UserProfile.t) (v : bool),
      fetchProfile (User.id a) b = Some d ->
      UserProfile.is_approved d = Some v ->
      isApproved (hook sys) = Some v
      /\ isPendingApproval (hook sys) = false
      /\ ByRun (Some a) (Did (SetIsApproved (Some v))) ∈ log sys)
  /\ stale_free None (log sys) = false
  /\ (forall (sys' : System) (i : nat) (u : option User.t),
      step (with_user u sys') (Resolve i) = with_user u (step sys' (Resolve i)))
  /\ (forall acts : list Action,
      no_overlap (idle h b) acts = true ->
      stale_free None (log (steps (idle h b) acts)) = true).
Proof.
  intros sys.
  assert (bool_decide (Some a = c) = false) as Hne
    by (apply bool_decide_eq_false_2; congruence).
  split_and!.
  - subst sys. unfold steps, overtaken, fetchProfile. simpl.
    destruct c as [c'|]; simpl;
      destruct (respond b (SelectProfile (User.id a))) as [r b1];
      by rewrite advance_hook, segment_user.
  - subst sys. unfold steps, overtaken, fetchProfile. simpl.
    destruct c as [c'|]; simpl;
      destruct (respond b (SelectProfile (User.id a))) as [r b1]; simpl;
      (destruct (data r) as [d|]; simpl; [|done]);
      (destruct (UserProfile.is_approved d) as [[|]|]; simpl; done).
  - subst sys. unfold steps, overtaken, fetchProfile. simpl.
    destruct c as [c'|]; simpl;
      destruct (respond b (SelectProfile (User.id a))) as [r b1]; simpl;
      (destruct (data r) as [d|]; simpl;
        [destruct (UserProfile.is_approved d) as [[|]|]; simpl|]);
      rewrite ?elem_of_app, !elem_of_cons; tauto.
  - intros d v Hd Hv. subst sys. unfold steps, overtaken. simpl.
    unfold fetchProfile in Hd.
    destruct c as [c'|]; simpl;
      destruct (respond b (SelectProfile (User.id a))) as [r b1]; simpl in *;
      rewrite Hd; simpl; rewrite Hv; destruct v; simpl;
      (split_and!; [done|done|]);
      rewrite ?elem_of_app, !elem_of_cons; tauto.
  - subst sys. unfold steps, overtaken. simpl.
    destruct c as [c'|]; simpl;
      destruct (respond b (SelectProfile (User.id a))) as [r b1]; simpl;
      (destruct (data r) as [d|]; simpl;
        [destruct (UserProfile.is_approved d) as [[|]|]; simpl|]);
      rewrite ?Hne; done.
  - intros sys' i u. apply resolve_ignores_current_user.
  - intros acts Hno. apply (no_overlap_in_step acts (idle h b)); [|done].
    split; [done|constructor].
Qed.

Lemma C3_overtaken_run_witness :
  user (hook (steps (boot two_profiles) (overtaken alice (Some bob)))) = Some bob
  /\ profile (hook (steps (boot two_profiles) (overtaken alice (Some bob))))
     = Some (row "a1" (Some true))
  /\ isApproved (hook (steps (boot two_profiles) (overtaken alice (Some bob))))
     = Some true
  /\ stale_free None (log (steps (boot two_profiles) one_after_the_other)) = true.
Proof.
  assert (Some bob <> Some alice) as Hc by discriminate.
  destruct (C3_overtaken_run_still_applies_its_result
              alice (Some bob) initialState two_profiles Hc)
    as (Hu & Hp & _ & Hv & _ & _ & Hsafe).
  split_and!.
  - exact Hu.
  - exact Hp.
  - exact (proj1 (Hv (row "a1" (Some true)) true eq_refl eq_refl)).
  - apply Hsafe. reflexivity.
Defined.

(** * Further properties of the hook *)

(** ** What a run leaves alone, for any code and any schedule *)

Lemma segment_loading t : forall h, loading (segment t h) = loading h.
Proof.
  induction t as [a|e k IH|r k IH]; intros h; simpl; [done| |done].
  rewrite IH. by destruct e.
Qed.

Lemma exec_pending_users t : forall h b,
  pending_users (store (exec t h b)) = pending_users b.
Proof.
  induction t as [a|e k IH|r k IH]; intros h b; simpl; [done|apply IH|].
  pose proof (respond_pending_users b r) as Hr.
  destruct (respond b r) as [resp b']; simpl in *. by rewrite IH.
Qed.

Lemma exec_profiles t : forall h b,
  count is_write (trace (exec t h b)) = 0 ->
  profiles (store (exec t h b)) = profiles b.
Proof.
  induction t as [a|e k IH|r k IH]; intros h b; simpl; [done|apply IH|].
  pose proof (respond_profiles b r) as Hr.
  destruct (respond b r) as [resp b']. unfold count in *.
  cbn [trace List.filter store final]. destruct (is_write (Called r)).
  - intros; discriminate.
  - intros H. rewrite IH by done. by apply Hr.
Qed.

Lemma exec_session t : forall h b,
  count is_revoke (trace (exec t h b)) = 0 ->
  session (store (exec t h b)) = session b.
Proof.
  induction t as [a|e k IH|r k IH]; intros h b; simpl; [done|apply IH|].
  pose proof (respond_session b r) as Hr.
  destruct (respond b r) as [resp b']. unfold count in *.
  cbn [trace List.filter store final]. destruct (is_revoke (Called r)).
  - intros; discriminate.
  - intros H. rewrite IH by done. by apply Hr.
Qed.

(** The code of a run never reads the component state: its calls, its
    effects and what it leaves in the backend are the same from any state. *)
Lemma exec_trace_store t : forall h h' b,
  trace (exec t h b) = trace (exec t h' b)
  /\ store (exec t h b) = store (exec t h' b).
Proof.
  induction t as [a|e k IH|r k IH]; intros h h' b; simpl.
  - done.
  - destruct (IH (apply_effect e h) (apply_effect e h') b) as [-> ->]. done.
  - destruct (respond b r) as [resp b']; simpl.
    destruct (IH resp h h' b') as [-> ->]. done.
Qed.

(** X1. [user] is written by the auth listener only, and [loading] is
    only ever cleared: after any schedule, [user] is the identity of the last
    listener event (the initial value when there was none), and [loading] is
    false as soon as one listener event happened, whatever the runs do. *)
Theorem X1_user_follows_listener_loading_only_cleared
    (sys : System) (acts : list Action) :
  user (hook (steps sys acts)) = last_identity (user (hook sys)) acts
  /\ loading (hook (steps sys acts))
     = (if existsb is_identity_change acts then false else loading (hook sys)).
Proof.
  unfold steps. revert sys.
  induction acts as [|a acts IH]; intros sys; simpl; [done|].
  destruct (IH (step sys a)) as [Hu Hl]. rewrite Hu, Hl. clear IH Hu Hl.
  destruct a as [u|i]; simpl.
  - rewrite advance_hook, segment_user, segment_loading. simpl.
    split; [done|]. by destruct (existsb is_identity_change acts).
  - destruct (tasks sys !! i) as [tk|]; [|done].
    destruct (respond (backend sys) (request tk)) as [resp b'].
    by rewrite advance_hook, segment_user, segment_loading.
Qed.

(** X2. Right after a sign-in is reported, the hook already exposes
    [loading = false] although nothing is decided yet: the approval fields and
    the profile are still those of the previous state (null at start) and the
    only work in flight is the profile lookup of the new user. *)
Theorem X2_loading_cleared_before_approval_is_known
    (u : User.t) (h : HookState) (b : Backend) :
  let sys := step (idle h b) (IdentityChange (Some u)) in
  loading (hook sys) = false
  /\ user (hook sys) = Some u
  /\ isApproved (hook sys) = isApproved h
  /\ isPendingApproval (hook sys) = isPendingApproval h
  /\ profile (hook sys) = profile h
  /\ map request (tasks sys) = [SelectProfile (User.id u)]
  /\ backend sys = b
  /\ isApproved (hook (step (boot b) (IdentityChange (Some u)))) = None.
Proof. by repeat split. Qed.

(** X3. A run signs the user out exactly when it has called
    [setIsApproved(false)]: in every run the numbers of [signOut] calls, of
    toasts and of navigations all equal the number of such denials, which is
    at most one; a run without a denial leaves the session untouched. *)
Theorem X3_sign_out_exactly_on_denial
    (u : option User.t) (h : HookState) (b : Backend) :
  let o := reconcile u h b in
  count is_revoke (trace o) = count is_denial (trace o)
  /\ count is_toast (trace o) = count is_denial (trace o)
  /\ count is_navigate (trace o) = count is_denial (trace o)
  /\ count is_denial (trace o) <= 1
  /\ (count is_denial (trace o) = 0 -> session (store o) = session b).
Proof.
  intros o.
  assert (count is_revoke (trace o) = count is_denial (trace o)
          /\ count is_toast (trace o) = count is_denial (trace o)
          /\ count is_navigate (trace o) = count is_denial (trace o)
          /\ count is_denial (trace o) <= 1) as (H1 & H2 & H3 & H4).
  { subst o. unfold reconcile.
    destruct u as [u|]; simpl; [|by (unfold count; simpl; lia)].
    branch_analysis; unfold count; simpl; lia. }
  split_and!; try done.
  intros H0. apply exec_session.
  change (count is_revoke (trace o) = 0). by rewrite H1.
Qed.

Lemma X3_sign_out_witness :
  session (store (reconcile (Some alice) initialState
                    {| profiles := {[ "a1" := row "a1" (Some true) ]};
                       pending_users := ∅;
                       session := Some alice; outages := [] |}))
  = Some alice.
Proof.
  destruct (X3_sign_out_exactly_on_denial (Some alice) initialState
              {| profiles := {[ "a1" := row "a1" (Some true) ]};
                 pending_users := ∅;
                 session := Some alice; outages := [] |}) as (_ & _ & _ & _ & H).
  apply H. reflexivity.
Defined.

(** ** Rows the hook never touches *)

Lemma respond_spares b r uid :
  spares uid r -> profiles (snd (respond b r)) !! uid = profiles b !! uid.
Proof.
  unfold respond. pose proof (next_outage_profiles b) as H.
  destruct (next_outage b) as [down b']; simpl in H.
  destruct r as [uid'|uid'|uid' v|]; simpl; intros Hs; try (by rewrite H).
  - destruct down; simpl; rewrite H; [done|]. by rewrite lookup_alter_ne.
  - destruct down; simpl; by rewrite H.
Qed.

Lemma advance_tasks_avoid uid o t : forall sys,
  avoids uid t ->
  Forall (task_avoids uid) (tasks sys) ->
  Forall (task_avoids uid) (tasks (advance o t sys)).
Proof.
  induction t as [a|e k IH|r k IH]; intros sys Ht Hall; simpl in *.
  - done.
  - by apply IH.
  - apply Forall_app. split; [done|]. by apply Forall_singleton.
Qed.

Lemma loadProfile_avoids uid u :
  (forall u', u = Some u' -> User.id u' <> uid) -> avoids uid (loadProfile u).
Proof.
  intros Hu. destruct u as [u|]; simpl; [|done].
  specialize (Hu u eq_refl).
  split; [done|]. intros r1. simpl.
  destruct (data r1) as [d|]; simpl; [|done].
  destruct (UserProfile.is_approved d) as [[|]|]; simpl; [done|done|].
  split; [done|]. intros r2.
  destruct (data r2) as [q|]; simpl; [|done].
  destruct (status q =? "pending"); simpl; [done|].
  destruct (status q =? "approved"); simpl; [done|].
  destruct (status q =? "rejected"); simpl; done.
Qed.

Lemma steps_avoid uid acts : forall sys,
  Forall (task_avoids uid) (tasks sys) ->
  (forall u, IdentityChange (Some u) ∈ acts -> User.id u <> uid) ->
  profiles (backend (steps sys acts)) !! uid = profiles (backend sys) !! uid.
Proof.
  unfold steps.
  induction acts as [|a acts IH]; intros sys Hall Hacts; simpl; [done|].
  assert (Forall (task_avoids uid) (tasks (step sys a))
          /\ profiles (backend (step sys a)) !! uid
             = profiles (backend sys) !! uid) as [Hall' Heq].
  { destruct a as [u|i]; simpl.
    - rewrite advance_backend. simpl. split; [|done].
      apply advance_tasks_avoid; [|done].
      apply loadProfile_avoids. intros u' ->. apply Hacts. by left.
    - destruct (tasks sys !! i) as [tk|] eqn:Hi; [|done].
      destruct (Forall_lookup_1 _ _ _ _ Hall Hi) as [Hs Hk].
      pose proof (respond_spares (backend sys) (request tk) uid Hs) as Hr.
      destruct (respond (backend sys) (request tk)) as [resp b'].
      rewrite advance_backend. simpl in *. split; [|done].
      apply advance_tasks_avoid; [apply Hk|]. by apply Forall_delete. }
  rewrite IH; [done|done|]. intros u Hu. apply Hacts. by right.
Qed.

(** X5. The hook only ever updates the profile of an identity it was
    started for: in any schedule from the initial state, the row of an id
    that none of the reported users carries is exactly as it was. *)
Theorem X5_rows_of_other_users_are_untouched
    (b : Backend) (acts : list Action) (uid : string) :
  (forall u, IdentityChange (Some u) ∈ acts -> User.id u <> uid) ->
  profiles (backend (steps (boot b) acts)) !! uid = profiles b !! uid.
Proof.
  intros Hacts. apply (steps_avoid uid acts (boot b)); [constructor|done].
Qed.

Lemma X5_rows_of_other_users_witness :
  profiles (backend (steps (boot (up [("a1", None); ("b2", None)]
                                    [("a1", "approved")] []))
                       [IdentityChange (Some alice); Resolve 0; Resolve 0;
                        Resolve 0]))
    !! "b2"
  = Some (row "b2" None).
Proof.
  rewrite (X5_rows_of_other_users_are_untouched
             (up [("a1", None); ("b2", None)] [("a1", "approved")] [])
             [IdentityChange (Some alice); Resolve 0; Resolve 0; Resolve 0]
             "b2").
  - reflexivity.
  - intros u Hu. apply elem_of_cons in Hu as [Hu|Hu].
    + injection Hu as ->. simpl. discriminate.
    + repeat (apply elem_of_cons in Hu as [Hu|Hu]; [discriminate|]).
      by apply elem_of_nil in Hu.
Defined.

(** ** The remaining branch and the decision as a whole *)

(** X6. When the fetched profile has [is_approved === true], the run sets
    [isApproved = true] and [isPendingApproval = false] and returns: it makes
    no other call than the profile lookup (no pending lookup, no update, no
    [signOut]), shows nothing, leaves tables and session as they were, and is
    complete as soon as the lookup is answered. *)
Theorem X6_approved_profile_is_admitted
    (u : User.t) (h : HookState) (b : Backend) (d : UserProfile.t) :
  fetchProfile (User.id u) b = Some d ->
  UserProfile.is_approved d = Some true ->
  let o := reconcile (Some u) h b in
  trace o = [Called (SelectProfile (User.id u)); Did (SetProfile (Some d));
             Did (SetIsApproved (Some true)); Did (SetIsPendingApproval false)]
  /\ profile (final o) = Some d
  /\ isApproved (final o) = Some true
  /\ isPendingApproval (final o) = false
  /\ approvalStatus (final o) = approved
  /\ count is_call (trace o) = 1
  /\ count is_notification (trace o) = 0
  /\ profiles (store o) = profiles b
  /\ pending_users (store o) = pending_users b
  /\ session (store o) = session b
  /\ tasks (steps (idle h b) [IdentityChange (Some u); Resolve 0]) = [].
Proof.
  intros Hd Htrue. unfold steps.
  pose proof (respond_profiles b (SelectProfile (User.id u)) eq_refl) as P1.
  pose proof (respond_pending_users b (SelectProfile (User.id u))) as Q1.
  pose proof (respond_session b (SelectProfile (User.id u)) eq_refl) as S1.
  run_profile_fetch (User.id u) b r1 b1 E1.
  rewrite Hd; simpl. rewrite Htrue; simpl.
  by repeat split.
Qed.

Lemma X6_approved_profile_witness :
  approvalStatus
    (final (reconcile (Some alice) initialState two_profiles)) = approved
  /\ count is_call (trace (reconcile (Some alice) initialState two_profiles)) = 1.
Proof.
  pose proof (X6_approved_profile_is_admitted alice initialState two_profiles
                (row "a1" (Some true)) eq_refl eq_refl) as H.
  cbv zeta in H. split; apply H.
Defined.

Lemma next_outage_up b : outages b = [] -> next_outage b = (false, b).
Proof. unfold next_outage. by intros ->. Qed.

Lemma respond_up b r :
  outages b = [] ->
  respond b r
  = match r as r0 return Response r0 * Backend with
    | SelectProfile uid => (single (profiles b !! uid), b)
    | SelectPendingStatus uid => (single (pending_users b !! uid), b)
    | UpdateIsApproved uid v =>
        ({| data := None; error := None |}, update_is_approved uid v b)
    | SignOut => ({| signOut_error := None |}, end_session b)
    end.
Proof.
  intros Hup. unfold respond. rewrite (next_outage_up b Hup). by destruct r.
Qed.

(** What a second run finds when the first one has mirrored [v]. *)
Lemma lookup_mirrored uid v b d :
  profiles b !! uid = Some d ->
  profiles (update_is_approved uid v b) !! uid
  = Some (UserProfile.with_is_approved v d).
Proof.
  intros Hd. simpl. rewrite lookup_alter, decide_True by done. by rewrite Hd.
Qed.

(** X7. With the backend up and a profile row for the user, one run
    brings the store to a fixed point of the decision: a second run for the
    same user over the store the first one left exposes the same [isApproved]
    and [isPendingApproval], writes nothing and leaves the store exactly as
    it found it (in particular, after a mirrored rejection the second run
    rejects from the profile alone). *)
Theorem X7_one_run_reaches_a_fixed_point
    (u : User.t) (h h' : HookState) (b : Backend) (d : UserProfile.t) :
  outages b = [] ->
  profiles b !! User.id u = Some d ->
  let o := reconcile (Some u) h b in
  let o' := reconcile (Some u) h' (store o) in
  isApproved (final o') = isApproved (final o)
  /\ isPendingApproval (final o') = isPendingApproval (final o)
  /\ store o' = store o
  /\ count is_write (trace o') = 0.
Proof.
  intros Hup Hd. unfold reconcile. simpl.
  rewrite (respond_up b (SelectProfile (User.id u)) Hup), Hd. simpl.
  destruct (UserProfile.is_approved d) as [[|]|] eqn:Ha; simpl.
  - rewrite (respond_up b (SelectProfile (User.id u)) Hup), Hd. simpl.
    rewrite Ha. simpl. by repeat split.
  - rewrite (respond_up b SignOut Hup). simpl.
    rewrite (respond_up (end_session b) (SelectProfile (User.id u)) Hup).
    simpl. rewrite Hd. simpl. rewrite Ha. simpl.
    rewrite (respond_up (end_session b) SignOut Hup). simpl. by repeat split.
  - rewrite (respond_up b (SelectPendingStatus (User.id u)) Hup). simpl.
    destruct (pending_users b !! User.id u) as [q|] eqn:Hq; simpl.
    + destruct (String.eqb_spec (status q) "pending") as [Hs|Hs]; simpl.
      { rewrite (respond_up b SignOut Hup). simpl.
        rewrite (respond_up (end_session b) (SelectProfile (User.id u)) Hup).
        simpl. rewrite Hd. simpl. rewrite Ha. simpl.
        rewrite (respond_up (end_session b) (SelectPendingStatus (User.id u)) Hup).
        simpl. rewrite Hq. simpl. rewrite Hs. simpl.
        rewrite (respond_up (end_session b) SignOut Hup). by repeat split. }
      destruct (String.eqb_spec (status q) "approved") as [Hs'|Hs']; simpl.
      { rewrite (respond_up b (UpdateIsApproved (User.id u) true) Hup). simpl.
        rewrite (respond_up (update_is_approved (User.id u) true b)
                   (SelectProfile (User.id u)) Hup).
        rewrite (lookup_mirrored _ _ _ _ Hd). simpl. by repeat split. }
      destruct (String.eqb_spec (status q) "rejected") as [Hs''|Hs'']; simpl.
      { rewrite (respond_up b (UpdateIsApproved (User.id u) false) Hup). simpl.
        rewrite (respond_up (update_is_approved (User.id u) false b) SignOut Hup).
        simpl.
        rewrite (respond_up (end_session (update_is_approved (User.id u) false b))
                   (SelectProfile (User.id u)) Hup).
        change (profiles (end_session (update_is_approved (User.id u) false b)))
          with (profiles (update_is_approved (User.id u) false b)).
        rewrite (lookup_mirrored _ _ _ _ Hd). simpl.
        rewrite (respond_up (end_session (update_is_approved (User.id u) false b))
                   SignOut Hup).
        by repeat split. }
      rewrite (respond_up b (SelectProfile (User.id u)) Hup), Hd. simpl.
      rewrite Ha. simpl.
      rewrite (respond_up b (SelectPendingStatus (User.id u)) Hup), Hq. simpl.
      apply String.eqb_neq in Hs, Hs', Hs''. rewrite Hs, Hs', Hs''.
      by repeat split.
    + rewrite (respond_up b (SelectProfile (User.id u)) Hup), Hd. simpl.
      rewrite Ha. simpl.
      rewrite (respond_up b (SelectPendingStatus (User.id u)) Hup), Hq. simpl.
      by repeat split.
Qed.

Lemma X7_fixed_point_witness :
  isApproved
    (final (reconcile (Some alice) initialState
              (store (reconcile (Some alice) initialState
                        (registration "rejected")))))
  = Some false
  /\ count is_pending_fetch
       (trace (reconcile (Some alice) initialState
                 (store (reconcile (Some alice) initialState
                           (registration "rejected"))))) = 0.
Proof.
  destruct (X7_one_run_reaches_a_fixed_point alice initialState initialState
              (registration "rejected") (row "a1" None) eq_refl eq_refl)
    as (H & _).
  cbv zeta in H. rewrite H. split; reflexivity.
Defined.

(** X8. A run never reads the state the hook exposed before: its calls
    and effects, the store it leaves and the profile it exposes are the same
    from any previous state, and so are [isApproved] and [isPendingApproval]
    whenever the user is absent or the profile lookup returned a row.  (When
    the lookup returns nothing the two flags are simply left as they were.) *)
Theorem X8_decision_does_not_depend_on_previous_state
    (u : option User.t) (h h' : HookState) (b : Backend) :
  trace (reconcile u h b) = trace (reconcile u h' b)
  /\ store (reconcile u h b) = store (reconcile u h' b)
  /\ profile (final (reconcile u h b)) = profile (final (reconcile u h' b))
  /\ (match u with
      | None => True
      | Some u' => fetchProfile (User.id u') b <> None
      end ->
      isApproved (final (reconcile u h b)) = isApproved (final (reconcile u h' b))
      /\ isPendingApproval (final (reconcile u h b))
         = isPendingApproval (final (reconcile u h' b))).
Proof.
  destruct (exec_trace_store (loadProfile u) h h' b) as [Ht Hs].
  split; [exact Ht|]. split; [exact Hs|]. clear Ht Hs.
  unfold reconcile, fetchProfile. destruct u as [u|]; simpl; [|done].
  destruct (respond b (SelectProfile (User.id u))) as [r1 b1]; simpl.
  destruct (data r1) as [d|]; simpl; [|by split].
  split; [|intros _]; branch_analysis; done.
Qed.

Lemma X8_decision_witness :
  isApproved (final (reconcile (Some alice) initialState (registration "pending")))
  = isApproved
      (final (reconcile (Some alice)
                (final (reconcile (Some alice) initialState two_profiles))
                (registration "pending"))).
Proof.
  destruct (X8_decision_does_not_depend_on_previous_state (Some alice)
              initialState
              (final (reconcile (Some alice) initialState two_profiles))
              (registration "pending")) as (_ & _ & _ & H).
  apply H. discriminate.
Defined.

(** X9. A run only ever writes the decision it has just read: if it
    sends [update({ is_approved: v })] for some id, then that id is the
    user's own, the fetched profile had [is_approved] unset, the fetched
    registration says "approved" when [v] is true and "rejected" when it is
    false, and the run exposes [isApproved = v] with the pending flag false. *)
Theorem X9_written_flag_mirrors_the_registration
    (u : option User.t) (h : HookState) (b : Backend) (uid : string) (v : bool) :
  Called (UpdateIsApproved uid v) ∈ trace (reconcile u h b) ->
  exists u' d q,
    u = Some u'
    /\ uid = User.id u'
    /\ fetchProfile uid b = Some d
    /\ UserProfile.is_approved d = None
    /\ fetchPendingRegistration uid b = Some q
    /\ status q = (if v then "approved" else "rejected")
    /\ isApproved (final (reconcile u h b)) = Some v
    /\ isPendingApproval (final (reconcile u h b)) = false
    /\ count is_write (trace (reconcile u h b)) = 1.
Proof.
  unfold reconcile, fetchProfile, fetchPendingRegistration.
  destruct u as [u|]; simpl.
  - destruct (respond b (SelectProfile (User.id u))) as [r1 b1] eqn:E1; simpl.
    destruct (data r1) as [d|] eqn:Hd; simpl.
    + destruct (UserProfile.is_approved d) as [[|]|] eqn:Ha; simpl.
      * intros H. repeat (apply elem_of_cons in H as [H|H]; [discriminate|]).
        by apply elem_of_nil in H.
      * destruct (respond b1 SignOut). simpl.
        intros H. repeat (apply elem_of_cons in H as [H|H]; [discriminate|]).
        by apply elem_of_nil in H.
      * destruct (respond b1 (SelectPendingStatus (User.id u))) as [r2 b2] eqn:E2.
        simpl. destruct (data r2) as [q|] eqn:Hq; simpl.
        -- destruct (String.eqb_spec (status q) "pending") as [Hs|Hs]; simpl.
           { destruct (respond b2 SignOut). simpl. intros H.
             repeat (apply elem_of_cons in H as [H|H]; [discriminate|]).
             by apply elem_of_nil in H. }
           destruct (String.eqb_spec (status q) "approved") as [Hs'|Hs']; simpl.
           { destruct (respond b2 (UpdateIsApproved (User.id u) true)). simpl.
             intros H.
             repeat (apply elem_of_cons in H as [H|H]; [try discriminate|]);
               [|by apply elem_of_nil in H].
             injection H as -> ->. exists u, d, q.
             rewrite E1. simpl. rewrite E2. by repeat split. }
           destruct (String.eqb_spec (status q) "rejected") as [Hs''|Hs'']; simpl.
           { destruct (respond b2 (UpdateIsApproved (User.id u) false)). simpl.
             destruct (respond b0 SignOut). simpl. intros H.
             repeat (apply elem_of_cons in H as [H|H]; [try discriminate|]);
               [|by apply elem_of_nil in H].
             injection H as -> ->. exists u, d, q.
             rewrite E1. simpl. rewrite E2. by repeat split. }
           intros H. repeat (apply elem_of_cons in H as [H|H]; [discriminate|]).
           by apply elem_of_nil in H.
        -- intros H. repeat (apply elem_of_cons in H as [H|H]; [discriminate|]).
           by apply elem_of_nil in H.
    + intros H. repeat (apply elem_of_cons in H as [H|H]; [discriminate|]).
      by apply elem_of_nil in H.
  - intros H. repeat (apply elem_of_cons in H as [H|H]; [discriminate|]).
    by apply elem_of_nil in H.
Qed.

Lemma X9_written_flag_witness :
  exists u' d q,
    Some alice = Some u'
    /\ "a1" = User.id u'
    /\ fetchProfile "a1" (registration "rejected") = Some d
    /\ UserProfile.is_approved d = None
    /\ fetchPendingRegistration "a1" (registration "rejected") = Some q
    /\ status q = "rejected"
    /\ isApproved (final (reconcile (Some alice) initialState
                            (registration "rejected"))) = Some false
    /\ isPendingApproval (final (reconcile (Some alice) initialState
                                   (registration "rejected"))) = false
    /\ count is_write (trace (reconcile (Some alice) initialState
                                (registration "rejected"))) = 1.
Proof.
  apply (X9_written_flag_mirrors_the_registration (Some alice) initialState
           (registration "rejected") "a1" false).
  vm_compute. do 5 right. left.
Defined.

(** * The profile page *)

Section ProfilePageProperties.

Import ProfilePage.

Context {W : Type}.
Variable answer : forall q : Request, W -> (JsError + Response q) * W.

(** X10. [loadDepartments] never leaves the department list empty and
    never throws, whatever the collaborator does (rows, no rows, an error
    reply or a rejection).  If the captured [department] is blank the field
    becomes the name of the first listed department; otherwise the field is
    not written.  It makes one request and touches nothing else in the form. *)
Theorem X10_departments_are_never_left_empty
    (department0 : string) (s : State) (w : W) :
  let r := run ProfilePage.apply answer (loadDepartments department0) s w in
  ran_result r = inr tt
  /\ departments (ran_state r) <> []
  /\ (department0 = "" ->
      Some (department (ran_state r)) = name <$> head (departments (ran_state r)))
  /\ (department0 <> "" -> department (ran_state r) = department s)
  /\ ProfilePage.loading (ran_state r) = ProfilePage.loading s
  /\ fullName (ran_state r) = fullName s
  /\ ProfilePage.error (ran_state r) = ProfilePage.error s
  /\ length (List.filter is_request (ran_events r)) = 1
  /\ length (List.filter ProfilePage.is_toast (ran_events r)) = 0.
Proof.
  unfold loadDepartments, fallbackDepts, truthy. simpl.
  destruct (answer SelectDepartments w) as [[err|reply] w']; simpl.
  - destruct (String.eqb_spec department0 ""); simpl; by repeat split.
  - destruct (reply_error reply) as [err|]; simpl.
    + destruct (String.eqb_spec department0 ""); simpl; by repeat split.
    + destruct (reply_data reply) as [[|first rest]|]; simpl;
        destruct (String.eqb_spec department0 ""); simpl; by repeat split.
Qed.

(** X11. For [loadDepartments] a rejected call, an error reply, a reply
    without data and an empty list are all the same: the list becomes the
    single fallback department "Technology" (and a blank field becomes
    "Technology"); only a rejection or an error reply is logged. *)
Theorem X11_departments_fall_back_to_technology
    (department0 : string) (s : State) (w : W) :
  match fst (answer SelectDepartments w) with
  | inl _ => True
  | inr reply =>
      reply_error reply <> None
      \/ reply_data reply = None \/ reply_data reply = Some []
  end ->
  let r := run ProfilePage.apply answer (loadDepartments department0) s w in
  departments (ran_state r) = [technology]
  /\ department (ran_state r)
     = (if String.eqb department0 "" then "Technology" else department s)
  /\ ((exists err,
         inl (ConsoleError "Error loading departments:" err) ∈ ran_events r)
      <-> match fst (answer SelectDepartments w) with
          | inl _ => True
          | inr reply => reply_error reply <> None
          end).
Proof.
  unfold loadDepartments, fallbackDepts, truthy. simpl.
  destruct (answer SelectDepartments w) as [[err|reply] w']; simpl.
  - intros _. destruct (String.eqb_spec department0 ""); simpl;
      (split; [done|]; split; [done|]; split; [done|]; intros _; exists err;
       set_solver).
  - destruct (reply_error reply) as [err|]; simpl.
    + intros _. destruct (String.eqb_spec department0 ""); simpl;
        (split; [done|]; split; [done|]; split; [done|]; intros _; exists err;
         set_solver).
    + intros [H|[H|H]]; [done| |]; rewrite H; simpl;
        destruct (String.eqb_spec department0 ""); simpl;
        (split; [done|]; split; [done|]; split; [|done]; intros [err H'];
         repeat (apply elem_of_cons in H' as [H'|H']; [discriminate|]);
         by apply elem_of_nil in H').
Qed.

(** X12. [handleSubmit] always ends with [loading = false] and has shown
    exactly one toast, whether the update succeeds, replies with an error or
    rejects; it never throws.  [error] ends null exactly when the update
    resolved without error, and is otherwise a non-empty text.  The request
    carries the [fullName] and [department] of the submitted form and the
    user's email, for the user's id. *)
Theorem X12_submit_always_clears_loading
    (user0 : option User.t) (s s0 : State) (now : string) (w : W) :
  let q := UpdateProfile
             {| Payload.full_name := fullName s;
                Payload.department := department s;
                Payload.email := user0 ≫= User.email;
                Payload.updated_at := now |} (User.id <$> user0) in
  let r := run ProfilePage.apply answer (handleSubmit user0 s now) s0 w in
  ran_result r = inr tt
  /\ ProfilePage.loading (ran_state r) = false
  /\ List.filter is_request (ran_events r) = [inr q]
  /\ length (List.filter ProfilePage.is_toast (ran_events r)) = 1
  /\ fullName (ran_state r) = fullName s0
  /\ department (ran_state r) = department s0
  /\ match fst (answer q w) with
     | inr {| reply_data := _; reply_error := None |} =>
         ProfilePage.error (ran_state r) = None
         /\ inl (ProfilePage.ShowToast profileUpdated) ∈ ran_events r
     | inr {| reply_data := _; reply_error := Some err |} | inl err =>
         ProfilePage.error (ran_state r)
         = Some (or_else (message err) "Failed to update profile")
         /\ ProfilePage.error (ran_state r) <> Some ""
         /\ inl (ProfilePage.ShowToast (updateFailed err)) ∈ ran_events r
     end.
Proof.
  assert (forall m, or_else m "Failed to update profile" <> "") as Hne.
  { intros [m|]; simpl; [|done].
    destruct (String.eqb_spec m ""); [done|done]. }
  unfold handleSubmit. simpl.
  destruct (answer _ w) as [[err|[d [err|]]] w']; simpl.
  - split_and!; try done; [|set_solver]. intros [= H]. by apply Hne in H.
  - split_and!; try done; [|set_solver]. intros [= H]. by apply Hne in H.
  - split_and!; try done. set_solver.
Qed.

(** X13. The page's [loadProfile] makes no request when there is no user
    or the user's id is empty.  With a user it makes one lookup; when the
    lookup gives a row, [fullName] and [department] are both replaced by the
    stored values (a null or empty column becomes the empty string) whatever
    was in the form; when it gives none, the form is left as it is.  It never
    touches [loading], [error] or the department list. *)
Theorem X13_page_profile_load
    (user0 : option User.t) (s : State) (w : W) :
  let r := run ProfilePage.apply answer (ProfilePage.loadProfile user0) s w in
  ProfilePage.loading (ran_state r) = ProfilePage.loading s
  /\ ProfilePage.error (ran_state r) = ProfilePage.error s
  /\ departments (ran_state r) = departments s
  /\ match user0 with
     | None => ran_events r = [] /\ ran_state r = s /\ ran_world r = w
     | Some u =>
         if String.eqb (User.id u) "" then
           ran_events r = [] /\ ran_state r = s /\ ran_world r = w
         else
           List.filter is_request (ran_events r)
           = [inr (SelectNameAndDepartment (User.id u))]
           /\ match fst (answer (SelectNameAndDepartment (User.id u)) w) with
              | inr {| reply_data := Some row; reply_error := _ |} =>
                  fullName (ran_state r) = or_else (Row.full_name row) ""
                  /\ department (ran_state r) = or_else (Row.department row) ""
                  /\ ran_result r = inr tt
              | inr {| reply_data := None; reply_error := _ |} =>
                  ran_state r = s /\ ran_result r = inr tt
              | inl err => ran_state r = s /\ ran_result r = inl err
              end
     end.
Proof.
  unfold ProfilePage.loadProfile, truthy.
  destruct user0 as [u|]; simpl; [|by repeat split].
  destruct (String.eqb_spec (User.id u) ""); simpl; [by repeat split|].
  destruct (answer _ w) as [[err|[[row|] e]] w']; simpl;
    destruct s; by repeat split.
Qed.

End ProfilePageProperties.

Lemma X11_departments_fall_back_witness :
  ProfilePage.departments
    (ran_state
       (run ProfilePage.apply
          (ProfilePage.scripted (Build_Reply None None) (Build_Reply (Some []) None)
             (inr (Build_Reply None None)))
          (ProfilePage.loadDepartments "") ProfilePage.initial tt))
  = [ProfilePage.technology].
Proof.
  apply (X11_departments_fall_back_to_technology
           (ProfilePage.scripted (Build_Reply None None)
              (Build_Reply (Some []) None) (inr (Build_Reply None None)))
           "" ProfilePage.initial tt).
  simpl. right. right. reflexivity.
Defined.

(** * The sign-in callback page *)

Lemma split_on_free sep s : free_of sep s = true -> split_on sep s = [s].
Proof.
  induction s as [|c s IH]; simpl; [done|].
  destruct (Ascii.eqb c sep); simpl; [done|]. intros H. by rewrite IH.
Qed.

Lemma split_on_append sep s t :
  free_of sep s = true ->
  split_on sep (String.append s (String sep t)) = s :: split_on sep t.
Proof.
  induction s as [|c s IH]; simpl.
  - intros _. by rewrite Ascii.eqb_refl.
  - destruct (Ascii.eqb c sep); simpl; [done|]. intros H. by rewrite IH.
Qed.

Lemma free_of_append c s t :
  free_of c (String.append s t) = free_of c s && free_of c t.
Proof.
  induction s as [|c' s IH]; simpl; [done|]. rewrite IH. by rewrite andb_assoc.
Qed.

Lemma token_parts s :
  AuthCallback.token s = true ->
  truthy s = true /\ free_of "&"%char s = true /\ free_of "="%char s = true.
Proof.
  unfold AuthCallback.token. intros H.
  apply andb_true_iff in H as [H H3]. apply andb_true_iff in H as [H1 H2].
  done.
Qed.

Lemma fold_left_insert_reverse (l : list (string * string)) :
  forall m : gmap string string,
    fold_left (fun acc kv => <[kv.1 := kv.2]> acc) l m
    = list_to_map (reverse l) ∪ m.
Proof.
  induction l as [|[k v] l IH]; intros m; simpl.
  - by rewrite (left_id_L ∅ (∪)).
  - rewrite IH, reverse_cons, list_to_map_app. simpl.
    rewrite insert_empty, <- (assoc_L (∪)). f_equal.
    by rewrite <- insert_union_singleton_l.
Qed.

Section AuthCallbackProperties.

Import AuthCallback.

Variable URLSearchParams_get : string -> string -> option string.
Variable decodeURIComponent : string -> JsError + string.
Context {W : Type}.
Variable answer : forall q : Request, W -> (JsError + Response q) * W.

Lemma parsePairs_well_formed (pairs decoded : list (string * string)) :
  Forall2 (fun kv kv' =>
             token kv.1 = true /\ token kv.2 = true /\ kv.1 <> "__proto__"
             /\ kv'.1 = kv.1 /\ decodeURIComponent kv.2 = inr kv'.2)
          pairs decoded ->
  forall m,
    parsePairs decodeURIComponent
      (map (fun kv => String.append kv.1 (String "="%char kv.2)) pairs) m
    = inr (fold_left (fun acc kv => <[kv.1 := kv.2]> acc) decoded m).
Proof.
  induction 1 as [|[k v] [k' v'] pairs decoded (Hk & Hv & Hp & Hk' & Hdec) _ IH];
    intros m; simpl in *; [done|].
  apply token_parts in Hk as (Hk1 & _ & Hk3).
  apply token_parts in Hv as (Hv1 & _ & Hv3).
  rewrite (split_on_append "="%char k v Hk3), (split_on_free "="%char v Hv3).
  rewrite Hk1, Hv1, Hdec. simpl. subst k'. unfold assign.
  apply String.eqb_neq in Hp. rewrite Hp. apply IH.
Qed.

Lemma split_fragment (pairs : list (string * string)) :
  pairs <> [] ->
  Forall (fun kv => token kv.1 = true /\ token kv.2 = true) pairs ->
  split_on "&"%char (fragment_of pairs)
  = map (fun kv => String.append kv.1 (String "="%char kv.2)) pairs
  /\ truthy (fragment_of pairs) = true.
Proof.
  induction pairs as [|[k v] pairs IH]; intros Hne Hall; [done|].
  apply Forall_cons in Hall as [[Hk Hv] Hall]. simpl in Hk, Hv.
  apply token_parts in Hk as (Hk1 & Hk2 & _).
  apply token_parts in Hv as (_ & Hv2 & _).
  assert (forall t, truthy (String.append k t) = true) as Htruthy.
  { intros t. destruct k; [done|done]. }
  destruct pairs as [|p pairs].
  - simpl. split; [|apply Htruthy].
    apply split_on_free. rewrite free_of_append. simpl. by rewrite Hk2, Hv2.
  - destruct (IH ltac:(done) Hall) as [IH1 _]. split; [|destruct p; apply Htruthy].
    change (fragment_of ((k, v) :: p :: pairs))
      with (String.append k
              (String "="%char
                 (String.append v (String "&"%char (fragment_of (p :: pairs)))))).
    replace (String.append k
               (String "="%char
                  (String.append v (String "&"%char (fragment_of (p :: pairs))))))
      with (String.append (String.append k (String "="%char v))
              (String "&"%char (fragment_of (p :: pairs)))).
    + rewrite split_on_append; [by rewrite IH1|].
      rewrite free_of_append. simpl. by rewrite Hk2, Hv2.
    + clear. generalize (fragment_of (p :: pairs)). intros t.
      induction k as [|c k IHk]; [done|].
      change (String c (String.append (String.append k (String "="%char v))
                          (String "&"%char t))
              = String c (String.append k
                            (String "="%char
                               (String.append v (String "&"%char t))))).
      by rewrite IHk.
Qed.

(** X14. The hash fragment [#k1=v1&k2=v2...] is read back pair by pair:
    when keys and values are non-empty and free of [&] and [=], no key is
    [__proto__] and every value decodes, the parameters found are exactly the
    decoded pairs, a later pair overriding an earlier one with the same key;
    an empty fragment and an absent hash give no parameter. *)
Theorem X14_hash_fragment_round_trip
    (pairs decoded : list (string * string)) (query : string) :
  Forall2 (fun kv kv' =>
             token kv.1 = true /\ token kv.2 = true /\ kv.1 <> "__proto__"
             /\ kv'.1 = kv.1 /\ decodeURIComponent kv.2 = inr kv'.2)
          pairs decoded ->
  parseHash decodeURIComponent
    {| search := query; hash := String "#"%char (fragment_of pairs) |}
  = inr (list_to_map (reverse decoded))
  /\ parseHash decodeURIComponent {| search := query; hash := "" |} = inr ∅.
Proof.
  intros Hall. split; [|done].
  unfold parseHash, hashFragment. simpl.
  destruct pairs as [|p pairs].
  - apply Forall2_nil_inv_l in Hall as ->. done.
  - destruct (split_fragment (p :: pairs)) as [Hsplit Htruthy]; [done| |].
    + eapply Forall2_Forall_l; [exact Hall|].
      apply Forall_true. intros kv' kv (? & ? & _). done.
    + rewrite Htruthy, Hsplit.
      rewrite (parsePairs_well_formed _ _ Hall), fold_left_insert_reverse.
      by rewrite (right_id_L ∅ (∪)).
Qed.

(** X15. When the URL reports an error (a non-empty [error] in the query
    string or, failing that, in the hash), or when a value of the hash cannot
    be decoded, [handleAuthCallback] neither asks for the session nor
    navigates: it only sets [error].  The text is the description decoded
    (once more, for a description taken from the hash), "Authentication
    error" when there is no description, and the generic message when
    decoding throws. *)
Theorem X15_reported_error_stops_the_callback
    (location : Location) (e0 : option string) (w : W) :
  let r := run AuthCallback.apply answer
             (handleAuthCallback URLSearchParams_get decodeURIComponent location)
             e0 w in
  match parseHash decodeURIComponent location with
  | inl err => True
  | inr hashParams =>
      truthy_opt (js_or (URLSearchParams_get (search location) "error")
                        (hashParams !! "error")) = true
  end ->
  List.filter AuthCallback.is_request (ran_events r) = []
  /\ List.filter AuthCallback.is_navigate (ran_events r) = []
  /\ ran_world r = w
  /\ ran_result r = inr tt
  /\ ran_state r
     = Some match parseHash decodeURIComponent location with
            | inl _ => unexpected
            | inr hashParams =>
                match js_or (URLSearchParams_get (search location)
                               "error_description")
                            (hashParams !! "error_description") with
                | None => "Authentication error"
                | Some d =>
                    match decodeURIComponent d with
                    | inr text => text
                    | inl _ => unexpected
                    end
                end
            end.
Proof.
  unfold handleAuthCallback. simpl.
  destruct (parseHash decodeURIComponent location) as [err|hashParams]; simpl.
  - by intros _.
  - intros ->.
    destruct (js_or _ (hashParams !! "error_description")) as [d|]; simpl.
    + destruct (decodeURIComponent d) as [err|text]; simpl; by repeat split.
    + by repeat split.
Qed.

(** X16. Every run of [handleAuthCallback] does exactly one of two
    things, once: it navigates or it sets [error]; it asks for the session at
    most once and never throws.  Without an error in the URL it asks once and
    then goes to "/" when there is a session, to "/login" when there is none,
    leaving [error] as it was; an error reply sets [error] to its message and
    a rejection sets the generic message, both without navigating. *)
Theorem X16_callback_navigates_or_reports
    (location : Location) (e0 : option string) (w : W) :
  let r := run AuthCallback.apply answer
             (handleAuthCallback URLSearchParams_get decodeURIComponent location)
             e0 w in
  length (List.filter AuthCallback.is_navigate (ran_events r))
  + length (List.filter AuthCallback.is_set_error (ran_events r)) = 1
  /\ length (List.filter AuthCallback.is_request (ran_events r)) <= 1
  /\ ran_result r = inr tt
  /\ (forall hashParams,
        parseHash decodeURIComponent location = inr hashParams ->
        truthy_opt (js_or (URLSearchParams_get (search location) "error")
                          (hashParams !! "error")) = false ->
        List.filter AuthCallback.is_request (ran_events r) = [inr GetSession]
        /\ match fst (answer GetSession w) with
           | inl _ =>
               ran_state r = Some unexpected
               /\ List.filter AuthCallback.is_navigate (ran_events r) = []
           | inr {| has_session := present; AuthCallback.error := Some err |} =>
               ran_state r = message err
               /\ List.filter AuthCallback.is_navigate (ran_events r) = []
           | inr {| has_session := present; AuthCallback.error := None |} =>
               ran_state r = e0
               /\ List.filter AuthCallback.is_navigate (ran_events r)
                  = [inl (AuthCallback.Navigate (if present then "/" else "/login"))]
           end).
Proof.
  unfold handleAuthCallback. simpl.
  destruct (parseHash decodeURIComponent location) as [err|hashParams]; simpl.
  - split_and!; try done; lia.
  - destruct (truthy_opt (js_or _ (hashParams !! "error"))) eqn:He; simpl.
    + destruct (js_or _ (hashParams !! "error_description")) as [d|]; simpl.
      * destruct (decodeURIComponent d) as [err|text]; simpl;
          (split_and!; try done; try lia; intros hp [= <-] H; congruence).
      * split_and!; try done; try lia. intros hp [= <-] H. congruence.
    + destruct (answer GetSession w) as [[err|[present [err|]]] w']; simpl.
      * split_and!; try done; lia.
      * split_and!; try done; lia.
      * destruct present; simpl; (split_and!; try done; lia).
Qed.

End AuthCallbackProperties.

Lemma X14_hash_fragment_witness :
  AuthCallback.parseHash decode_plain
    {| AuthCallback.search := "";
       AuthCallback.hash := "#error=a&state=s&error=access_denied" |}
  = inr (list_to_map [("error", "access_denied"); ("state", "s"); ("error", "a")]).
Proof.
  apply (X14_hash_fragment_round_trip decode_plain
           [("error", "a"); ("state", "s"); ("error", "access_denied")]
           [("error", "a"); ("state", "s"); ("error", "access_denied")] "").
  repeat constructor; discriminate.
Defined.

Lemma X15_reported_error_witness :
  ran_state
    (run AuthCallback.apply (fun (q : AuthCallback.Request) (w : unit) =>
                               (inl {| message := None |}, w))
       (AuthCallback.handleAuthCallback no_query decode_plain
          {| AuthCallback.search := "";
             AuthCallback.hash := "#error=access_denied&error_description=100%" |})
       None tt)
  = Some AuthCallback.unexpected.
Proof.
  apply (X15_reported_error_stops_the_callback no_query decode_plain
           (fun (q : AuthCallback.Request) (w : unit) =>
              (inl {| message := None |}, w))
           {| AuthCallback.search := "";
              AuthCallback.hash := "#error=access_denied&error_description=100%" |}
           None tt).
  reflexivity.
Defined.

Lemma X16_callback_witness :
  ran_events
    (run AuthCallback.apply
       (fun (q : AuthCallback.Request) (w : unit) =>
          (inr {| AuthCallback.has_session := true; AuthCallback.error := None |}, w))
       (AuthCallback.handleAuthCallback no_query decode_plain
          {| AuthCallback.search := ""; AuthCallback.hash := "#state=s" |})
       None tt)
  = [inr AuthCallback.GetSession; inl (AuthCallback.Navigate "/")].
Proof.
  destruct (X16_callback_navigates_or_reports no_query decode_plain
              (fun (q : AuthCallback.Request) (w : unit) =>
                 (inr {| AuthCallback.has_session := true;
                         AuthCallback.error := None |}, w))
              {| AuthCallback.search := ""; AuthCallback.hash := "#state=s" |}
              None tt) as (_ & _ & _ & H).
  destruct (H _ eq_refl eq_refl) as [_ _]. reflexivity.
Defined.

(** * The served functions *)

Section GenerateEmbeddingProperties.

Import GenerateEmbedding.

Variables Id Content Embedding : Type.
Variable is_truthy : Id -> bool.
Variables destructuringError indexError : JsError.
Context {W : Type}.
Variable answer :
  forall q : Request Id Content Embedding,
    W -> (JsError + Response Id Content Embedding q) * W.

(** X17. The embedding function always answers: a preflight gets "ok"
    with the CORS headers and nothing is called; any other request gets a
    JSON answer with the CORS headers whose status is 200, 400, 404 or 500,
    also when a client cannot be built, the body is not JSON or a
    collaborator rejects. *)
Theorem X17_embedding_function_always_answers (method : string) (w : W) :
  exists resp,
    ran_result (serve Id Content Embedding is_truthy destructuringError indexError answer method w) = inr resp
    /\ (method = "OPTIONS" ->
        resp = Http.preflight /\ ran_events (serve Id Content Embedding is_truthy destructuringError indexError answer method w) = []
        /\ ran_world (serve Id Content Embedding is_truthy destructuringError indexError answer method w) = w)
    /\ (method <> "OPTIONS" ->
        Http.headers resp = Http.jsonHeaders
        /\ (Http.status resp = 200 \/ Http.status resp = 400
            \/ Http.status resp = 404 \/ Http.status resp = 500)).
Proof.
  unfold serve, handler.
  destruct (String.eqb_spec method "OPTIONS") as [->|Hm]; simpl.
  { eexists. split; [done|]. split; [done|]. done. }
  destruct (answer (CreateClients _ _ _) w) as [[e1|[]] w1]; simpl;
    [eexists; split; [done|]; split; [done|]; intros _; split; [done|]; tauto|].
  destruct (answer (ReadJson _ _ _) w1) as [[e2|[|[id|]]] w2]; simpl;
    try (eexists; split; [done|]; split; [done|]; intros _; split; [done|]; tauto).
  destruct (is_truthy id); simpl;
    [|eexists; split; [done|]; split; [done|]; intros _; split; [done|]; tauto].
  destruct (answer (SelectKnowledge _ _ _ id) w2) as [[e3|[[c|] [e3|]]] w3]; simpl;
    try (eexists; split; [done|]; split; [done|]; intros _; split; [done|]; tauto).
  destruct (answer (CreateEmbedding _ _ _ c) w3) as [[e4|[|emb rest]] w4]; simpl;
    try (eexists; split; [done|]; split; [done|]; intros _; split; [done|]; tauto).
  destruct (answer (UpdateEmbedding _ _ _ id emb) w4) as [[e5|[d [e5|]]] w5]; simpl;
    eexists; (split; [done|]; split; [done|]; intros _; split; [done|]; tauto).
Qed.

(** X18. The embedding function calls the model only for the content of
    an entry it has found for a truthy [id], and updates only that entry, with
    an embedding the model has just returned; these calls happen once and in
    this order.  It answers 200 to a request other than a preflight only after
    such an update, and the body then says success. *)
Theorem X18_embedding_is_stored_only_after_it_was_computed
    (method : string) (w : W) :
  let r := serve Id Content Embedding is_truthy destructuringError indexError answer method w in
  let call := called Id Content Embedding in
  (forall id emb,
     call (UpdateEmbedding _ _ _ id emb) ∈ ran_events r ->
     is_truthy id = true
     /\ exists content,
          ran_events r
          = [call (CreateClients _ _ _); call (ReadJson _ _ _);
             call (SelectKnowledge _ _ _ id);
             call (CreateEmbedding _ _ _ content);
             call (UpdateEmbedding _ _ _ id emb)])
  /\ (forall content,
        call (CreateEmbedding _ _ _ content) ∈ ran_events r ->
        exists id rest,
          is_truthy id = true
          /\ ran_events r
             = ([call (CreateClients _ _ _); call (ReadJson _ _ _);
                 call (SelectKnowledge _ _ _ id);
                 call (CreateEmbedding _ _ _ content)] ++ rest)%list
          /\ length rest <= 1)
  /\ (method <> "OPTIONS" ->
      forall resp, ran_result r = inr resp -> Http.status resp = 200 ->
      Http.body resp = Http.SuccessBody "Embedding generated successfully"
      /\ length (List.filter (is_update Id Content Embedding) (ran_events r)) = 1).
Proof.
  unfold serve, handler, called.
  destruct (String.eqb_spec method "OPTIONS") as [->|Hm]; simpl.
  { split_and!; [intros ? ? H|intros ? H|done]; by apply elem_of_nil in H. }
  destruct (answer (CreateClients _ _ _) w) as [[e1|[]] w1]; simpl.
  { split_and!; [intros ? ? H|intros ? H|intros _ ? [= <-] [=]];
      repeat (apply elem_of_cons in H as [H|H]; [discriminate|]);
      by apply elem_of_nil in H. }
  destruct (answer (ReadJson _ _ _) w1) as [[e2|[|[id|]]] w2]; simpl;
    try (split_and!; [intros ? ? H|intros ? H|intros _ ? [= <-] [=]];
         repeat (apply elem_of_cons in H as [H|H]; [discriminate|]);
         by apply elem_of_nil in H).
  destruct (is_truthy id) eqn:Hid; simpl;
    [|split_and!; [intros ? ? H|intros ? H|intros _ ? [= <-] [=]];
      repeat (apply elem_of_cons in H as [H|H]; [discriminate|]);
      by apply elem_of_nil in H].
  destruct (answer (SelectKnowledge _ _ _ id) w2) as [[e3|[[c|] [e3|]]] w3]; simpl;
    try (split_and!; [intros ? ? H|intros ? H|intros _ ? [= <-] [=]];
         repeat (apply elem_of_cons in H as [H|H]; [discriminate|]);
         by apply elem_of_nil in H).
  destruct (answer (CreateEmbedding _ _ _ c) w3) as [[e4|[|emb rest]] w4]; simpl.
  - split_and!; [intros ? ? H|intros ? H|intros _ ? [= <-] [=]].
    + repeat (apply elem_of_cons in H as [H|H]; [discriminate|]).
      by apply elem_of_nil in H.
    + repeat (apply elem_of_cons in H as [H|H]; [try discriminate|]).
      * injection H as ->. exists id, []. split_and!; [done|done|simpl; lia].
      * by apply elem_of_nil in H.
  - split_and!; [intros ? ? H|intros ? H|intros _ ? [= <-] [=]].
    + repeat (apply elem_of_cons in H as [H|H]; [discriminate|]).
      by apply elem_of_nil in H.
    + repeat (apply elem_of_cons in H as [H|H]; [try discriminate|]).
      * injection H as ->. exists id, []. split_and!; [done|done|simpl; lia].
      * by apply elem_of_nil in H.
  - destruct (answer (UpdateEmbedding _ _ _ id emb) w4) as [[e5|[d [e5|]]] w5];
      simpl;
      (split_and!;
       [intros ? ? H;
        repeat (apply elem_of_cons in H as [H|H]; [try discriminate|]);
        [injection H as -> ->; split; [done|]; by exists c
        |by apply elem_of_nil in H]
       |intros ? H;
        repeat (apply elem_of_cons in H as [H|H]; [try discriminate|]);
        [injection H as ->;
         exists id, [inr (UpdateEmbedding Id Content Embedding id emb)];
         split_and!; [done|done|simpl; lia]
        |by apply elem_of_nil in H]
       |]).
    + intros _ ? [= <-] [=].
    + intros _ ? [= <-] [=].
    + intros _ ? [= <-] _. done.
Qed.

End GenerateEmbeddingProperties.

Lemma X17_embedding_function_witness :
  exists resp,
    ran_result
      (GenerateEmbedding.serve string string nat truthy
         not_an_object nothing_at_0 embedding_stub "POST" tt) = inr resp
    /\ Http.headers resp = Http.jsonHeaders.
Proof.
  destruct (X17_embedding_function_always_answers string string nat truthy
              not_an_object nothing_at_0 embedding_stub "POST" tt)
    as (resp & Hres & _ & Hpost).
  exists resp. split; [exact Hres|]. apply Hpost. discriminate.
Defined.

Lemma X18_embedding_witness :
  length
    (List.filter (GenerateEmbedding.is_update string string nat)
       (ran_events
          (GenerateEmbedding.serve string string nat truthy
             not_an_object nothing_at_0 embedding_stub "POST" tt))) = 1.
Proof.
  assert ("POST" <> "OPTIONS") as Hm by discriminate.
  destruct (X18_embedding_is_stored_only_after_it_was_computed string string nat
              truthy not_an_object nothing_at_0 embedding_stub "POST" tt)
    as (_ & _ & H).
  apply (H Hm
           (Http.json_response 200
              (Http.SuccessBody "Embedding generated successfully")));
    reflexivity.
Defined.

(** * The milestone timeline *)

Section GanttChartProperties.

Import GanttChart.

Variable Date_getTime : string -> Z.
Variable addDays : Z -> Z -> Z.
Variable plusWeek : Z -> Z.
Variable format : Z -> string.

Lemma insert_by_date_perm m l :
  Permutation (insert_by_date Date_getTime m l) (m :: l).
Proof.
  induction l as [|x l IH]; simpl; [done|].
  destruct (time Date_getTime m <=? time Date_getTime x)%Z; [done|].
  rewrite IH. apply perm_swap.
Qed.

Lemma insert_by_date_sorted m l :
  StronglySorted (earlier Date_getTime) l ->
  StronglySorted (earlier Date_getTime) (insert_by_date Date_getTime m l).
Proof.
  induction 1 as [|x l Hs IH Hx]; simpl.
  - repeat constructor.
  - destruct (Z.leb_spec (time Date_getTime m) (time Date_getTime x)) as [Hle|Hgt].
    + constructor; [by constructor|]. constructor; [done|].
      eapply Forall_impl; [exact Hx|]. unfold earlier. intros y Hy. lia.
    + constructor; [done|].
      rewrite (insert_by_date_perm m l). constructor; [unfold earlier; lia|done].
Qed.

Lemma sortedMilestones_perm ms :
  Permutation (sortedMilestones Date_getTime ms) ms.
Proof.
  induction ms as [|m ms IH]; simpl; [done|].
  rewrite insert_by_date_perm. by constructor.
Qed.

Lemma sortedMilestones_sorted ms :
  StronglySorted (earlier Date_getTime) (sortedMilestones Date_getTime ms).
Proof.
  induction ms as [|m ms IH]; simpl; [constructor|].
  by apply insert_by_date_sorted.
Qed.

Lemma last_cons_any (l : list Milestone) : forall x d d',
  List.last (x :: l) d = List.last (x :: l) d'.
Proof.
  induction l as [|y l IH]; intros x d d'; [done|].
  change (List.last (y :: l) d = List.last (y :: l) d'). apply IH.
Qed.

Lemma last_cons_elem (l : list Milestone) : forall x d,
  List.last (x :: l) d ∈ x :: l.
Proof.
  induction l as [|y l IH]; intros x d; [apply elem_of_cons; by left|].
  change (List.last (y :: l) d ∈ x :: y :: l). apply elem_of_cons. right. apply IH.
Qed.

Lemma sorted_first_last (l : list Milestone) : forall first,
  StronglySorted (earlier Date_getTime) (first :: l) ->
  forall m, m ∈ first :: l ->
    (time Date_getTime first <= time Date_getTime m
     <= time Date_getTime (List.last (first :: l) first))%Z.
Proof.
  induction l as [|x l IH]; intros first Hs m Hm.
  - apply list_elem_of_singleton in Hm as ->. simpl. lia.
  - apply StronglySorted_inv in Hs as [Hs Hall].
    change (List.last (first :: x :: l) first) with (List.last (x :: l) first).
    rewrite (last_cons_any l x first x).
    rewrite Forall_forall in Hall.
    assert (earlier Date_getTime first x) as Hfx by (apply Hall; apply elem_of_cons; by left).
    apply elem_of_cons in Hm as [->|Hm].
    + split; [lia|]. apply Hall. apply last_cons_elem.
    + destruct (IH x Hs m Hm) as [H1 H2]. unfold earlier in Hfx. lia.
Qed.

Hypothesis week_ahead : forall t : Z, (t < plusWeek t)%Z.

Lemma weekly_spec fuel : forall cur latest,
  (latest - cur < Z.of_nat fuel)%Z ->
  Forall (fun t => (cur <= t <= latest)%Z) (weekly plusWeek fuel cur latest)
  /\ StronglySorted Z.lt (weekly plusWeek fuel cur latest)
  /\ ((cur <= latest)%Z -> head (weekly plusWeek fuel cur latest) = Some cur)
  /\ (forall more, fuel <= more ->
        weekly plusWeek more cur latest = weekly plusWeek fuel cur latest).
Proof.
  induction fuel as [|fuel IH]; intros cur latest Hfuel.
  - simpl. split_and!; [constructor|constructor|lia|].
    intros [|more] _; simpl; [done|].
    destruct (Z.leb_spec cur latest); [lia|done].
  - simpl. destruct (Z.leb_spec cur latest) as [Hle|Hgt].
    + pose proof (week_ahead cur) as Hw.
      destruct (IH (plusWeek cur) latest ltac:(lia)) as (Hall & Hsorted & _ & Hmore).
      split_and!.
      * constructor; [lia|]. eapply Forall_impl; [exact Hall|]. simpl. lia.
      * constructor; [done|]. eapply Forall_impl; [exact Hall|]. simpl. lia.
      * done.
      * intros [|more] Hm; [lia|]. simpl.
        destruct (Z.leb_spec cur latest); [|lia]. rewrite Hmore; [done|lia].
    + split_and!; [constructor|constructor|lia|].
      intros [|more] Hm; [lia|]. simpl.
      destruct (Z.leb_spec cur latest); [lia|done].
Qed.

Lemma findIndex_spec wanted : forall fs idx i,
  findIndex wanted fs idx = Some i ->
  idx <= i < idx + length fs
  /\ fs !! (i - idx) = Some wanted
  /\ forall j, j < i - idx -> fs !! j <> Some wanted.
Proof.
  induction fs as [|f fs IH]; intros idx i; simpl; [done|].
  destruct (String.eqb_spec f wanted) as [->|Hne].
  - intros [= <-]. replace (idx - idx) with 0 by lia.
    split; [lia|]. split; [done|]. intros j Hj. lia.
  - intros H. destruct (IH _ _ H) as (Hr & Hi & Hfirst).
    split; [lia|].
    replace (i - idx) with (S (i - S idx)) by lia. split; [done|].
    intros [|j] Hj; simpl; [congruence|]. apply Hfirst. lia.
Qed.

Lemma reduce_closest_spec ticks target : forall rest pre closest,
  ticks = (pre ++ rest)%list ->
  (pre = [] /\ closest = 0)
  \/ (closest < length pre
      /\ forall j, j < length pre ->
           (distance ticks target closest <= distance ticks target j)%Z
           /\ (j < closest ->
               (distance ticks target closest < distance ticks target j)%Z)) ->
  ticks <> [] ->
  let result := reduce_closest ticks target rest (length pre) closest in
  result < length ticks
  /\ forall j, j < length ticks ->
       (distance ticks target result <= distance ticks target j)%Z
       /\ (j < result -> (distance ticks target result < distance ticks target j)%Z).
Proof.
  induction rest as [|current rest IH]; intros pre closest Hticks Hinv Hne; simpl.
  - rewrite app_nil_r in Hticks. subst pre.
    destruct Hinv as [[-> _]|Hinv]; [done|]. done.
  - assert (List.nth (length pre) ticks 0%Z = current) as Hcur.
    { subst ticks. rewrite List.app_nth2 by lia.
      by replace (length pre - length pre) with 0 by lia. }
    specialize (IH (pre ++ [current])%list
                  (if (Z.abs (current - target)
                       <? Z.abs (List.nth closest ticks 0%Z - target))%Z
                   then length pre else closest)).
    rewrite length_app in IH. simpl in IH.
    replace (length pre + 1) with (S (length pre)) in IH by lia.
    apply IH; [by rewrite <- app_assoc| |done]. clear IH.
    right. fold (distance ticks target closest).
    destruct Hinv as [[-> ->]|[Hlt Hbest]].
    + simpl in *.
      destruct (Z.abs (current - target) <? distance ticks target 0)%Z;
        (split; [lia|]; intros j Hj; assert (j = 0) as -> by lia; lia).
    + destruct (Z.ltb_spec (Z.abs (current - target))
                  (distance ticks target closest)) as [Hbetter|Hworse].
      * split; [lia|]. intros j Hj.
        assert (distance ticks target (length pre) = Z.abs (current - target))
          as Hd by (unfold distance; by rewrite Hcur).
        rewrite Hd.
        destruct (decide (j = length pre)) as [->|Hjne]; [rewrite Hd; lia|].
        destruct (Hbest j ltac:(lia)) as [H1 _]. lia.
      * split; [lia|]. intros j Hj.
        destruct (decide (j = length pre)) as [->|Hjne].
        -- unfold distance at 2. rewrite Hcur. lia.
        -- apply Hbest. lia.
Qed.

Lemma window_bounds (today : Z) (ms : list Milestone) :
  let sorted := sortedMilestones Date_getTime ms in
  let w := window Date_getTime addDays today sorted in
  (w.1 <= addDays today (-15))%Z
  /\ (addDays today 15 <= w.2)%Z
  /\ forall m, m ∈ sorted -> (w.1 <= time Date_getTime m <= w.2)%Z.
Proof.
  intros sorted w. subst w. unfold window.
  pose proof (sortedMilestones_sorted ms) as Hsorted. fold sorted in Hsorted.
  destruct sorted as [|first rest] eqn:Hs.
  - simpl. split; [lia|]. split; [lia|]. intros m Hm. by apply elem_of_nil in Hm.
  - cbv zeta. cbn [fst snd].
    pose proof (sorted_first_last rest first Hsorted) as Hfl.
    destruct (Z.gtb_spec (time Date_getTime first) (addDays today (-15)));
      destruct (Z.ltb_spec (time Date_getTime (List.last (first :: rest) first))
                  (addDays today 15));
      (split; [lia|]; split; [lia|]; intros m Hm; specialize (Hfl m Hm); lia).
Qed.

Lemma position_lt_length (ticks : list Z) (target : Z) :
  ticks <> [] -> position format ticks target < length ticks.
Proof.
  intros Hne. unfold position.
  destruct (findIndex (format target) (map format ticks) 0) as [i|] eqn:Hfind.
  - destruct (findIndex_spec _ _ _ _ Hfind) as (Hr & _).
    rewrite length_map in Hr. lia.
  - unfold closestDateIndex.
    apply (reduce_closest_spec ticks target ticks [] 0); [done| |done].
    by left.
Qed.

(** X19. With a calendar in which fifteen days back is not after today,
    fifteen days ahead is not before today and a week later is later, the
    timeline window always contains the thirty days around today and the
    date of every milestone; the weekly ticks start at the window's first
    date, stay inside the window, increase strictly, and are all the dates
    the loop produces (more turns add nothing), so there is at least one. *)
Theorem X19_timeline_window_and_ticks (today : Z) (ms : list Milestone) :
  (addDays today (-15) <= today <= addDays today 15)%Z ->
  let sorted := sortedMilestones Date_getTime ms in
  let w := window Date_getTime addDays today sorted in
  let ticks := allDates plusWeek w.1 w.2 in
  (w.1 <= addDays today (-15))%Z
  /\ (addDays today 15 <= w.2)%Z
  /\ (forall m, m ∈ ms -> (w.1 <= time Date_getTime m <= w.2)%Z)
  /\ head ticks = Some w.1
  /\ Forall (fun t => (w.1 <= t <= w.2)%Z) ticks
  /\ StronglySorted Z.lt ticks
  /\ (forall more, S (Z.to_nat (w.2 - w.1)) <= more ->
        weekly plusWeek more w.1 w.2 = ticks).
Proof.
  intros Hdays sorted w ticks.
  destruct (window_bounds today ms) as (Hlow & Hhigh & Hin).
  fold sorted in Hlow, Hhigh, Hin. fold w in Hlow, Hhigh, Hin.
  destruct (weekly_spec (S (Z.to_nat (w.2 - w.1))) w.1 w.2 ltac:(lia))
    as (Hall & Hsorted & Hhead & Hmore).
  split_and!; try done.
  - intros m Hm. apply Hin. subst sorted.
    by rewrite (sortedMilestones_perm ms).
  - apply Hhead. lia.
Qed.

(** X20. A milestone is always placed on an existing tick.  When some
    tick shows the same formatted day the position is the first such tick;
    otherwise it is a tick at the least distance from the milestone's date,
    the earliest one among equally close ticks. *)
Theorem X20_every_bar_is_placed_on_a_tick (ticks : list Z) (target : Z) :
  ticks <> [] ->
  let x := position format ticks target in
  x < length ticks
  /\ match findIndex (format target) (map format ticks) 0 with
     | Some _ =>
         format <$> ticks !! x = Some (format target)
         /\ forall j, j < x -> format <$> ticks !! j <> Some (format target)
     | None =>
         forall j, j < length ticks ->
           (distance ticks target x <= distance ticks target j)%Z
           /\ (j < x -> (distance ticks target x < distance ticks target j)%Z)
     end.
Proof.
  intros Hne. unfold position.
  destruct (findIndex (format target) (map format ticks) 0) as [i|] eqn:Hfind.
  - destruct (findIndex_spec _ _ _ _ Hfind) as (Hr & Hi & Hfirst).
    rewrite length_map in Hr. replace (i - 0) with i in * by lia.
    rewrite list_lookup_fmap in Hi. split; [lia|]. split; [done|].
    intros j Hj. rewrite <- list_lookup_fmap. by apply Hfirst.
  - unfold closestDateIndex.
    apply (reduce_closest_spec ticks target ticks [] 0); [done| |done].
    by left.
Qed.

(** X21. The chart has one bar per milestone, in the order of their
    dates; the bars are numbered from 0 in that order, keep name, owner,
    completion and status of their milestone, and each is placed on an
    existing tick. *)
Theorem X21_one_bar_per_milestone_in_date_order
    (today : Z) (ms : list Milestone) :
  (addDays today (-15) <= today <= addDays today 15)%Z ->
  let sorted := sortedMilestones Date_getTime ms in
  let w := window Date_getTime addDays today sorted in
  let bars := chartData Date_getTime addDays plusWeek format today ms in
  length bars = length ms
  /\ Permutation sorted ms
  /\ StronglySorted (earlier Date_getTime) sorted
  /\ forall i bar,
       bars !! i = Some bar ->
       index bar = i
       /\ xPosition bar < length (allDates plusWeek w.1 w.2)
       /\ exists m,
            sorted !! i = Some m
            /\ name bar = milestone m /\ bar_owner bar = owner m
            /\ bar_date bar = date m /\ bar_completion bar = completion m
            /\ bar_status bar = status m /\ statusColor bar = colorOf (status m).
Proof.
  intros Hdays sorted w bars.
  destruct (window_bounds today ms) as (Hlow & Hhigh & _).
  fold sorted in Hlow, Hhigh. fold w in Hlow, Hhigh.
  destruct (weekly_spec (S (Z.to_nat (w.2 - w.1))) w.1 w.2 ltac:(lia))
    as (_ & _ & Hhead & _).
  specialize (Hhead ltac:(lia)).
  assert (allDates plusWeek w.1 w.2 <> []) as Hne.
  { intros Hnil. unfold allDates in Hnil. by rewrite Hnil in Hhead. }
  subst bars. unfold chartData. fold sorted. fold w.
  split; [rewrite length_imap; subst sorted;
          by rewrite (sortedMilestones_perm ms)|].
  split; [apply sortedMilestones_perm|].
  split; [apply sortedMilestones_sorted|].
  intros i bar Hbar. rewrite list_lookup_imap in Hbar.
  destruct (sorted !! i) as [m|] eqn:Hm; [|done].
  simpl in Hbar. injection Hbar as <-. simpl.
  split; [done|]. split; [|by exists m].
  by apply position_lt_length.
Qed.

End GanttChartProperties.

Lemma X19_timeline_witness :
  head (GanttChart.allDates utc_plusWeek
          (GanttChart.window fortieth utc_addDays 0
             (GanttChart.sortedMilestones fortieth [kickoff])).1
          (GanttChart.window fortieth utc_addDays 0
             (GanttChart.sortedMilestones fortieth [kickoff])).2)
  = Some (-15 * 86400000)%Z.
Proof.
  destruct (X19_timeline_window_and_ticks fortieth utc_addDays utc_plusWeek
              ltac:(unfold utc_plusWeek; intros; lia) 0 [kickoff]
              ltac:(unfold utc_addDays; lia))
    as (_ & _ & _ & H & _).
  exact H.
Defined.

Lemma X20_every_bar_witness :
  GanttChart.position day_number [0; 604800000; 1209600000]%Z (9 * 86400000)%Z < 3
  /\ forall j, j < 3 ->
       (GanttChart.distance [0; 604800000; 1209600000]%Z (9 * 86400000)%Z
          (GanttChart.position day_number [0; 604800000; 1209600000]%Z
             (9 * 86400000)%Z)
        <= GanttChart.distance [0; 604800000; 1209600000]%Z (9 * 86400000)%Z j)%Z.
Proof.
  assert ([0; 604800000; 1209600000]%Z <> []) as Hne by discriminate.
  destruct (X20_every_bar_is_placed_on_a_tick day_number
              [0; 604800000; 1209600000]%Z (9 * 86400000)%Z Hne)
    as [Hlt Hclosest].
  split; [exact Hlt|]. intros j Hj. exact (proj1 (Hclosest j Hj)).
Defined.

Lemma X21_one_bar_witness :
  length (GanttChart.chartData fortieth utc_addDays utc_plusWeek day_number 0
            [kickoff; kickoff]) = 2.
Proof.
  destruct (X21_one_bar_per_milestone_in_date_order fortieth utc_addDays
              utc_plusWeek day_number
              ltac:(unfold utc_plusWeek; intros; lia) 0 [kickoff; kickoff]
              ltac:(unfold utc_addDays; lia))
    as (H & _).
  exact H.
Defined.

(** * The chat function *)

Section ProjectChatProperties.

Import ProjectChat.

Variables Value UserId Embedding : Type.
Variable is_truthy : Value -> bool.
Variables destructuringError indexError mapError choiceError : JsError.
Context {W : Type}.
Variable answer :
  forall q : Request Value UserId Embedding,
    W -> (JsError + Response Value UserId Embedding q) * W.

Lemma truthy_nonempty (s : string) : truthy s = true -> s <> "".
Proof. intros H ->. discriminate. Qed.

Ltac replay :=
  unfold after; simpl;
  repeat match goal with
         | H : answer ?q ?w = _ |- context [answer ?q ?w] => rewrite H; simpl
         end.

(** X22. The chat function always answers, and it reads or writes
    project data and calls the models only for a signed-in user: without an
    [Authorization] header (or with an empty one) it only builds the store
    client and answers 401; and whenever it selects a project, creates a
    conversation, reads or stores messages or calls a model, it has first
    passed the second word of the header to [auth.getUser] and received a
    user and no error. *)
Theorem X22_chat_requires_a_signed_in_user
    (method : string) (authHeader : option string) (w : W) :
  let r := serve is_truthy destructuringError indexError
             mapError choiceError answer method authHeader w in
  (exists resp, ran_result r = inr resp)
  /\ (method <> "OPTIONS" ->
      authHeader = None \/ authHeader = Some "" ->
      requests (ran_events r)
      = [CreateClient]
      /\ (ran_result r
          = inr (Http.json_response 401
                   (Http.ErrorBody (Some "Missing authorization header")))
          \/ exists err resp,
               fst (answer (CreateClient) w) = inl err
               /\ ran_result r = inr resp /\ Http.status resp = 500))
  /\ (forall q, q ∈ requests (ran_events r) ->
      is_privileged q = true ->
      exists header reply uid,
        authHeader = Some header /\ header <> ""
        /\ take 4 (requests (ran_events r))
           = [CreateClient;
              CreateOpenAI;
              ReadJson;
              GetUser (split_on " "%char header !! 1)]
        /\ fst (answer (GetUser
                          (split_on " "%char header !! 1))
                  (after answer
                     [CreateClient;
                      CreateOpenAI;
                      ReadJson] w)) = inr reply
        /\ user reply = Some uid /\ user_error reply = None).
Proof.
  intros r.
  destruct r as [st wd evs res] eqn:Hrun. subst r. simpl.
  unfold serve, handler in Hrun.
  destruct (String.eqb_spec method "OPTIONS") as [->|Hm].
  { simpl in Hrun. simplify_eq. split_and!; [by eexists|done|].
    intros q Hq. by apply elem_of_nil in Hq. }
  simpl in Hrun.
  repeat (case_match; simpl in *; simplify_eq);
    (split_and!;
     [by eexists
     |intros _ [?|?]; simplify_eq; try done;
      (split; [done|]); first [by left | right; replay; by eexists _, _]
     |intros q Hq Hp;
      repeat (apply elem_of_cons in Hq as [->|Hq]; [try discriminate Hp|]);
      try (by apply elem_of_nil in Hq);
      eexists _, _, _;
      (split_and!; first [done | by apply truthy_nonempty | replay; done])]).
Qed.

Lemma or_else_nonempty (x : option string) (fallback : string) :
  fallback <> "" -> or_else x fallback <> "".
Proof.
  intros Hf. unfold or_else. destruct x as [s|]; [|done].
  by destruct (String.eqb_spec s "").
Qed.

(** X23. When the chat function answers 200 to a request other than a
    preflight, it has, in this order and for one conversation id: read the
    stored history of that conversation, computed an embedding of the
    message, searched the knowledge table, stored the user's message, called
    the chat model with the system prompt of the selected project followed by
    the whole history and then the user's message, and stored the reply.  The
    body carries that conversation id and the stored reply, which is the
    content of the first choice or, when that is missing or empty, the
    apology; it is never empty.  The message and the project id are those of
    the request body, and the project is the row the store returned. *)
Theorem X23_answer_replays_history_and_is_stored
    (method : string) (authHeader : option string) (w : W)
    (resp : Answer Value) :
  let r := serve is_truthy destructuringError indexError
             mapError choiceError answer method authHeader w in
  method <> "OPTIONS" ->
  ran_result r = inr resp ->
  Http.status resp = 200 ->
  exists pid message cid jwt project created convoId history embedding k
         first rest,
    let opening :=
      ([CreateClient; CreateOpenAI;
        ReadJson; GetUser jwt;
        SelectProject pid] ++ created)%list in
    let prompt := systemPrompt project (knowledgeContext (reply_data k)) in
    let content := or_else first noResponse in
    let exchange :=
      [SelectHistory convoId;
       CreateEmbedding message;
       MatchKnowledge embedding;
       InsertMessage convoId "user" (Given message);
       CreateCompletion
         (messagesFor prompt history message)] in
    requests (ran_events r)
    = (opening ++ exchange
       ++ [InsertMessage convoId "assistant" (Text content)])%list
    /\ resp = Http.json_response 200 (Http.ChatBody convoId content)
    /\ content <> ""
    /\ length created <= 1
    /\ fst (answer (ReadJson)
              (after answer [CreateClient;
                             CreateOpenAI] w))
       = inr (ParsedWith (Some pid) (Some message) cid)
    /\ (exists p,
          fst (answer (SelectProject pid)
                 (after answer [CreateClient;
                                CreateOpenAI;
                                ReadJson;
                                GetUser jwt] w)) = inr p
          /\ reply_data p = Some project)
    /\ (exists h,
          fst (answer (SelectHistory convoId)
                 (after answer opening w)) = inr h
          /\ reply_data h = Some history)
    /\ fst (answer (MatchKnowledge embedding)
              (after answer
                 (opening ++ [SelectHistory convoId;
                              CreateEmbedding message])%list w))
       = inr k
    /\ fst (answer (CreateCompletion
                      (messagesFor prompt history message))
              (after answer
                 (opening
                  ++ [SelectHistory convoId;
                      CreateEmbedding message;
                      MatchKnowledge embedding;
                      InsertMessage convoId "user"
                        (Given message)])%list w))
       = inr (first :: rest).
Proof.
  intros r Hm Hres H200.
  destruct r as [st wd evs res] eqn:Hrun. subst r. simpl in *. subst res.
  unfold serve, handler in Hrun.
  destruct (String.eqb_spec method "OPTIONS") as [->|_]; [done|].
  simpl in Hrun.
  repeat (case_match; simpl in *; simplify_eq); try lia;
    (eexists _, _, _, _, _;
     (exists [] + eexists [_]);
     eexists _, _, _, _, _, _;
     cbv zeta; split_and!;
     first [done
           | by apply or_else_nonempty
           | simpl; lia
           | replay; done
           | eexists; split; [replay; done|done] ]).
Qed.

Ltac pick H :=
  repeat (apply elem_of_cons in H as [H|H]; [try discriminate H; simplify_eq|]);
  try (by apply elem_of_nil in H).

Ltac replay_in H :=
  unfold after in H; simpl in H;
  repeat match type of H with
         | context [answer ?q ?w] =>
             match goal with E : answer q w = _ |- _ => rewrite E in H; simpl in H end
         end.

(** X24. A conversation is created only when the request body names
    none (no [conversationId], or a falsy one), at most once, after the
    project was found, for the requested project and the signed-in user, and
    under the title "Chat about" followed by the project's title; what
    follows uses the id the store returned for it.  A conversation named in
    the body is used as it is.  In either case every later call of the
    request and the answer carry one and the same conversation id. *)
Theorem X24_conversation_is_created_only_when_none_is_named
    (method : string) (authHeader : option string) (w : W) :
  let r := serve is_truthy destructuringError indexError
             mapError choiceError answer method authHeader w in
  let evs := requests (ran_events r) in
  (forall pid uid title,
     InsertConversation pid uid title ∈ evs ->
     exists jwt message cid u project rest,
       evs = ([CreateClient; CreateOpenAI; ReadJson; GetUser jwt;
               SelectProject pid; InsertConversation pid uid title] ++ rest)%list
       /\ Forall (fun q => forall a b c, q <> InsertConversation a b c) rest
       /\ fst (answer ReadJson (after answer [CreateClient; CreateOpenAI] w))
          = inr (ParsedWith (Some pid) (Some message) cid)
       /\ (cid = None \/ exists c, cid = Some c /\ is_truthy c = false)
       /\ fst (answer (GetUser jwt)
                 (after answer [CreateClient; CreateOpenAI; ReadJson] w)) = inr u
       /\ user u = Some uid
       /\ (exists p,
             fst (answer (SelectProject pid)
                    (after answer [CreateClient; CreateOpenAI; ReadJson;
                                   GetUser jwt] w)) = inr p
             /\ reply_data p = Some project)
       /\ title = String.append "Chat about " (show_null (ProjectChat.title project))
       /\ (rest = []
           \/ exists newId n,
                head rest = Some (SelectHistory newId)
                /\ fst (answer (InsertConversation pid uid title)
                          (after answer [CreateClient; CreateOpenAI; ReadJson;
                                         GetUser jwt; SelectProject pid] w))
                   = inr n
                /\ reply_data n = Some newId /\ reply_error n = None))
  /\ (forall c, SelectHistory c ∈ evs ->
      (forall c', SelectHistory c' ∈ evs -> c' = c)
      /\ (forall c' role content, InsertMessage c' role content ∈ evs -> c' = c)
      /\ (forall resp c' text,
            ran_result r = inr resp -> Http.body resp = Http.ChatBody c' text ->
            c' = c))
  /\ (forall pid message c,
      fst (answer ReadJson (after answer [CreateClient; CreateOpenAI] w))
      = inr (ParsedWith pid message (Some c)) ->
      is_truthy c = true ->
      (forall a b t, InsertConversation a b t ∉ evs)
      /\ (forall c', SelectHistory c' ∈ evs -> c' = c)).
Proof.
  intros r evs. subst evs.
  destruct r as [st wd events res] eqn:Hrun. subst r. simpl.
  unfold serve, handler in Hrun.
  destruct (String.eqb_spec method "OPTIONS") as [->|_].
  { simpl in Hrun. simplify_eq. simpl.
    split_and!.
    - intros ? ? ? H. by apply elem_of_nil in H.
    - intros ? H. by apply elem_of_nil in H.
    - intros ? ? ? _ _. split; [|intros ? H; by apply elem_of_nil in H].
      intros ? ? ? H. by apply elem_of_nil in H. }
  simpl in Hrun.
  repeat (case_match; simpl in *; simplify_eq).
  all: split_and!.
  all: try (intros pid uid title Hin; pick Hin;
            eexists _, _, _, _, _, _;
            split_and!;
            first [ done
                  | replay; done
                  | by repeat (constructor; [done|])
                  | by left
                  | right; by eexists
                  | eexists; split; [replay; done|done]
                  | right; eexists _, _; split_and!; first [done | replay; done] ]).
  all: try (intros c Hc; pick Hc;
            (split_and!;
             [ intros c' Hc'; by pick Hc'
             | intros c' ro co Hc'; by pick Hc'
             | intros resp c' text ? ?; by simplify_eq/= ])).
  all: try (intros pid message c Hparsed Htruthy; replay_in Hparsed;
            simplify_eq; try congruence;
            (split; [intros a b t Hin; by pick Hin
                    |intros c' Hc'; by pick Hc'])).
Qed.

End ProjectChatProperties.

Lemma X22_chat_witness :
  exists reply uid,
    fst (chat_stub (ProjectChat.GetUser (Some "t0k3n")) tt) = inr reply
    /\ ProjectChat.user reply = Some uid.
Proof.
  destruct (X22_chat_requires_a_signed_in_user string string nat truthy
              not_an_object nothing_at_0 nothing_at_0 nothing_at_0
              chat_stub "POST" (Some "Bearer t0k3n") tt)
    as (_ & _ & H).
  destruct (H (ProjectChat.SelectProject "p1")) as (header & reply & uid & Hh & _ & _ & Hr & Hu & _).
  - apply list_elem_of_In. vm_compute. tauto.
  - reflexivity.
  - injection Hh as <-. by exists reply, uid.
Defined.

Lemma X23_answer_witness :
  exists convoId first,
    Http.json_response 200 (Http.ChatBody "c1" "On track.")
    = Http.json_response 200
        (Http.ChatBody convoId (or_else first ProjectChat.noResponse))
    /\ or_else first ProjectChat.noResponse <> "".
Proof.
  assert ("POST" <> "OPTIONS") as Hm by discriminate.
  destruct (X23_answer_replays_history_and_is_stored string string nat truthy
              not_an_object nothing_at_0 nothing_at_0 nothing_at_0
              chat_stub "POST" (Some "Bearer t0k3n") tt
              (Http.json_response 200 (Http.ChatBody "c1" "On track."))
              Hm eq_refl eq_refl)
    as (pid & message & cid & jwt & project & created & convoId & history
        & embedding & k & first & rest & _ & Hresp & Hne & _).
  exists convoId, first. split; [exact Hresp|exact Hne].
Defined.

Lemma X24_conversation_witness :
  exists project,
    "Chat about Status sheet"
    = String.append "Chat about " (show_null (ProjectChat.title project)).
Proof.
  destruct (X24_conversation_is_created_only_when_none_is_named string string nat truthy
              not_an_object nothing_at_0 nothing_at_0 nothing_at_0
              chat_stub "POST" (Some "Bearer t0k3n") tt)
    as (H & _).
  destruct (H "p1" "u1" "Chat about Status sheet")
    as (jwt & message & cid & u & project & rest & _ & _ & _ & _ & _ & _ & _ & Ht & _).
  - apply list_elem_of_In. vm_compute. tauto.
  - by exists project.
Defined.
